(** * Job crawler data processor: the ETL engine, embedded and verified

    The development follows the JavaScript sources of the data processor:

    - [utils/salary_parser.js], [utils/experience_mapper.js],
      [utils/location_normalizer.js], [utils/date_parser.js]: the field
      normalizers;
    - [processors/BaseProcessor.js]: [transformJob] and [processJobs], and
      the older [batchProcess] generation of the same class;
    - [services/database.js] (class [DatabaseService]) and the older
      function-style database module with [createJobPost];
    - [index.js]: the orchestrator [DataProcessorApp].

    JavaScript numbers are IEEE binary64 values: they are Rocq's primitive
    floats here.  Strings are [string]; [null] and [undefined] are [None].
    What the sources obtain from the JavaScript engine or from the outside
    world (regular expressions, lower-casing, the [Date] parser, the clock,
    the [URL] parser, the AI service) is gathered in the class [Runtime]:
    every definition and theorem is stated for an arbitrary runtime, and
    [Demo.runtime] is a small executable one used for concrete runs. *)

From Stdlib Require Import ZArith List String Ascii Bool Lia.
From Stdlib Require Import Sorted Permutation.
From Stdlib Require Import PrimFloat FloatOps SpecFloat FloatAxioms.
Import ListNotations.

Local Open Scope string_scope.
Local Open Scope list_scope.

(* ================================================================== *)
(** * JavaScript values *)
(* ================================================================== *)

Module Js.

(** Exceptions that the modelled code can raise. *)
Inductive Error : Type :=
| SyntaxError                    (* [new RegExp] on an invalid source *)
| TypeError                      (* property read on [undefined], call of a non-function *)
| RangeError                     (* [toISOString] on an invalid date *)
| Failure (message : string)     (* [throw new Error(message)] *)
| DatabaseError (code : string). (* a rejected query, with its SQLSTATE *)

(** The outcome of evaluating a call: a value, or an exception. *)
Inductive completion (A : Type) : Type :=
| Return (a : A)
| Throw (e : Error).
Arguments Return {A} a.
Arguments Throw {A} e.

Definition bind {A B} (c : completion A) (k : A -> completion B) : completion B :=
  match c with
  | Return a => k a
  | Throw e => Throw e
  end.

(** [!s] is false exactly for a non-empty string. *)
Definition truthy_string (s : string) : bool :=
  negb (String.eqb s "").

(** Truthiness of a value that is a string, [null] or [undefined]. *)
Definition truthy (s : option string) : bool :=
  match s with
  | Some v => truthy_string v
  | None => false
  end.

(** [a || b] on such values. *)
Definition or_else (a b : option string) : option string :=
  if truthy a then a else b.

(** A number is falsy when it is [0], [-0] or [NaN]. *)
Definition truthy_number (x : float) : bool :=
  negb (PrimFloat.is_nan x || PrimFloat.is_zero x).

(** Truthiness of an integer-valued number (never [NaN]). *)
Definition truthy_int (z : Z) : bool := negb (Z.eqb z 0).

(** [String.prototype.includes]. *)
Fixpoint includes (s sub : string) : bool :=
  if String.prefix sub s then true
  else match s with
       | EmptyString => false
       | String _ rest => includes rest sub
       end.

(** White space of ASCII texts: TAB, LF, VT, FF, CR and SPACE.  Strings
    are taken as ASCII texts throughout, one character a code unit; the
    other white-space characters of JavaScript (U+00A0, U+FEFF, U+2028 and
    the like) lie outside. *)
Definition is_space (c : ascii) : bool :=
  let n := nat_of_ascii c in
  (Nat.eqb n 32 || (Nat.leb 9 n && Nat.leb n 13))%bool.

Definition is_digit (c : ascii) : bool :=
  let n := nat_of_ascii c in (Nat.leb 48 n && Nat.leb n 57)%bool.

Definition digit_value (c : ascii) : Z := Z.of_nat (nat_of_ascii c) - 48.

Fixpoint skip_spaces (s : string) : string :=
  match s with
  | String c rest => if is_space c then skip_spaces rest else s
  | EmptyString => EmptyString
  end.

(** [s.replace(/,/g, '')] and [s.replace(/\s/g, '')]. *)
Fixpoint remove_chars (drop : ascii -> bool) (s : string) : string :=
  match s with
  | EmptyString => EmptyString
  | String c rest =>
      if drop c then remove_chars drop rest
      else String c (remove_chars drop rest)
  end.

(** The longest prefix of decimal digits, read as a number, with the number
    of digits read and the rest of the string. *)
Fixpoint read_digits (acc : Z) (count : nat) (s : string) : Z * nat * string :=
  match s with
  | String c rest =>
      if is_digit c then read_digits (10 * acc + digit_value c) (S count) rest
      else (acc, count, s)
  | EmptyString => (acc, count, s)
  end.

(** An optional sign; [true] is minus. *)
Definition read_sign (s : string) : bool * string :=
  match s with
  | String "-" rest => (true, rest)
  | String "+" rest => (false, rest)
  | _ => (false, s)
  end.

(** An exponent part [e[+-]digits]; it is part of the literal only when it
    has at least one digit. *)
Definition read_exponent (s : string) : Z :=
  match s with
  | String c rest =>
      if (Ascii.eqb c "e" || Ascii.eqb c "E")%bool then
        let (neg, rest') := read_sign rest in
        let '(e, n, _) := read_digits 0 0 rest' in
        match n with
        | O => 0
        | S _ => if neg then - e else e
        end
      else 0
  | EmptyString => 0
  end%Z.

(** The binary64 value nearest to [m * 10^e] (ties to even), for [m >= 0]. *)
Definition decimal_to_float (neg : bool) (m e : Z) : float :=
  match m with
  | Zpos p =>
      match e with
      | Zneg k =>
          SF2Prim (SFdiv prec emax (S754_finite neg p 0)
                                   (S754_finite false (Pos.pow 10 k) 0))
      | _ => SF2Prim (binary_normalize prec emax
                        (if neg then - (m * 10 ^ e) else m * 10 ^ e) 0 neg)
      end
  | _ => if neg then (-0)%float else 0%float
  end%Z.

(** [parseFloat]: leading white space is skipped, then the longest prefix
    that is a decimal literal is converted; [NaN] when there is none. *)
Definition parseFloat (s : string) : float :=
  let (neg, body) := read_sign (skip_spaces s) in
  if String.prefix "Infinity" body then
    (if neg then neg_infinity else infinity)
  else
    let '(int_part, int_len, after_int) := read_digits 0 0 body in
    let '(mant, frac_len, after_frac) :=
      match after_int with
      | String "." rest => read_digits int_part 0 rest
      | _ => (int_part, O, after_int)
      end in
    match int_len, frac_len with
    | O, O => nan
    | _, _ =>
        decimal_to_float neg mant
          (read_exponent after_frac - Z.of_nat frac_len)
    end.

Definition is_hex_digit (c : ascii) : bool :=
  let n := nat_of_ascii c in
  (is_digit c || (Nat.leb 65 n && Nat.leb n 70)
              || (Nat.leb 97 n && Nat.leb n 102))%bool.

Definition hex_value (c : ascii) : Z :=
  let n := Z.of_nat (nat_of_ascii c) in
  (if is_digit c then n - 48
   else if Z.leb 97 n then n - 87 else n - 55)%Z.

Fixpoint read_hex (acc : Z) (count : nat) (s : string) : Z * nat :=
  match s with
  | String c rest =>
      if is_hex_digit c then read_hex (16 * acc + hex_value c) (S count) rest
      else (acc, count)
  | EmptyString => (acc, count)
  end.

(** [parseInt] without a radix, on a string or [undefined]; [None] is
    [NaN].  The result is kept as an exact integer. *)
Definition parseInt (v : option string) : option Z :=
  match v with
  | None => None
  | Some s =>
      let (neg, body) := read_sign (skip_spaces s) in
      let '(z, n) :=
        match body with
        | String "0" (String x rest) =>
            if (Ascii.eqb x "x" || Ascii.eqb x "X")%bool
            then read_hex 0 0 rest
            else let '(z, n, _) := read_digits 0 0 body in (z, n)
        | _ => let '(z, n, _) := read_digits 0 0 body in (z, n)
        end in
      match n with
      | O => None
      | S _ => Some (if neg then - z else z)%Z
      end
  end.

(** The element [m[i]] of a match array; [m[undefined]] is [undefined]. *)
Definition group (m : list (option string)) (i : option nat) : option string :=
  match i with
  | Some n => match nth_error m n with
              | Some g => g
              | None => None
              end
  | None => None
  end.

(** An object used as a dictionary, as the list of its entries in
    [Object.entries] order.  [get] reads own properties only; [read],
    below, adds the properties that the object inherits. *)
Definition dict (V : Type) : Type := list (string * V).

Fixpoint get {V} (d : dict V) (k : string) : option V :=
  match d with
  | [] => None
  | (k', v) :: rest => if String.eqb k k' then Some v else get rest k
  end.

(** The property key a string-or-undefined value is converted to. *)
Definition property_key (k : option string) : string :=
  match k with
  | Some s => s
  | None => "undefined"
  end.

(** ** Inherited properties

    An object literal and an object that the YAML loader builds have
    [Object.prototype] as prototype, so a read [o[k]] with a computed key
    also finds the names below.  Their values are functions, and for
    [__proto__] the prototype object: all of them truthy, none a number or
    a string. *)
Definition objectPrototype : list string :=
  ["constructor"; "toString"; "toLocaleString"; "valueOf"; "hasOwnProperty";
   "isPrototypeOf"; "propertyIsEnumerable"; "__proto__";
   "__defineGetter__"; "__defineSetter__"; "__lookupGetter__";
   "__lookupSetter__"].

(** The outcome of a read [o[k]]: an own property, the value of the
    inherited property of that name, or [undefined]. *)
Inductive property (V : Type) : Type :=
| Own (v : V)
| Inherited (name : string)
| Undefined.
Arguments Own {V} v.
Arguments Inherited {V} name.
Arguments Undefined {V}.

(** [o[k]] along the prototype chain; [get] is its restriction to the own
    properties. *)
Definition read {V} (d : dict V) (k : string) : property V :=
  match get d k with
  | Some v => Own v
  | None => if existsb (String.eqb k) objectPrototype then Inherited k
            else Undefined
  end.

End Js.

Import Js.

(* ================================================================== *)
(** * The runtime the processor runs on *)
(* ================================================================== *)

(** What [text.match(new RegExp(source, 'i'))] does. *)
Inductive RegExpResult : Type :=
| InvalidRegExp                            (* the constructor throws *)
| NoMatch                                  (* [match] returns [null] *)
| Match (groups : list (option string)).   (* the match array *)

(** What [aiProcessor.process] resolves to.  The adapter catches every
    error of its own and resolves to [null] when it is disabled, over its
    daily budget or failed; an answer is the provider's text, or the object
    it parses to as JSON (kept as its string-valued fields). *)
Inductive AiValue : Type :=
| AiNull
| AiString (s : string)
| AiObject (fields : dict string).

Class Runtime : Type := {
  (** [String.prototype.toLowerCase] *)
  toLowerCase : string -> string;
  (** [text.match(new RegExp(source, 'i'))], by source then text *)
  regexp_match : string -> string -> RegExpResult;
  (** [new Date(text).getTime()]; [None] is an invalid date *)
  Date_parse : string -> option Z;
  (** [new Date().getTime()], milliseconds since the epoch *)
  Date_now : Z;
  (** [new URL(url).hostname]; [None] when the constructor throws *)
  URL_hostname : string -> option string;
  (** [await aiProcessor.process(prompt, text)]; the prompt may be missing
      from the configuration *)
  ai_process : option string -> string -> AiValue;
  (** PostgreSQL's [LOWER] *)
  sql_lower : string -> string
}.

(* ================================================================== *)
(** * Configuration documents *)
(* ================================================================== *)

(** An [ai_fallback] (or [ai_processing]) section. *)
Record AiFallback : Type := {
  ai_enabled : bool;
  ai_prompt : option string
}.

(** [config.x?.ai_fallback?.enabled] *)
Definition fallback_enabled (f : option AiFallback) : bool :=
  match f with
  | Some a => ai_enabled a
  | None => false
  end.

(** One entry of [salary.patterns]. *)
Record SalaryPattern : Type := {
  sp_regex : string;
  sp_type : string;
  sp_multiplier : option float;
  sp_currency : option string;
  sp_currency_group : option nat;
  sp_min_group : option nat;
  sp_max_group : option nat;
  sp_value_group : option nat
}.

Record SalaryConfig : Type := {
  salary_method : option string;
  salary_patterns : list SalaryPattern;
  salary_ai_fallback : option AiFallback;
  salary_default_currency : option string
}.

Record ExperienceConfig : Type := {
  experience_method : option string;
  experience_mappings : dict string;
  experience_ai_fallback : option AiFallback;
  experience_default : option string
}.

Record CountryPattern : Type := {
  cp_regex : string;
  cp_code : option string
}.

Record LocationConfig : Type := {
  location_method : option string;
  city_mappings : dict string;
  country_patterns : list CountryPattern;
  remote_keywords : list string;
  hybrid_keywords : list string;
  location_ai_fallback : option AiFallback;
  default_country : option string
}.

Record RelativePattern : Type := {
  rp_regex : string;
  rp_unit : option string
}.

Record DateConfig : Type := {
  date_method : option string;
  date_relative : list RelativePattern;
  date_formats : list string;
  date_ai_fallback : option AiFallback
}.

Record DescriptionConfig : Type := {
  description_method : option string;
  ai_processing : option AiFallback
}.

Record QualityChecks : Type := {
  required_fields : list string;
  max_title_length : option Z
}.

(** A platform's YAML document; a section that the document does not have
    is [None]. *)
Record Config : Type := {
  platform_id : option Z;
  salary : option SalaryConfig;
  experience_level : option ExperienceConfig;
  location : option LocationConfig;
  date : option DateConfig;
  description : option DescriptionConfig;
  quality_checks : option QualityChecks
}.

(** [x?.method || 'manual'] *)
Definition method_of {C} (get_method : C -> option string) (section : option C) : string :=
  match section with
  | Some c =>
      match get_method c with
      | Some m => if truthy_string m then m else "manual"
      | None => "manual"
      end
  | None => "manual"
  end.

Definition manual_or_ai (method : string) : bool :=
  (String.eqb method "manual" || String.eqb method "ai")%bool.

(* ================================================================== *)
(** * utils/salary_parser.js *)
(* ================================================================== *)

Module SalaryParser.

(** The object [extractSalaryFromMatch] builds. *)
Record SalaryInfo : Type := {
  s_min : option float;
  s_max : option float;
  s_average : option float;
  s_currency : option string;
  s_type : string
}.

(** What [parseSalary] returns: [null], a salary object, or the pending
    promise of [parseWithAI] (the function is not [async] and nothing
    awaits it). *)
Inductive SalaryResult : Type :=
| SalaryNull
| SalaryObject (info : SalaryInfo)
| SalaryPromise.

(** [cleanNumber(str)] *)
Definition cleanNumber (str : option string) : float :=
  match str with
  | Some s =>
      if truthy_string s then
        parseFloat (remove_chars is_space
                      (remove_chars (Ascii.eqb ",") s))
      else 0%float
  | None => 0%float
  end.

(** [pattern.multiplier || 1] *)
Definition multiplier (pattern : SalaryPattern) : float :=
  match sp_multiplier pattern with
  | Some m => if truthy_number m then m else 1%float
  | None => 1%float
  end.

(** [pattern.currency || match[pattern.currency_group] ||
    salaryConfig.default_currency] *)
Definition currency (m : list (option string)) (pattern : SalaryPattern)
    (salaryConfig : SalaryConfig) : option string :=
  or_else (or_else (sp_currency pattern) (group m (sp_currency_group pattern)))
          (salary_default_currency salaryConfig).

(** [extractSalaryFromMatch(match, pattern, salaryConfig)]; [None] is the
    [null] of the [default] branch. *)
Definition extractSalaryFromMatch (m : list (option string))
    (pattern : SalaryPattern) (salaryConfig : SalaryConfig) : option SalaryInfo :=
  let multiplier := multiplier pattern in
  let currency := currency m pattern salaryConfig in
  if String.eqb (sp_type pattern) "range" then
    let min := (cleanNumber (group m (sp_min_group pattern)) * multiplier)%float in
    let max := (cleanNumber (group m (sp_max_group pattern)) * multiplier)%float in
    Some {| s_min := Some min; s_max := Some max;
            s_average := Some ((min + max) / 2)%float;
            s_currency := currency; s_type := "range" |}
  else if String.eqb (sp_type pattern) "min" then
    let minVal := (cleanNumber (group m (sp_value_group pattern)) * multiplier)%float in
    Some {| s_min := Some minVal; s_max := None; s_average := Some minVal;
            s_currency := currency; s_type := "min" |}
  else if String.eqb (sp_type pattern) "max" then
    let maxVal := (cleanNumber (group m (sp_value_group pattern)) * multiplier)%float in
    Some {| s_min := None; s_max := Some maxVal; s_average := Some maxVal;
            s_currency := currency; s_type := "max" |}
  else if String.eqb (sp_type pattern) "exact" then
    let exact := (cleanNumber (group m (sp_value_group pattern)) * multiplier)%float in
    Some {| s_min := Some exact; s_max := Some exact; s_average := Some exact;
            s_currency := currency; s_type := "exact" |}
  else if String.eqb (sp_type pattern) "negotiable" then
    Some {| s_min := None; s_max := None; s_average := None;
            s_currency := salary_default_currency salaryConfig;
            s_type := "negotiable" |}
  else None.

Section WithRuntime.
Context {rt : Runtime}.

(** The loop of [parseManual] over [salaryConfig.patterns]: an invalid
    regex is caught and logged, a pattern that does not match is passed
    over, and the first pattern that matches decides the result. *)
Fixpoint parsePatterns (salaryText : string) (salaryConfig : SalaryConfig)
    (patterns : list SalaryPattern) : option SalaryInfo :=
  match patterns with
  | [] => None
  | pattern :: rest =>
      match regexp_match (sp_regex pattern) salaryText with
      | Match m => extractSalaryFromMatch m pattern salaryConfig
      | NoMatch => parsePatterns salaryText salaryConfig rest
      | InvalidRegExp => parsePatterns salaryText salaryConfig rest
      end
  end.

(** [parseManual(salaryText, salaryConfig)]; without a salary section the
    pattern list is empty. *)
Definition parseManual (salaryText : string) (salaryConfig : option SalaryConfig)
    : option SalaryInfo :=
  match salaryConfig with
  | Some c => parsePatterns salaryText c (salary_patterns c)
  | None => None
  end.

(** [parseSalary(salaryText, config)] *)
Definition parseSalary (salaryText : option string) (config : Config) : SalaryResult :=
  match salaryText with
  | None => SalaryNull
  | Some text =>
      if negb (truthy_string text) then SalaryNull
      else
        let method := method_of salary_method (salary config) in
        match (if manual_or_ai method then parseManual text (salary config)
               else None) with
        | Some info => SalaryObject info
        | None =>
            if (fallback_enabled
                  (match salary config with
                   | Some c => salary_ai_fallback c
                   | None => None
                   end)
                && String.eqb method "ai")%bool
            then SalaryPromise
            else SalaryNull
        end
  end.

End WithRuntime.

End SalaryParser.

(* ================================================================== *)
(** * utils/experience_mapper.js *)
(* ================================================================== *)

Module ExperienceMapper.

(** [this.referenceMap] *)
Definition referenceMap : dict Z :=
  [("Internship", 1); ("Entry", 2); ("Mid", 3);
   ("Senior", 4); ("Lead", 5); ("Executive", 6)]%Z.

(** [getExperienceLevelId(experienceName)]: [referenceMap[name] || 2], on
    the own entries of [referenceMap]; [PrototypeChain], below, has the
    read along the prototype chain. *)
Definition getExperienceLevelId (experienceName : string) : Z :=
  match get referenceMap experienceName with
  | Some id => if truthy_int id then id else 2%Z
  | None => 2%Z
  end.

(** [config.experience_level?.default || 'Entry'] *)
Definition default_level (config : Config) : string :=
  match experience_level config with
  | Some c =>
      match experience_default c with
      | Some d => if truthy_string d then d else "Entry"
      | None => "Entry"
      end
  | None => "Entry"
  end.

Section WithRuntime.
Context {rt : Runtime}.

(** The case-insensitive partial match of [mapManual], over
    [Object.entries(mappings)]. *)
Fixpoint partialMatch (lowerText : string) (entries : dict string) : option string :=
  match entries with
  | [] => None
  | (key, value) :: rest =>
      if (includes lowerText (toLowerCase key)
          || includes (toLowerCase key) lowerText)%bool
      then Some value
      else partialMatch lowerText rest
  end.

(** [mapManual(experienceText, experienceConfig)] *)
Definition mapManual (experienceText : string)
    (experienceConfig : option ExperienceConfig) : option string :=
  let mappings :=
    match experienceConfig with
    | Some c => experience_mappings c
    | None => []
    end in
  if truthy (get mappings experienceText) then get mappings experienceText
  else partialMatch (toLowerCase experienceText) mappings.

(** [mapWithAI(experienceText, prompt)]: the answer is kept only when it is
    a key of [referenceMap]. *)
Definition mapWithAI (experienceText : string) (prompt : option string) : option string :=
  match ai_process prompt experienceText with
  | AiString result =>
      match get referenceMap result with
      | Some id => if truthy_int id then Some result else None
      | None => None
      end
  | AiNull => None
  | AiObject _ => None
  end.

(** The part of [mapExperience] after the manual mapping: the AI fallback
    when it is enabled, then the default. *)
Definition afterManual (text : string) (config : Config) : string :=
  let aiResult :=
    match experience_level config with
    | Some c =>
        match experience_ai_fallback c with
        | Some f => if ai_enabled f then mapWithAI text (ai_prompt f) else None
        | None => None
        end
    | None => None
    end in
  match aiResult with
  | Some level => if truthy_string level then level else default_level config
  | None => default_level config
  end.

(** [mapExperience(experienceText, config)] *)
Definition mapExperience (experienceText : option string) (config : Config) : string :=
  match experienceText with
  | None => default_level config
  | Some text =>
      if negb (truthy_string text) then default_level config
      else
        let method := method_of experience_method (experience_level config) in
        match (if manual_or_ai method
               then mapManual text (experience_level config)
               else None) with
        | Some manualResult =>
            if truthy_string manualResult then manualResult
            else afterManual text config
        | None => afterManual text config
        end
  end.

End WithRuntime.

End ExperienceMapper.

(** ** The mapper with the inherited properties of its tables

    [mappings[experienceText]] and [this.referenceMap[...]] are reads with
    a computed key on plain objects.  The definitions above take the tables
    as dictionaries of their own entries; the ones below read along the
    prototype chain, so that a name such as "constructor" finds the
    inherited function. *)
Module PrototypeChain.

(** What [mapExperience] returns: a string, or the value of the property
    of that name inherited by the mapping table. *)
Inductive Level : Type :=
| LevelName (name : string)
| LevelInherited (property : string).

(** What [getExperienceLevelId] returns: a number, or the value of the
    property of that name inherited by [referenceMap]. *)
Inductive LevelId : Type :=
| Id (id : Z)
| IdInherited (property : string).

Definition truthyLevel (level : Level) : bool :=
  match level with
  | LevelName name => truthy_string name
  | LevelInherited _ => true
  end.

(** [this.referenceMap[experienceName] || 2].  An inherited value used as
    the key is converted to its text (the source text of the function, or
    "[object Object]"), which names no property. *)
Definition getExperienceLevelId (experienceName : Level) : LevelId :=
  match experienceName with
  | LevelName name =>
      match read ExperienceMapper.referenceMap name with
      | Own id => if truthy_int id then Id id else Id 2%Z
      | Inherited property => IdInherited property
      | Undefined => Id 2%Z
      end
  | LevelInherited _ => Id 2%Z
  end.

Section WithRuntime.
Context {rt : Runtime}.

(** [mapManual(experienceText, experienceConfig)] *)
Definition mapManual (experienceText : string)
    (experienceConfig : option ExperienceConfig) : option Level :=
  let mappings :=
    match experienceConfig with
    | Some c => experience_mappings c
    | None => []
    end in
  let partial :=
    option_map LevelName
      (ExperienceMapper.partialMatch (toLowerCase experienceText) mappings) in
  match read mappings experienceText with
  | Own value => if truthy_string value then Some (LevelName value) else partial
  | Inherited property => Some (LevelInherited property)
  | Undefined => partial
  end.

(** [mapWithAI(experienceText, prompt)]: the answer is kept when
    [this.referenceMap[result]] is truthy. *)
Definition mapWithAI (experienceText : string) (prompt : option string) : option string :=
  match ai_process prompt experienceText with
  | AiString result =>
      match read ExperienceMapper.referenceMap result with
      | Own id => if truthy_int id then Some result else None
      | Inherited _ => Some result
      | Undefined => None
      end
  | AiNull => None
  | AiObject _ => None
  end.

(** The part of [mapExperience] after the manual mapping. *)
Definition afterManual (text : string) (config : Config) : Level :=
  let aiResult :=
    match experience_level config with
    | Some c =>
        match experience_ai_fallback c with
        | Some f => if ai_enabled f then mapWithAI text (ai_prompt f) else None
        | None => None
        end
    | None => None
    end in
  match aiResult with
  | Some level => if truthy_string level then LevelName level
                  else LevelName (ExperienceMapper.default_level config)
  | None => LevelName (ExperienceMapper.default_level config)
  end.

(** [mapExperience(experienceText, config)] *)
Definition mapExperience (experienceText : option string) (config : Config) : Level :=
  match experienceText with
  | None => LevelName (ExperienceMapper.default_level config)
  | Some text =>
      if negb (truthy_string text)
      then LevelName (ExperienceMapper.default_level config)
      else
        let method := method_of experience_method (experience_level config) in
        match (if manual_or_ai method
               then mapManual text (experience_level config)
               else None) with
        | Some manualResult =>
            if truthyLevel manualResult then manualResult
            else afterManual text config
        | None => afterManual text config
        end
  end.

End WithRuntime.

End PrototypeChain.

(* ================================================================== *)
(** * utils/location_normalizer.js *)
(* ================================================================== *)

Module LocationNormalizer.

(** The object the normalizer returns; [isHybrid] is only set by
    [normalizeManual]. *)
Record LocationInfo : Type := {
  city : option string;
  country : option string;
  isRemote : bool;
  isHybrid : option bool
}.

(** What [normalizeLocation] returns: an object, or the pending promise of
    [normalizeWithAI] (nothing awaits it). *)
Inductive LocationResult : Type :=
| LocationObject (info : LocationInfo)
| LocationPromise.

(** [config.location?.default_country || 'VNM'] *)
Definition default_country_of (locationConfig : option LocationConfig) : string :=
  match locationConfig with
  | Some c =>
      match default_country c with
      | Some d => if truthy_string d then d else "VNM"
      | None => "VNM"
      end
  | None => "VNM"
  end.

(** The city loop: the first key of [cityMappings] that the text includes
    (case-sensitively) gives the city; otherwise the text is kept. *)
Fixpoint mapCity (locationText : string) (cityMappings : dict string) : string :=
  match cityMappings with
  | [] => locationText
  | (key, value) :: rest =>
      if includes locationText key then value
      else mapCity locationText rest
  end.

Section WithRuntime.
Context {rt : Runtime}.

(** [keywords.some(k => text.toLowerCase().includes(k.toLowerCase()))] *)
Definition someKeyword (locationText : string) (keywords : list string) : bool :=
  existsb (fun keyword =>
             includes (toLowerCase locationText) (toLowerCase keyword))
          keywords.

(** The country loop.  [new RegExp] is not guarded here: an invalid
    pattern source throws out of the loop. *)
Fixpoint detectCountry (locationText : string) (countryCode : option string)
    (countryPatterns : list CountryPattern) : completion (option string) :=
  match countryPatterns with
  | [] => Return countryCode
  | pattern :: rest =>
      match regexp_match (cp_regex pattern) locationText with
      | InvalidRegExp => Throw SyntaxError
      | Match _ => Return (cp_code pattern)
      | NoMatch => detectCountry locationText countryCode rest
      end
  end.

(** [normalizeManual(locationText, locationConfig)] *)
Definition normalizeManual (locationText : string)
    (locationConfig : option LocationConfig) : completion LocationInfo :=
  let cityMappings :=
    match locationConfig with Some c => city_mappings c | None => [] end in
  let countryPatterns :=
    match locationConfig with Some c => country_patterns c | None => [] end in
  let remoteKeywords :=
    match locationConfig with Some c => remote_keywords c | None => [] end in
  let hybridKeywords :=
    match locationConfig with Some c => hybrid_keywords c | None => [] end in
  let isRemote := someKeyword locationText remoteKeywords in
  let isHybrid := someKeyword locationText hybridKeywords in
  let city := mapCity locationText cityMappings in
  match locationConfig with
  | None => Throw TypeError     (* [locationConfig.default_country] *)
  | Some _ =>
      bind (detectCountry locationText
              (Some (default_country_of locationConfig)) countryPatterns)
        (fun countryCode =>
           Return {| city := if isRemote then Some "Remote" else Some city;
                     country := countryCode;
                     isRemote := isRemote;
                     isHybrid := Some isHybrid |})
  end.

(** [normalizeLocation(locationText, config)] *)
Definition normalizeLocation (locationText : option string) (config : Config)
    : completion LocationResult :=
  match locationText with
  | Some text =>
      if truthy_string text then
        let method := method_of location_method (location config) in
        if manual_or_ai method then
          (* the manual result is an object, hence always returned *)
          bind (normalizeManual text (location config))
               (fun manualResult => Return (LocationObject manualResult))
        else if fallback_enabled
                  (match location config with
                   | Some c => location_ai_fallback c
                   | None => None
                   end)
        then Return LocationPromise
        else Return (LocationObject
                       {| city := Some text;
                          country := Some (default_country_of (location config));
                          isRemote := false;
                          isHybrid := None |})
      else Return (LocationObject
                     {| city := None;
                        country := Some (default_country_of (location config));
                        isRemote := false;
                        isHybrid := None |})
  | None => Return (LocationObject
                      {| city := None;
                         country := Some (default_country_of (location config));
                         isRemote := false;
                         isHybrid := None |})
  end.

End WithRuntime.

End LocationNormalizer.

(* ================================================================== *)
(** * utils/date_parser.js *)
(* ================================================================== *)

Module DateParser.

Local Open Scope Z_scope.

(** ** Calendar arithmetic of [Date], in UTC

    [setDate], [setMonth] and [getDate] work in the process's local time
    zone; the processor is modelled as running in UTC. *)

Definition msPerDay : Z := 86400000.

(** The largest time value of a valid [Date]. *)
Definition maxTime : Z := 8640000000000000.

Definition validTime (t : Z) : bool := (- maxTime <=? t) && (t <=? maxTime).

(** Year, month (1..12) and day of a day number counted from the epoch. *)
Definition civil_from_days (days : Z) : Z * Z * Z :=
  let z := days + 719468 in
  let era := z / 146097 in
  let doe := z - era * 146097 in
  let yoe := (doe - doe / 1460 + doe / 36524 - doe / 146096) / 365 in
  let doy := doe - (365 * yoe + yoe / 4 - yoe / 100) in
  let mp := (5 * doy + 2) / 153 in
  let d := doy - (153 * mp + 2) / 5 + 1 in
  let m := if mp <? 10 then mp + 3 else mp - 9 in
  let y := yoe + era * 400 in
  (if m <=? 2 then y + 1 else y, m, d).

(** The day number of a year, month (1..12) and day; the day may lie
    outside the month, as [setDate] and [setMonth] allow. *)
Definition days_from_civil (y m d : Z) : Z :=
  let y' := if m <=? 2 then y - 1 else y in
  let era := y' / 400 in
  let yoe := y' - era * 400 in
  let doy := (153 * (if 2 <? m then m - 3 else m + 9) + 2) / 5 + d - 1 in
  let doe := yoe * 365 + yoe / 4 - yoe / 100 + doy in
  era * 146097 + doe - 719468.

(** The decimal digits of [z >= 0], padded with zeros to [width]. *)
Fixpoint digits (width : nat) (z : Z) : string :=
  match width with
  | O => EmptyString
  | S w => String.append (digits w (z / 10))
             (String (ascii_of_nat (Z.to_nat (48 + z mod 10))) EmptyString)
  end.

(** The year of an ISO date: four digits, or a sign and six digits outside
    0..9999. *)
Definition isoYear (y : Z) : string :=
  if (0 <=? y) && (y <=? 9999) then digits 4 y
  else if y <? 0 then String "-" (digits 6 (- y))
  else String "+" (digits 6 y).

(** [date.toISOString().split('T')[0]] for a valid time value. *)
Definition isoDate (t : Z) : string :=
  let '(y, m, d) := civil_from_days (t / msPerDay) in
  String.append (isoYear y)
    (String "-" (String.append (digits 2 m) (String "-" (digits 2 d)))).

(** [toISOString().split('T')[0]] of a possibly invalid date. *)
Definition toISODate (t : option Z) : completion string :=
  match t with
  | Some ms => if validTime ms then Return (isoDate ms) else Throw RangeError
  | None => Throw RangeError
  end.

(** [now.setMonth(now.getMonth() - amount)] *)
Definition setMonthBack (now amount : Z) : Z :=
  let '(y, m, d) := civil_from_days (now / msPerDay) in
  let months := (m - 1) - amount in
  days_from_civil (y + months / 12) (months mod 12 + 1) d * msPerDay
  + now mod msPerDay.

(** The value of a [listed_time] column: text, or the [Date] object that
    the database driver builds for a timestamp. *)
Inductive DateInput : Type :=
| DateText (s : string)
| DateObject (ms : Z).

(** What [parseDate] returns: [null], a date string, or the pending
    promise of [parseWithAI] (nothing awaits it). *)
Inductive DateResult : Type :=
| DateNull
| DateString (s : string)
| DatePromise.

(** [!dateText] *)
Definition present (dateText : option DateInput) : bool :=
  match dateText with
  | Some (DateText s) => truthy_string s
  | Some (DateObject _) => true
  | None => false
  end.

Section WithRuntime.
Context {rt : Runtime}.

(** [calculateRelativeDate(value, unit)]; [Return None] is the [null] of
    the [default] branch, and an invalid resulting date makes
    [toISOString] throw. *)
Definition calculateRelativeDate (value : option string) (unit : option string)
    : completion (option string) :=
  let now := Date_now in
  let amount := parseInt value in
  let moved (f : Z -> Z) : completion (option string) :=
    bind (toISODate (option_map f amount)) (fun s => Return (Some s)) in
  match unit with
  | Some u =>
      if String.eqb u "days" then moved (fun a => now - a * msPerDay)
      else if String.eqb u "weeks" then moved (fun a => now - (a * 7) * msPerDay)
      else if String.eqb u "months" then moved (fun a => setMonthBack now a)
      else Return None
  | None => Return None
  end.

(** [tryParseFormat(dateText, format)]: the format is not used. *)
Definition tryParseFormat (dateText : DateInput) (format : string) : option string :=
  let time :=
    match dateText with
    | DateText s => Date_parse s
    | DateObject ms => Some ms
    end in
  match time with
  | Some ms => if validTime ms then Some (isoDate ms) else None
  | None => None
  end.

(** The loop over [dateConfig.formats]. *)
Fixpoint tryFormats (dateText : DateInput) (formats : list string) : option string :=
  match formats with
  | [] => None
  | format :: rest =>
      match tryParseFormat dateText format with
      | Some parsed => if truthy_string parsed then Some parsed
                       else tryFormats dateText rest
      | None => tryFormats dateText rest
      end
  end.

(** The loop of [parseManual] over the relative patterns, followed by the
    absolute formats.  Everything thrown inside the loop body is caught:
    an invalid regex, [match] called on a [Date] object, or the
    [RangeError] of an invalid computed date. *)
Fixpoint parseRelative (dateText : DateInput) (formats : list string)
    (relativePatterns : list RelativePattern) : option string :=
  match relativePatterns with
  | [] => tryFormats dateText formats
  | pattern :: rest =>
      match dateText with
      | DateObject _ => parseRelative dateText formats rest
      | DateText text =>
          match regexp_match (rp_regex pattern) text with
          | Match m =>
              match calculateRelativeDate (group m (Some 1%nat)) (rp_unit pattern) with
              | Return result => result
              | Throw _ => parseRelative dateText formats rest
              end
          | NoMatch => parseRelative dateText formats rest
          | InvalidRegExp => parseRelative dateText formats rest
          end
      end
  end.

(** [parseManual(dateText, dateConfig)] *)
Definition parseManual (dateText : DateInput) (dateConfig : option DateConfig)
    : option string :=
  match dateConfig with
  | Some c => parseRelative dateText (date_formats c) (date_relative c)
  | None => None
  end.

(** [parseDate(dateText, config)] *)
Definition parseDate (dateText : option DateInput) (config : Config) : DateResult :=
  match dateText with
  | None => DateNull
  | Some text =>
      if negb (present dateText) then DateNull
      else
        let method := method_of date_method (date config) in
        let manualResult :=
          if manual_or_ai method then parseManual text (date config) else None in
        match manualResult with
        | Some s =>
            if truthy_string s then DateString s
            else if fallback_enabled
                      (match date config with
                       | Some c => date_ai_fallback c
                       | None => None
                       end)
            then DatePromise else DateNull
        | None =>
            if fallback_enabled
                 (match date config with
                  | Some c => date_ai_fallback c
                  | None => None
                  end)
            then DatePromise else DateNull
        end
  end.

End WithRuntime.

End DateParser.

(* ================================================================== *)
(** * Rows and documents shared by the processor and the stores *)
(* ================================================================== *)

(** A row of [getUnprocessedJobs]: a [job_posting] row of the raw store
    joined with its company. *)
Record RawJob : Type := {
  job_id : string;
  job_title : string;
  raw_description : option string;
  raw_salary : option string;
  raw_experience_level : option string;
  raw_location : option string;
  applies : option Z;
  listed_time : option DateParser.DateInput;
  platform : string;
  url : string;
  crawled_time : Z;
  processed : bool;
  company_name : option string;
  company_location : option string;
  company_url : option string
}.

(** [globalConfig.reference_tables] *)
Record ReferenceTables : Type := {
  currencies : dict Z;
  platforms_table : dict Z
}.

(** One entry of [globalConfig.platforms]. *)
Record PlatformEntry : Type := {
  pf_name : string;
  pf_enabled : bool;
  pf_priority : option Z;
  pf_processor_class : string
}.

(** [config/global.yaml].  The orchestrator and the processor read
    [settings] and [reference_tables] without a guard: the document is
    taken to have them. *)
Record GlobalConfig : Type := {
  platforms : dict PlatformEntry;
  reference_tables : ReferenceTables;
  batch_size : option Z
}.

(** The [company] part of a transformed job. *)
Record CompanyData : Type := {
  c_name : option string;
  c_location : option string;
  c_domain : option string
}.

(** The posted date of a transformed job: a [YYYY-MM-DD] string, or the
    promise that [parseDate] returned when it went to the AI fallback. *)
Inductive PostedDate : Type :=
| PostedOn (day : string)
| PostedPromise.

(** The object [transformJob] returns. *)
Record Job : Type := {
  company : CompanyData;
  title : string;
  jobDescription : option string;
  salaryPerMonth : option float;
  currencyId : option Z;
  experienceLevelId : Z;
  jobLocation : option string;
  countryCode : option string;
  applicantCount : option Z;
  postedDate : PostedDate;
  platformId : option Z;
  postUrl : string;
  crawledTime : Z;
  rawJobId : string
}.

(* ================================================================== *)
(** * processors/BaseProcessor.js *)
(* ================================================================== *)

Module BaseProcessor.

(** One entry of [stats.errors]. *)
Record ErrorEntry : Type := {
  err_job_id : string;
  err_job_title : string;
  err_error : Error
}.

(** [this.stats] *)
Record Stats : Type := {
  st_processed : nat;
  st_success : nat;
  st_failed : nat;
  st_errors : list ErrorEntry
}.

(** [resetStats()] *)
Definition resetStats : Stats :=
  {| st_processed := 0; st_success := 0; st_failed := 0; st_errors := [] |}.

(** A processor instance: [this.platformName], [this.config], [this.stats].
    The five platform classes override [transformJob] only to call the
    base method and return its result. *)
Record Processor : Type := {
  platformName : string;
  config : Config;
  stats : Stats
}.

(** ** [simpleCleanHtml] *)

(** [replace(/<[^>]*>/g, ' ')]: a [<] opens a tag when a [>] follows
    somewhere; the tag, up to the first [>], becomes one space. *)
Fixpoint stripTags (inside : bool) (html : string) : string :=
  match html with
  | EmptyString => EmptyString
  | String c rest =>
      if inside then
        if Ascii.eqb c ">" then String " " (stripTags false rest)
        else stripTags true rest
      else if (Ascii.eqb c "<" && includes rest ">")%bool then stripTags true rest
      else String c (stripTags false rest)
  end.

(** [replace(/\s+/g, ' ')] *)
Fixpoint collapseSpaces (after_space : bool) (s : string) : string :=
  match s with
  | EmptyString => EmptyString
  | String c rest =>
      if is_space c then
        if after_space then collapseSpaces true rest
        else String " " (collapseSpaces true rest)
      else String c (collapseSpaces false rest)
  end.

Fixpoint trimEnd (s : string) : string :=
  match s with
  | EmptyString => EmptyString
  | String c rest =>
      let rest' := trimEnd rest in
      if (is_space c && String.eqb rest' "")%bool then EmptyString
      else String c rest'
  end.

(** [String.prototype.trim] *)
Definition trim (s : string) : string := trimEnd (skip_spaces s).

(** [simpleCleanHtml(html)] *)
Definition simpleCleanHtml (html : option string) : option string :=
  match html with
  | Some h =>
      if truthy_string h then
        Some (String.substring 0 (Z.to_nat 10000)
                (trim (collapseSpaces false (stripTags false h))))
      else None
  | None => None
  end.

(** [currencyMap[currency] || currencyMap['VND']] *)
Definition getCurrencyId (currency : option string) (globalConfig : GlobalConfig)
    : option Z :=
  let currencyMap := currencies (reference_tables globalConfig) in
  match get currencyMap (property_key currency) with
  | Some id => if truthy_int id then Some id else get currencyMap "VND"
  | None => get currencyMap "VND"
  end.

(** [!!job[field]], for the field names of a transformed job. *)
Definition fieldPresent (job : Job) (field : string) : bool :=
  if String.eqb field "company" then true
  else if String.eqb field "title" then truthy_string (title job)
  else if String.eqb field "description" then truthy (jobDescription job)
  else if String.eqb field "salaryPerMonth" then
    match salaryPerMonth job with
    | Some amount => truthy_number amount
    | None => false
    end
  else if String.eqb field "currencyId" then
    match currencyId job with Some id => truthy_int id | None => false end
  else if String.eqb field "experienceLevelId" then truthy_int (experienceLevelId job)
  else if String.eqb field "location" then truthy (jobLocation job)
  else if String.eqb field "countryCode" then truthy (countryCode job)
  else if String.eqb field "applicantCount" then
    match applicantCount job with Some n => truthy_int n | None => false end
  else if String.eqb field "postedDate" then
    match postedDate job with
    | PostedOn day => truthy_string day
    | PostedPromise => true
    end
  else if String.eqb field "platformId" then
    match platformId job with Some id => truthy_int id | None => false end
  else if String.eqb field "postUrl" then truthy_string (postUrl job)
  else if String.eqb field "crawledTime" then true
  else if String.eqb field "rawJobId" then truthy_string (rawJobId job)
  else false.

(** [validateJob(job)].  Nothing in the processor or in the orchestrator
    calls it. *)
Definition validateJob (this : Processor) (job : Job) : bool :=
  let checks := quality_checks (config this) in
  let requiredFields :=
    match checks with Some q => required_fields q | None => [] end in
  let maxTitleLength :=
    match checks with
    | Some q => match max_title_length q with
                | Some n => if truthy_int n then n else 500%Z
                | None => 500%Z
                end
    | None => 500%Z
    end in
  (forallb (fieldPresent job) requiredFields
   && negb (truthy_string (title job)
            && (maxTitleLength <? Z.of_nat (String.length (title job)))%Z))%bool.

(** [salaryInfo?.average || null] *)
Definition averageOrNull (salaryInfo : SalaryParser.SalaryResult) : option float :=
  match salaryInfo with
  | SalaryParser.SalaryObject info =>
      match SalaryParser.s_average info with
      | Some average => if truthy_number average then Some average else None
      | None => None
      end
  | SalaryParser.SalaryNull => None
  | SalaryParser.SalaryPromise => None
  end.

(** [salaryInfo?.currency] *)
Definition currencyOf (salaryInfo : SalaryParser.SalaryResult) : option string :=
  match salaryInfo with
  | SalaryParser.SalaryObject info => SalaryParser.s_currency info
  | SalaryParser.SalaryNull => None
  | SalaryParser.SalaryPromise => None
  end.

Section WithRuntime.
Context {rt : Runtime}.

(** The default prompt of [processDescription]. *)
Definition defaultDescriptionPrompt : string :=
  "Clean this job description, remove HTML, keep only relevant info: {text}".

(** [processDescription(descriptionText)] *)
Definition processDescription (this : Processor) (descriptionText : option string)
    : option string :=
  match descriptionText with
  | None => None
  | Some text =>
      if negb (truthy_string text) then None
      else
        let fromAi :=
          match description (config this) with
          | Some descConfig =>
              match description_method descConfig, ai_processing descConfig with
              | Some m, Some ai =>
                  if (String.eqb m "ai" && ai_enabled ai)%bool then
                    let prompt :=
                      or_else (ai_prompt ai) (Some defaultDescriptionPrompt) in
                    match ai_process prompt text with
                    | AiObject fields =>
                        if truthy (get fields "cleaned_description")
                        then Some (get fields "cleaned_description")
                        else None
                    | AiString s => Some (Some s)
                    | AiNull => None
                    end
                  else None
              | _, _ => None
              end
          | None => None
          end in
        match fromAi with
        | Some cleaned => cleaned
        | None => simpleCleanHtml descriptionText
        end
  end.

(** [extractDomain(url)] *)
Definition extractDomain (url : option string) : option string :=
  match url with
  | Some u => if truthy_string u then URL_hostname u else None
  | None => None
  end.

(** [new Date().toISOString().split('T')[0]] *)
Definition today : string := DateParser.isoDate Date_now.

(** [dateParser.parseDate(...) || new Date().toISOString().split('T')[0]] *)
Definition postedDateOr (parsed : DateParser.DateResult) : PostedDate :=
  match parsed with
  | DateParser.DateString s => PostedOn s
  | DateParser.DatePromise => PostedPromise
  | DateParser.DateNull => PostedOn today
  end.

(** [transformJob(rawJob, globalConfig)].  The only call that can throw
    is [normalizeLocation]; no statement of the method catches it. *)
Definition transformJob (this : Processor) (rawJob : RawJob)
    (globalConfig : GlobalConfig) : completion Job :=
  let salaryInfo := SalaryParser.parseSalary (raw_salary rawJob) (config this) in
  let experienceLevel :=
    ExperienceMapper.mapExperience (raw_experience_level rawJob) (config this) in
  let experienceLevelId := ExperienceMapper.getExperienceLevelId experienceLevel in
  bind (LocationNormalizer.normalizeLocation (raw_location rawJob) (config this))
    (fun locationInfo =>
       let postedDate :=
         postedDateOr (DateParser.parseDate (listed_time rawJob) (config this)) in
       let description := processDescription this (raw_description rawJob) in
       let currencyId := getCurrencyId (currencyOf salaryInfo) globalConfig in
       let platformId :=
         match get (platforms_table (reference_tables globalConfig))
                   (platformName this) with
         | Some id => if truthy_int id then Some id else platform_id (config this)
         | None => platform_id (config this)
         end in
       Return
         {| company := {| c_name := company_name rawJob;
                          c_location := company_location rawJob;
                          c_domain := extractDomain (company_url rawJob) |};
            title := job_title rawJob;
            jobDescription := description;
            salaryPerMonth := averageOrNull salaryInfo;
            currencyId := currencyId;
            experienceLevelId := experienceLevelId;
            jobLocation :=
              match locationInfo with
              | LocationNormalizer.LocationObject info => LocationNormalizer.city info
              | LocationNormalizer.LocationPromise => None
              end;
            countryCode :=
              match locationInfo with
              | LocationNormalizer.LocationObject info => LocationNormalizer.country info
              | LocationNormalizer.LocationPromise => None
              end;
            applicantCount :=
              match applies rawJob with
              | Some n => if truthy_int n then Some n else None
              | None => None
              end;
            postedDate := postedDate;
            platformId := platformId;
            postUrl := url rawJob;
            crawledTime := crawled_time rawJob;
            rawJobId := job_id rawJob |})
  .

(** One turn of the loop of [processJobs]: the transformed job is pushed
    and counted as a success; an exception is caught, counted as a failure
    and recorded in [stats.errors]. *)
Definition processOne (this : Processor) (globalConfig : GlobalConfig)
    (acc : list Job * Stats) (rawJob : RawJob) : list Job * Stats :=
  let '(processedJobs, st) := acc in
  match transformJob this rawJob globalConfig with
  | Return processedJob =>
      (processedJobs ++ [processedJob],
       {| st_processed := S (st_processed st);
          st_success := S (st_success st);
          st_failed := st_failed st;
          st_errors := st_errors st |})
  | Throw error =>
      (processedJobs,
       {| st_processed := S (st_processed st);
          st_success := st_success st;
          st_failed := S (st_failed st);
          st_errors := st_errors st ++
                       [{| err_job_id := job_id rawJob;
                           err_job_title := job_title rawJob;
                           err_error := error |}] |})
  end.

(** [processJobs(rawJobs, globalConfig)]: the transformed jobs, and the
    processor with its updated statistics. *)
Definition processJobs (this : Processor) (rawJobs : list RawJob)
    (globalConfig : GlobalConfig) : list Job * Processor :=
  let '(processedJobs, st) :=
    fold_left (processOne this globalConfig) rawJobs ([], stats this) in
  (processedJobs,
   {| platformName := platformName this; config := config this; stats := st |}).

End WithRuntime.

End BaseProcessor.

(* ================================================================== *)
(** * The two stores *)
(* ================================================================== *)

(** Identifiers are the UUIDs that [gen_random_uuid()] draws; a store
    hands them out from a counter.  As JavaScript values they are
    non-empty strings, hence always truthy. *)
Definition uuid : Type := nat.

(** A row of the clean store's [Company] table. *)
Record CompanyRow : Type := {
  co_id : uuid;
  co_name : string;
  co_location : option string;
  co_domain : option string
}.

(** The values of an [INSERT INTO JobPost]: the [jobData] object of both
    generations of the database module ([companyId] is [company_id] in the
    older one, and so on). *)
Record JobData : Type := {
  jd_companyId : option uuid;
  jd_title : option string;
  jd_description : option string;
  jd_salaryPerMonth : option float;
  jd_currencyId : option Z;
  jd_experienceLevelId : option Z;
  jd_location : option string;
  jd_countryCode : option string;
  jd_applicantCount : option Z;
  jd_postedDate : option PostedDate;
  jd_platformId : option Z;
  jd_postUrl : option string;
  jd_crawledTime : option Z
}.

(** A row of the clean store's [JobPost] table. *)
Record JobPost : Type := {
  jp_id : uuid;
  jp_companyId : uuid;
  jp_title : string;
  jp_platformId : Z;
  jp_postUrl : string;
  jp_data : JobData
}.

(** The clean database: its two tables in insertion order, and the next
    identifier. *)
Record CleanStore : Type := {
  companyTable : list CompanyRow;
  jobPostTable : list JobPost;
  next_uuid : uuid
}.

(** The raw database: the [job_posting] rows, each joined with its
    company. *)
Definition RawStore : Type := list RawJob.

Module Sql.

(** SQLSTATE codes of the errors that are modelled.  Column lengths,
    numeric precision and foreign keys are not. *)
Definition not_null_violation : Error := DatabaseError "23502".
Definition unique_violation : Error := DatabaseError "23505".
Definition invalid_datetime : Error := DatabaseError "22007".
Definition invalid_limit : Error := DatabaseError "2201W".

(** [TRIM(s)]: spaces are removed at both ends. *)
Fixpoint ltrim (s : string) : string :=
  match s with
  | String c rest => if Ascii.eqb c " " then ltrim rest else s
  | EmptyString => EmptyString
  end.

Fixpoint rtrim (s : string) : string :=
  match s with
  | EmptyString => EmptyString
  | String c rest =>
      let rest' := rtrim rest in
      if (Ascii.eqb c " " && String.eqb rest' "")%bool then EmptyString
      else String c rest'
  end.

Definition TRIM (s : string) : string := rtrim (ltrim s).

(** The checks of an [INSERT INTO JobPost] that do not depend on the
    table: the [NOT NULL] columns, and a posted date that is a date. *)
Definition checkJobData (jobData : JobData)
    : completion (uuid * string * Z * string) :=
  match jd_postedDate jobData with
  | Some PostedPromise => Throw invalid_datetime
  | _ =>
      match jd_companyId jobData, jd_title jobData,
            jd_platformId jobData, jd_postUrl jobData with
      | Some companyId, Some title, Some platformId, Some postUrl =>
          Return (companyId, title, platformId, postUrl)
      | _, _, _, _ => Throw not_null_violation
      end
  end.

(** The row that an insert adds, with the next identifier. *)
Definition newJobPost (db : CleanStore) (jobData : JobData)
    (checked : uuid * string * Z * string) : JobPost :=
  let '(companyId, title, platformId, postUrl) := checked in
  {| jp_id := next_uuid db; jp_companyId := companyId; jp_title := title;
     jp_platformId := platformId; jp_postUrl := postUrl; jp_data := jobData |}.

Definition addJobPost (db : CleanStore) (row : JobPost) : CleanStore :=
  {| companyTable := companyTable db;
     jobPostTable := jobPostTable db ++ [row];
     next_uuid := S (next_uuid db) |}.

(** [SELECT ... FROM JobPost WHERE PostUrl = $1] *)
Definition selectByUrl (db : CleanStore) (postUrl : string) : option JobPost :=
  find (fun row => String.eqb (jp_postUrl row) postUrl) (jobPostTable db).

(** Stable insertion sort by a key, for [ORDER BY] and [Array.sort]. *)
Fixpoint insertBy {A} (key : A -> Z) (x : A) (sorted : list A) : list A :=
  match sorted with
  | [] => [x]
  | y :: rest =>
      if (key x <? key y)%Z then x :: sorted
      else y :: insertBy key x rest
  end.

Definition sortBy {A} (key : A -> Z) (l : list A) : list A :=
  fold_left (fun sorted x => insertBy key x sorted) l [].

End Sql.

(* ================================================================== *)
(** * services/database.js: class DatabaseService *)
(* ================================================================== *)

Module DatabaseService.

(** [getUnprocessedJobs(platform, limit)].  Of the limits that the query
    rejects, the negative ones are modelled; those beyond the range of
    [bigint] are not. *)
Definition getUnprocessedJobs (raw : RawStore) (platformName : string) (limit : Z)
    : completion (list RawJob) :=
  if (limit <? 0)%Z then Throw Sql.invalid_limit
  else
    Return
      (firstn (Z.to_nat limit)
         (Sql.sortBy crawled_time
            (filter (fun row => (negb (processed row)
                                 && String.eqb (platform row) platformName)%bool)
                    raw))).

(** [UPDATE job_posting SET processed = TRUE ... WHERE job_id = ANY($1)].
    The statement also sets [processed_at = CURRENT_TIMESTAMP] on every
    listed row, processed before or not; [RawJob] has no such column. *)
Definition markProcessed (jobIds : list string) (row : RawJob) : RawJob :=
  if existsb (String.eqb (job_id row)) jobIds then
    {| job_id := job_id row; job_title := job_title row;
       raw_description := raw_description row; raw_salary := raw_salary row;
       raw_experience_level := raw_experience_level row;
       raw_location := raw_location row; applies := applies row;
       listed_time := listed_time row; platform := platform row;
       url := url row; crawled_time := crawled_time row;
       processed := true;
       company_name := company_name row;
       company_location := company_location row;
       company_url := company_url row |}
  else row.

(** [markJobsProcessed(jobIds)] *)
Definition markJobsProcessed (raw : RawStore) (jobIds : list string) : RawStore :=
  map (markProcessed jobIds) raw.

(** The conflict target of [ON CONFLICT (Name, Domain)]: a row with the
    same name and the same domain; a null domain conflicts with nothing. *)
Definition sameNameAndDomain (name : string) (domain : option string)
    (row : CompanyRow) : bool :=
  match domain, co_domain row with
  | Some d, Some d' => (String.eqb (co_name row) name && String.eqb d d')%bool
  | _, _ => false
  end.

(** [upsertCompany(companyData)] *)
Definition upsertCompany (db : CleanStore) (companyData : CompanyData)
    : completion (uuid * CleanStore) :=
  match c_name companyData with
  | None => Throw Sql.not_null_violation
  | Some name =>
      match find (sameNameAndDomain name (c_domain companyData))
                 (companyTable db) with
      | Some existing =>
          Return
            (co_id existing,
             {| companyTable :=
                  map (fun row =>
                         if Nat.eqb (co_id row) (co_id existing)
                         then {| co_id := co_id row; co_name := co_name row;
                                 co_location := c_location companyData;
                                 co_domain := co_domain row |}
                         else row)
                      (companyTable db);
                jobPostTable := jobPostTable db;
                next_uuid := next_uuid db |})
      | None =>
          Return
            (next_uuid db,
             {| companyTable :=
                  companyTable db ++
                  [{| co_id := next_uuid db; co_name := name;
                      co_location := c_location companyData;
                      co_domain := c_domain companyData |}];
                jobPostTable := jobPostTable db;
                next_uuid := S (next_uuid db) |})
      end
  end.

(** [insertJobPost(jobData)]: [INSERT ... ON CONFLICT (PostUrl) DO NOTHING
    RETURNING Id], then [result.rows[0]?.id].  On a conflict no row is
    returned and the result is [undefined]. *)
Definition insertJobPost (db : CleanStore) (jobData : JobData)
    : completion (option uuid * CleanStore) :=
  bind (Sql.checkJobData jobData)
    (fun checked =>
       let row := Sql.newJobPost db jobData checked in
       match Sql.selectByUrl db (jp_postUrl row) with
       | Some _ => Return (None, db)
       | None => Return (Some (jp_id row), Sql.addJobPost db row)
       end).

End DatabaseService.

(* ================================================================== *)
(** * The older database module, with duplicate checking *)
(* ================================================================== *)

Module Database.

Section WithRuntime.
Context {rt : Runtime}.

(** [findJobByUrl(url)]; a null parameter selects nothing. *)
Definition findJobByUrl (db : CleanStore) (postUrl : option string) : option uuid :=
  match postUrl with
  | Some u => option_map jp_id (Sql.selectByUrl db u)
  | None => None
  end.

(** The [WHERE] clause of [findJobByCompanyTitlePlatform]. *)
Definition sameCompanyTitlePlatform (companyId : uuid) (title : string)
    (platformId : Z) (row : JobPost) : bool :=
  (Nat.eqb (jp_companyId row) companyId
   && String.eqb (sql_lower (Sql.TRIM (jp_title row))) (sql_lower (Sql.TRIM title))
   && Z.eqb (jp_platformId row) platformId)%bool.

(** [findJobByCompanyTitlePlatform(companyId, title, platformId)] *)
Definition findJobByCompanyTitlePlatform (db : CleanStore)
    (companyId : option uuid) (title : option string) (platformId : option Z)
    : option uuid :=
  match companyId, title, platformId with
  | Some c, Some t, Some p =>
      option_map jp_id (find (sameCompanyTitlePlatform c t p) (jobPostTable db))
  | _, _, _ => None
  end.

(** The plain [INSERT INTO JobPost ... RETURNING Id]. *)
Definition insertRow (db : CleanStore) (jobData : JobData)
    : completion (uuid * CleanStore) :=
  bind (Sql.checkJobData jobData)
    (fun checked =>
       let row := Sql.newJobPost db jobData checked in
       match Sql.selectByUrl db (jp_postUrl row) with
       | Some _ => Throw Sql.unique_violation
       | None => Return (jp_id row, Sql.addJobPost db row)
       end).

(** [createJobPost(jobData)]: the pair is [{ created, jobId }]. *)
Definition createJobPost (db : CleanStore) (jobData : JobData)
    : completion (bool * uuid * CleanStore) :=
  match findJobByUrl db (jd_postUrl jobData) with
  | Some existingJobId => Return (false, existingJobId, db)
  | None =>
      match findJobByCompanyTitlePlatform db (jd_companyId jobData)
              (jd_title jobData) (jd_platformId jobData) with
      | Some existingJobId => Return (false, existingJobId, db)
      | None =>
          match insertRow db jobData with
          | Return (newJobId, db') => Return (true, newJobId, db')
          | Throw (DatabaseError code) =>
              if String.eqb code "23505" then
                match findJobByUrl db (jd_postUrl jobData) with
                | Some existing => Return (false, existing, db)
                | None => Throw (DatabaseError code)
                end
              else Throw (DatabaseError code)
          | Throw error => Throw error
          end
      end
  end.

(** [markJobsAsProcessed(jobIds)] *)
Definition markJobsAsProcessed (raw : RawStore) (jobIds : list string) : RawStore :=
  match jobIds with
  | [] => raw
  | _ :: _ => DatabaseService.markJobsProcessed raw jobIds
  end.

(** The [WHERE] clause of [findCompanyByNameAndDomain]: the names agree up
    to case, and the domains agree up to case or are both null. *)
Definition sameCompany (name : string) (domain : option string)
    (row : CompanyRow) : bool :=
  (String.eqb (sql_lower (co_name row)) (sql_lower name)
   && match domain, co_domain row with
      | Some d, Some d' => String.eqb (sql_lower d') (sql_lower d)
      | None, None => true
      | _, _ => false
      end)%bool.

(** [findCompanyByNameAndDomain(name, domain)]; a null name selects
    nothing. *)
Definition findCompanyByNameAndDomain (db : CleanStore) (name : option string)
    (domain : option string) : option uuid :=
  match name with
  | Some n => option_map co_id (find (sameCompany n domain) (companyTable db))
  | None => None
  end.

(** [findCompanyByName(name)]: [LOWER(TRIM(Name)) = LOWER(TRIM($1))] *)
Definition findCompanyByName (db : CleanStore) (name : option string) : option uuid :=
  match name with
  | Some n =>
      option_map co_id
        (find (fun row => String.eqb (sql_lower (Sql.TRIM (co_name row)))
                                     (sql_lower (Sql.TRIM n)))
              (companyTable db))
  | None => None
  end.

(** The plain [INSERT INTO Company ... RETURNING Id]: the name is
    [NOT NULL], and [(Name, Domain)] is unique (a null domain conflicts
    with nothing). *)
Definition insertCompany (db : CleanStore) (name domain location : option string)
    : completion (uuid * CleanStore) :=
  match name with
  | None => Throw Sql.not_null_violation
  | Some n =>
      match find (DatabaseService.sameNameAndDomain n domain) (companyTable db) with
      | Some _ => Throw Sql.unique_violation
      | None =>
          Return (next_uuid db,
                  {| companyTable :=
                       companyTable db ++
                       [{| co_id := next_uuid db; co_name := n;
                           co_location := location; co_domain := domain |}];
                     jobPostTable := jobPostTable db;
                     next_uuid := S (next_uuid db) |})
      end
  end.

(** [createCompany(name, domain, location)] *)
Definition createCompany (db : CleanStore) (name domain location : option string)
    : completion (uuid * CleanStore) :=
  match findCompanyByNameAndDomain db name domain with
  | Some companyId => Return (companyId, db)
  | None =>
      match (if negb (truthy domain) then findCompanyByName db name else None) with
      | Some companyId => Return (companyId, db)
      | None =>
          match insertCompany db name domain location with
          | Return created => Return created
          | Throw (DatabaseError code) =>
              if String.eqb code "23505" then
                match findCompanyByNameAndDomain db name domain with
                | Some existing => Return (existing, db)
                | None => Throw (DatabaseError code)
                end
              else Throw (DatabaseError code)
          | Throw error => Throw error
          end
      end
  end.

(** [getUnprocessedJobs(limit)] of the older module: every platform. *)
Definition getUnprocessedJobs (raw : RawStore) (limit : Z) : completion (list RawJob) :=
  if (limit <? 0)%Z then Throw Sql.invalid_limit
  else
    Return (firstn (Z.to_nat limit)
              (Sql.sortBy crawled_time
                 (filter (fun row => negb (processed row)) raw))).

End WithRuntime.

End Database.

(* ================================================================== *)
(** * The older generation of BaseProcessor: batchProcess *)
(* ================================================================== *)

Module LegacyProcessor.

(** A processor of the older generation.  [processJob] is the method that
    "must be implemented by child class": it may use the clean store (to
    resolve the company) and returns the clean job, [null], or throws. *)
Record Processor : Type := {
  platformId : option Z;
  processJob : CleanStore -> RawJob -> completion (option JobData) * CleanStore
}.

(** The [results] object of [batchProcess]. *)
Record Results : Type := {
  total : nat;
  r_processed : nat;
  r_created : nat;
  r_skipped : nat;
  r_errors : nat;
  processedJobIds : list string
}.

Section WithRuntime.
Context {rt : Runtime}.

(** [s.replace(sub, '')]: the first occurrence of [sub] is removed. *)
Fixpoint removeFirst (sub s : string) : string :=
  if String.prefix sub s
  then String.substring (String.length sub) (String.length s - String.length sub) s
  else match s with
       | EmptyString => EmptyString
       | String c rest => String c (removeFirst sub rest)
       end.

(** The domain that [findOrCreateCompany] derives from the company URL:
    the host name without its first "www."; [null] without a URL or when
    the URL does not parse. *)
Definition companyDomain (companyUrl : option string) : option string :=
  match companyUrl with
  | Some u =>
      if truthy_string u then
        match URL_hostname u with
        | Some hostname => Some (removeFirst "www." hostname)
        | None => None
        end
      else None
  | None => None
  end.

(** [findOrCreateCompany(companyName, companyUrl, companyLocation)] *)
Definition findOrCreateCompany (db : CleanStore)
    (companyName companyUrl companyLocation : option string)
    : completion (uuid * CleanStore) :=
  Database.createCompany db companyName (companyDomain companyUrl) companyLocation.

(** [insertCleanJob(jobData)] *)
Definition insertCleanJob (this : Processor) (db : CleanStore) (jobData : JobData)
    : completion (bool * uuid * CleanStore) :=
  match jd_companyId jobData with
  | None => Throw (Failure "company_id is required")
  | Some _ =>
      if negb (truthy (jd_title jobData)) then Throw (Failure "title is required")
      else if negb (truthy (jd_postUrl jobData))
      then Throw (Failure "post_url is required")
      else
        Database.createJobPost db
          {| jd_companyId := jd_companyId jobData;
             jd_title := jd_title jobData;
             jd_description := jd_description jobData;
             jd_salaryPerMonth := jd_salaryPerMonth jobData;
             jd_currencyId := jd_currencyId jobData;
             jd_experienceLevelId := jd_experienceLevelId jobData;
             jd_location := jd_location jobData;
             jd_countryCode := jd_countryCode jobData;
             jd_applicantCount := jd_applicantCount jobData;
             jd_postedDate := jd_postedDate jobData;
             jd_platformId := platformId this;
             jd_postUrl := jd_postUrl jobData;
             jd_crawledTime := jd_crawledTime jobData |}
  end.

Definition countError (r : Results) : Results :=
  {| total := total r; r_processed := r_processed r; r_created := r_created r;
     r_skipped := r_skipped r; r_errors := S (r_errors r);
     processedJobIds := processedJobIds r |}.

Definition countProcessed (created : bool) (jobId : string) (r : Results) : Results :=
  {| total := total r; r_processed := S (r_processed r);
     r_created := if created then S (r_created r) else r_created r;
     r_skipped := if created then r_skipped r else S (r_skipped r);
     r_errors := r_errors r;
     processedJobIds := processedJobIds r ++ [jobId] |}.

(** One turn of the loop of [batchProcess]. *)
Definition batchStep (this : Processor) (acc : CleanStore * Results)
    (rawJob : RawJob) : CleanStore * Results :=
  let '(db, results) := acc in
  match processJob this db rawJob with
  | (Throw _, db1) => (db1, countError results)
  | (Return None, db1) => (db1, countError results)
  | (Return (Some cleanJob), db1) =>
      match insertCleanJob this db1 cleanJob with
      | Return (created, _, db2) =>
          (db2, countProcessed created (job_id rawJob) results)
      | Throw _ => (db1, countError results)
      end
  end.

(** [batchProcess(rawJobs)] on the two stores. *)
Definition batchProcess (this : Processor) (raw : RawStore) (db : CleanStore)
    (rawJobs : list RawJob) : RawStore * CleanStore * Results :=
  let '(db', results) :=
    fold_left (batchStep this) rawJobs
      (db, {| total := List.length rawJobs; r_processed := 0; r_created := 0;
              r_skipped := 0; r_errors := 0; processedJobIds := [] |}) in
  (Database.markJobsAsProcessed raw (processedJobIds results), db', results).

End WithRuntime.

End LegacyProcessor.

(* ================================================================== *)
(** * services/ai_processor.js *)
(* ================================================================== *)

Module AIProcessor.

(** The environment variables that the constructor reads. *)
Record Env : Type := {
  AI_ENABLED : option string;
  AI_PROVIDER : option string;
  GEMINI_API_KEY : option string;
  CLAUDE_API_KEY : option string;
  OPENAI_API_KEY : option string
}.

(** The adapter object. *)
Record State : Type := {
  enabled : bool;
  provider : string;
  apiKey : option string;
  dailyCallCount : Z;
  dailyLimit : Z
}.

(** [getApiKey()] for a provider. *)
Definition getApiKey (env : Env) (provider : string) : option string :=
  if String.eqb provider "gemini" then GEMINI_API_KEY env
  else if String.eqb provider "claude" then CLAUDE_API_KEY env
  else if String.eqb provider "openai" then OPENAI_API_KEY env
  else None.

(** The constructor. *)
Definition create (env : Env) : State :=
  let provider :=
    match AI_PROVIDER env with
    | Some p => if truthy_string p then p else "gemini"
    | None => "gemini"
    end in
  {| enabled := match AI_ENABLED env with
                | Some v => String.eqb v "true"
                | None => false
                end;
     provider := provider;
     apiKey := getApiKey env provider;
     dailyCallCount := 0;
     dailyLimit := 10000 |}.

Section WithProvider.

(** [processWithGemini], [processWithClaude] and [processWithOpenAI], by
    provider name: the request to the service and the parsing of its
    answer, which may throw. *)
Variable request : string -> option string -> string -> completion AiValue.

Definition counted (this : State) : State :=
  {| enabled := enabled this; provider := provider this; apiKey := apiKey this;
     dailyCallCount := dailyCallCount this + 1; dailyLimit := dailyLimit this |}.

(** [process(prompt, text)]: the answer and the adapter afterwards. *)
Definition process (this : State) (prompt : option string) (text : string)
    : AiValue * State :=
  if (negb (enabled this) || negb (truthy (apiKey this)))%bool then (AiNull, this)
  else if (dailyLimit this <=? dailyCallCount this)%Z then (AiNull, this)
  else
    (if (String.eqb (provider this) "gemini"
         || String.eqb (provider this) "claude"
         || String.eqb (provider this) "openai")%bool
     then match request (provider this) prompt text with
          | Return answer => answer
          | Throw _ => AiNull
          end
     else AiNull,
     counted this).

(** [resetDailyCount()] *)
Definition resetDailyCount (this : State) : State :=
  {| enabled := enabled this; provider := provider this; apiKey := apiKey this;
     dailyCallCount := 0; dailyLimit := dailyLimit this |}.

(** What the processor and the scheduler do with the adapter. *)
Inductive Call : Type :=
| Process (prompt : option string) (text : string)
| Reset.

Definition perform (this : State) (c : Call) : State :=
  match c with
  | Process prompt text => snd (process this prompt text)
  | Reset => resetDailyCount this
  end.

End WithProvider.

End AIProcessor.

(* ================================================================== *)
(** * index.js: class DataProcessorApp *)
(* ================================================================== *)

Module DataProcessorApp.

(** The messages of the orchestrator that matter to an observer. *)
Inductive LogEntry : Type :=
| AlreadyInProgress                       (* 'Processing already in progress' *)
| SkippingCycle                           (* 'Previous processing still running, ...' *)
| CycleStarted
| NoUnprocessedJobs (platformName : string)
| FoundJobs (count : nat)
| InsertFailed (title : string) (error : Error)
| InsertedAndMarked (inserted marked : nat)
| PlatformStats (processed success failed : nat)
| PlatformFailed (platformKey : string) (error : Error)
| CycleCompleted (processed success failed : nat).

(** The two databases and the log. *)
Record World : Type := {
  rawStore : RawStore;
  cleanStore : CleanStore;
  log : list LogEntry
}.

(** The application object: [this.globalConfig], [this.processors],
    [this.isProcessing], and the [BATCH_SIZE] variable of its environment. *)
Record App : Type := {
  globalConfig : GlobalConfig;
  processors : dict BaseProcessor.Processor;
  isProcessing : bool;
  env_BATCH_SIZE : option string
}.

(** A call of [processAllPlatforms] that has passed the guard and is
    suspended in its loop: the platform keys still to visit and the
    running totals. *)
Record Cycle : Type := {
  batchSize : Z;
  remaining : list string;
  totalProcessed : nat;
  totalSuccess : nat;
  totalFailed : nat
}.

(** The process: the application, the world, and the calls in flight. *)
Record System : Type := {
  app : App;
  world : World;
  running : list Cycle
}.

Definition setProcessing (a : App) (flag : bool) : App :=
  {| globalConfig := globalConfig a; processors := processors a;
     isProcessing := flag; env_BATCH_SIZE := env_BATCH_SIZE a |}.

Definition setProcessor (a : App) (key : string) (p : BaseProcessor.Processor) : App :=
  {| globalConfig := globalConfig a;
     processors := map (fun entry => if String.eqb (fst entry) key
                                     then (key, p) else entry)
                       (processors a);
     isProcessing := isProcessing a; env_BATCH_SIZE := env_BATCH_SIZE a |}.

Definition addLog (w : World) (entries : list LogEntry) : World :=
  {| rawStore := rawStore w; cleanStore := cleanStore w;
     log := log w ++ entries |}.






(** [parseInt(process.env.BATCH_SIZE) || settings.batch_size || 100] *)
Definition batchSizeOf (a : App) : Z :=
  match parseInt (env_BATCH_SIZE a) with
  | Some n => if truthy_int n then n else
                match batch_size (globalConfig a) with
                | Some b => if truthy_int b then b else 100%Z
                | None => 100%Z
                end
  | None => match batch_size (globalConfig a) with
            | Some b => if truthy_int b then b else 100%Z
            | None => 100%Z
            end
  end.

(** [this.globalConfig.platforms[key]?.priority || 999] *)
Definition priorityOf (g : GlobalConfig) (key : string) : Z :=
  match get (platforms g) key with
  | Some entry =>
      match pf_priority entry with
      | Some p => if truthy_int p then p else 999%Z
      | None => 999%Z
      end
  | None => 999%Z
  end.

(** The keys of [this.processors], sorted by priority. *)
Definition sortedPlatforms (a : App) : list string :=
  Sql.sortBy (priorityOf (globalConfig a)) (map fst (processors a)).

(** The object passed to [db.insertJobPost]. *)
Definition toJobData (companyId : uuid) (job : Job) : JobData :=
  {| jd_companyId := Some companyId;
     jd_title := Some (title job);
     jd_description := jobDescription job;
     jd_salaryPerMonth := salaryPerMonth job;
     jd_currencyId := currencyId job;
     jd_experienceLevelId := Some (experienceLevelId job);
     jd_location := jobLocation job;
     jd_countryCode := countryCode job;
     jd_applicantCount := applicantCount job;
     jd_postedDate := Some (postedDate job);
     jd_platformId := platformId job;
     jd_postUrl := Some (postUrl job);
     jd_crawledTime := Some (crawledTime job) |}.

(** What the insert loop accumulates: the clean store, [inserted],
    [processedJobIds] and the log. *)
Record Commit : Type := {
  cm_store : CleanStore;
  inserted : nat;
  processedJobIds : list string;
  cm_log : list LogEntry
}.

(** One turn of the insert loop: the company is upserted, the job post
    inserted, and the raw id is recorded only when the insert returned an
    id; an exception is caught and logged. *)
Definition commitJob (acc : Commit) (job : Job) : Commit :=
  match DatabaseService.upsertCompany (cm_store acc) (company job) with
  | Throw error =>
      {| cm_store := cm_store acc; inserted := inserted acc;
         processedJobIds := processedJobIds acc;
         cm_log := cm_log acc ++ [InsertFailed (title job) error] |}
  | Return (companyId, store1) =>
      match DatabaseService.insertJobPost store1 (toJobData companyId job) with
      | Throw error =>
          {| cm_store := store1; inserted := inserted acc;
             processedJobIds := processedJobIds acc;
             cm_log := cm_log acc ++ [InsertFailed (title job) error] |}
      | Return (Some _, store2) =>
          {| cm_store := store2; inserted := S (inserted acc);
             processedJobIds := processedJobIds acc ++ [rawJobId job];
             cm_log := cm_log acc |}
      | Return (None, store2) =>
          {| cm_store := store2; inserted := inserted acc;
             processedJobIds := processedJobIds acc;
             cm_log := cm_log acc |}
      end
  end.

Definition commitJobs (store : CleanStore) (jobs : list Job) : Commit :=
  fold_left commitJob jobs
    {| cm_store := store; inserted := 0; processedJobIds := []; cm_log := [] |}.

Section WithRuntime.
Context {rt : Runtime}.

(** The body of the loop of [processAllPlatforms] for one platform key,
    inside its [try] block.  It returns the application (the processor's
    statistics change), the world, and the statistics added to the
    totals. *)
Definition processPlatform (a : App) (w : World) (size : Z) (platformKey : string)
    : App * World * (nat * nat * nat) :=
  match get (processors a) platformKey, get (platforms (globalConfig a)) platformKey with
  | Some processor, Some entry =>
      match DatabaseService.getUnprocessedJobs (rawStore w) (pf_name entry) size with
      | Throw error => (a, addLog w [PlatformFailed platformKey error], (0, 0, 0))
      | Return [] => (a, addLog w [NoUnprocessedJobs (pf_name entry)], (0, 0, 0))
      | Return rawJobs =>
          let '(transformedJobs, processor') :=
            BaseProcessor.processJobs processor rawJobs (globalConfig a) in
          let done := commitJobs (cleanStore w) transformedJobs in
          let st := BaseProcessor.stats processor' in
          let marked :=
            match processedJobIds done with
            | [] => []
            | _ :: _ => [InsertedAndMarked (inserted done)
                           (List.length (processedJobIds done))]
            end in
          (setProcessor a platformKey
             {| BaseProcessor.platformName := BaseProcessor.platformName processor';
                BaseProcessor.config := BaseProcessor.config processor';
                BaseProcessor.stats := BaseProcessor.resetStats |},
           {| rawStore :=
                match processedJobIds done with
                | [] => rawStore w
                | _ :: _ =>
                    DatabaseService.markJobsProcessed (rawStore w)
                      (processedJobIds done)
                end;
              cleanStore := cm_store done;
              log := log w ++ [FoundJobs (List.length rawJobs)] ++ cm_log done
                     ++ marked
                     ++ [PlatformStats (BaseProcessor.st_processed st)
                           (BaseProcessor.st_success st)
                           (BaseProcessor.st_failed st)] |},
           (BaseProcessor.st_processed st, BaseProcessor.st_success st,
            BaseProcessor.st_failed st))
      end
  | _, _ => (a, addLog w [PlatformFailed platformKey TypeError], (0, 0, 0))
  end.

(** ** The process as a transition system

    JavaScript runs one callback at a time and a call of an [async]
    function runs until it awaits.  An event is a call of
    [processAllPlatforms] (by [start] or by anyone holding the
    application), a firing of the cron callback of [start], or the
    resumption of a suspended call, which handles its next platform, or
    finishes when none is left. *)
Inductive Event : Type :=
| Invoke
| CronTick
| Resume (index : nat).

(** [processAllPlatforms()] up to its loop: the guard, the flag, the batch
    size and the sorted platforms. *)
Definition invoke (s : System) : System :=
  if isProcessing (app s) then
    {| app := app s; world := addLog (world s) [AlreadyInProgress];
       running := running s |}
  else
    {| app := setProcessing (app s) true;
       world := addLog (world s) [CycleStarted];
       running := running s ++
                  [{| batchSize := batchSizeOf (app s);
                      remaining := sortedPlatforms (app s);
                      totalProcessed := 0; totalSuccess := 0; totalFailed := 0 |}] |}.

(** The callback that [start] schedules. *)
Definition cronTick (s : System) : System :=
  if negb (isProcessing (app s)) then invoke s
  else {| app := app s; world := addLog (world s) [SkippingCycle];
          running := running s |}.

Definition replaceNth {A} (n : nat) (x : A) (l : list A) : list A :=
  firstn n l ++ x :: skipn (S n) l.

Definition removeNth {A} (n : nat) (l : list A) : list A :=
  firstn n l ++ skipn (S n) l.

(** A suspended call goes on: one more platform, or the end of the cycle,
    where the totals are logged and the flag is cleared. *)
Definition resume (s : System) (index : nat) : System :=
  match nth_error (running s) index with
  | None => s
  | Some cycle =>
      match remaining cycle with
      | platformKey :: rest =>
          let '(a, w, (p, ok, ko)) :=
            processPlatform (app s) (world s) (batchSize cycle) platformKey in
          {| app := a; world := w;
             running :=
               replaceNth index
                 {| batchSize := batchSize cycle; remaining := rest;
                    totalProcessed := totalProcessed cycle + p;
                    totalSuccess := totalSuccess cycle + ok;
                    totalFailed := totalFailed cycle + ko |}
                 (running s) |}
      | [] =>
          {| app := setProcessing (app s) false;
             world := addLog (world s)
                        [CycleCompleted (totalProcessed cycle)
                           (totalSuccess cycle) (totalFailed cycle)];
             running := removeNth index (running s) |}
      end
  end.

Definition step (s : System) (e : Event) : System :=
  match e with
  | Invoke => invoke s
  | CronTick => cronTick s
  | Resume index => resume s index
  end.

(** The process after a sequence of events. *)
Definition run (s : System) (events : list Event) : System :=
  fold_left step events s.

(** The state in which the constructor leaves the application. *)
Definition initial (g : GlobalConfig) (ps : dict BaseProcessor.Processor)
    (env : option string) (raw : RawStore) (clean : CleanStore) : System :=
  {| app := {| globalConfig := g; processors := ps; isProcessing := false;
               env_BATCH_SIZE := env |};
     world := {| rawStore := raw; cleanStore := clean; log := [] |};
     running := [] |}.

End WithRuntime.

End DataProcessorApp.

(* ================================================================== *)
(** * An executable runtime *)
(* ================================================================== *)

(** A runtime on which the processor can be run inside Rocq: ASCII
    lower-casing, a backtracking matcher for the regular-expression syntax
    that the configuration documents use, ISO dates only, host names of
    [scheme://host/path] URLs, a fixed clock and a disabled AI adapter. *)
Module Demo.

Definition lower (c : ascii) : ascii :=
  let n := nat_of_ascii c in
  if (Nat.leb 65 n && Nat.leb n 90)%bool then ascii_of_nat (n + 32) else c.

Fixpoint lowerCase (s : string) : string :=
  match s with
  | EmptyString => EmptyString
  | String c rest => String (lower c) (lowerCase rest)
  end.

(** ** Regular expressions *)

Inductive ClassItem : Type :=
| Range (lo hi : ascii)
| Digits
| Spaces
| WordChars.

Inductive Re : Type :=
| Eps
| Chr (c : ascii)
| AnyChar
| Class (negated : bool) (items : list ClassItem)
| Seq (a b : Re)
| Alt (a b : Re)
| Star (r : Re)
| Capture (n : nat) (r : Re)
| Bol
| Eol.

Definition is_word (c : ascii) : bool :=
  let n := nat_of_ascii (lower c) in
  (is_digit c || (Nat.leb 97 n && Nat.leb n 122) || Nat.eqb n 95)%bool.

Definition in_item (c : ascii) (i : ClassItem) : bool :=
  match i with
  | Range lo hi =>
      let within x :=
        (Nat.leb (nat_of_ascii lo) (nat_of_ascii x)
         && Nat.leb (nat_of_ascii x) (nat_of_ascii hi))%bool in
      (* with the [i] flag a letter matches in either case *)
      (within c || within (lower c)
       || within (ascii_of_nat (nat_of_ascii (lower c) - 32)))%bool
  | Digits => is_digit c
  | Spaces => is_space c
  | WordChars => is_word c
  end.

Definition captures : Type := list (nat * string).

(** The text consumed between two suffixes of the subject. *)
Definition consumed (before after : string) : string :=
  String.substring 0 (String.length before - String.length after) before.

(** Backtracking matcher: [k] is what remains to be matched. *)
Fixpoint matchRe (whole : nat) (r : Re) (s : string) (caps : captures)
    (k : string -> captures -> option captures) {struct r} : option captures :=
  match r with
  | Eps => k s caps
  | Chr c =>
      match s with
      | String x rest => if Ascii.eqb (lower x) (lower c) then k rest caps else None
      | EmptyString => None
      end
  | AnyChar =>
      match s with
      | String x rest =>
          if (Nat.eqb (nat_of_ascii x) 10 || Nat.eqb (nat_of_ascii x) 13)%bool
          then None else k rest caps
      | EmptyString => None
      end
  | Class negated items =>
      match s with
      | String x rest =>
          if xorb negated (existsb (in_item x) items) then k rest caps else None
      | EmptyString => None
      end
  | Seq a b => matchRe whole a s caps (fun s' caps' => matchRe whole b s' caps' k)
  | Alt a b =>
      match matchRe whole a s caps k with
      | Some found => Some found
      | None => matchRe whole b s caps k
      end
  | Star body =>
      (fix loop (fuel : nat) (s : string) (caps : captures) : option captures :=
         match fuel with
         | O => k s caps
         | S fuel' =>
             match matchRe whole body s caps
                     (fun s' caps' =>
                        if Nat.ltb (String.length s') (String.length s)
                        then loop fuel' s' caps' else None) with
             | Some found => Some found
             | None => k s caps
             end
         end) (S (String.length s)) s caps
  | Capture n body =>
      matchRe whole body s caps
        (fun s' caps' => k s' ((n, consumed s s') :: caps'))
  | Bol => if Nat.eqb (String.length s) whole then k s caps else None
  | Eol => match s with EmptyString => k s caps | _ => None end
  end.

(** The first position at which the expression matches, with the text of
    the whole match as capture 0. *)
Fixpoint search (whole : nat) (r : Re) (s : string) : option captures :=
  match matchRe whole r s [] (fun s' caps => Some ((O, consumed s s') :: caps)) with
  | Some found => Some found
  | None => match s with
            | EmptyString => None
            | String _ rest => search whole r rest
            end
  end.

Fixpoint lookup (n : nat) (caps : captures) : option string :=
  match caps with
  | [] => None
  | (m, text) :: rest => if Nat.eqb n m then Some text else lookup n rest
  end.

(** ** Parsing the source of a regular expression *)

(** The items of a character class, up to its closing bracket. *)
Fixpoint parseClass (s : string) (items : list ClassItem)
    : option (list ClassItem * string) :=
  match s with
  | EmptyString => None
  | String c rest =>
      if Ascii.eqb c "]" then Some (items, rest)
      else if Ascii.eqb c "\" then
        match rest with
        | String e rest' =>
            parseClass rest'
              (items ++ [if Ascii.eqb e "d" then Digits
                         else if Ascii.eqb e "s" then Spaces
                         else if Ascii.eqb e "w" then WordChars
                         else Range e e])
        | EmptyString => None
        end
      else
        match rest with
        | String "-" (String hi rest') =>
            if Ascii.eqb hi "]" then parseClass rest (items ++ [Range c c])
            else parseClass rest' (items ++ [Range c hi])
        | _ => parseClass rest (items ++ [Range c c])
        end
  end.

(** A quantifier after an atom. *)
Definition quantified (atom : Re) (s : string) : Re * string :=
  match s with
  | String "*" rest => (Star atom, rest)
  | String "+" rest => (Seq atom (Star atom), rest)
  | String "?" rest => (Alt atom Eps, rest)
  | _ => (atom, s)
  end.

(** Alternatives, sequences and atoms; [n] counts the capturing groups
    opened so far. *)
Fixpoint parseAlt (fuel : nat) (s : string) (n : nat) {struct fuel}
    : option (Re * string * nat) :=
  match fuel with
  | O => None
  | S fuel' =>
      match parseSeq fuel' s n with
      | Some (a, String "|" rest, n1) =>
          match parseAlt fuel' rest n1 with
          | Some (b, rest', n2) => Some (Alt a b, rest', n2)
          | None => None
          end
      | other => other
      end
  end
with parseSeq (fuel : nat) (s : string) (n : nat) {struct fuel}
    : option (Re * string * nat) :=
  match fuel with
  | O => None
  | S fuel' =>
      match s with
      | EmptyString => Some (Eps, s, n)
      | String "|" _ => Some (Eps, s, n)
      | String ")" _ => Some (Eps, s, n)
      | _ =>
          match parseAtom fuel' s n with
          | Some (atom, rest, n1) =>
              let (a, rest') := quantified atom rest in
              match parseSeq fuel' rest' n1 with
              | Some (b, rest'', n2) => Some (Seq a b, rest'', n2)
              | None => None
              end
          | None => None
          end
      end
  end
with parseAtom (fuel : nat) (s : string) (n : nat) {struct fuel}
    : option (Re * string * nat) :=
  match fuel with
  | O => None
  | S fuel' =>
      match s with
      | EmptyString => None
      | String "(" (String "?" (String ":" rest)) =>
          match parseAlt fuel' rest n with
          | Some (r, String ")" rest', n1) => Some (r, rest', n1)
          | _ => None
          end
      | String "(" rest =>
          match parseAlt fuel' rest (S n) with
          | Some (r, String ")" rest', n1) => Some (Capture (S n) r, rest', n1)
          | _ => None
          end
      | String "[" (String "^" rest) =>
          match parseClass rest [] with
          | Some (items, rest') => Some (Class true items, rest', n)
          | None => None
          end
      | String "[" rest =>
          match parseClass rest [] with
          | Some (items, rest') => Some (Class false items, rest', n)
          | None => None
          end
      | String "\" (String c rest) =>
          Some (if Ascii.eqb c "d" then Class false [Digits]
                else if Ascii.eqb c "s" then Class false [Spaces]
                else if Ascii.eqb c "w" then Class false [WordChars]
                else if Ascii.eqb c "D" then Class true [Digits]
                else if Ascii.eqb c "S" then Class true [Spaces]
                else if Ascii.eqb c "W" then Class true [WordChars]
                else Chr c, rest, n)
      | String "." rest => Some (AnyChar, rest, n)
      | String "^" rest => Some (Bol, rest, n)
      | String "$" rest => Some (Eol, rest, n)
      | String c rest =>
          if (Ascii.eqb c "*" || Ascii.eqb c "+" || Ascii.eqb c "?"
              || Ascii.eqb c ")" || Ascii.eqb c "\")%bool
          then None
          else Some (Chr c, rest, n)
      end
  end.

(** [text.match(new RegExp(source, 'i'))] *)
Definition regexpMatch (source text : string) : RegExpResult :=
  match parseAlt (4 * String.length source + 4) source 0 with
  | Some (r, EmptyString, groups) =>
      match search (String.length text) r text with
      | Some caps => Match (map (fun n => lookup n caps) (seq 0 (S groups)))
      | None => NoMatch
      end
  | _ => InvalidRegExp
  end.

(** ** Dates and URLs *)

(** [new Date(text)] for a text of the form [YYYY-MM-DD]. *)
Definition dateParse (text : string) : option Z :=
  let '(y, ylen, r1) := read_digits 0 0 text in
  match r1 with
  | String "-" r2 =>
      let '(m, mlen, r3) := read_digits 0 0 r2 in
      match r3 with
      | String "-" r4 =>
          let '(d, dlen, r5) := read_digits 0 0 r4 in
          if (Nat.eqb ylen 4 && Nat.eqb mlen 2 && Nat.eqb dlen 2
              && String.eqb r5 "" && (1 <=? m)%Z && (m <=? 12)%Z
              && (1 <=? d)%Z && (d <=? 31)%Z)%bool
          then Some (DateParser.days_from_civil y m d * DateParser.msPerDay)%Z
          else None
      | _ => None
      end
  | _ => None
  end.

Fixpoint untilSlash (s : string) : string :=
  match s with
  | EmptyString => EmptyString
  | String c rest => if Ascii.eqb c "/" then EmptyString else String c (untilSlash rest)
  end.

Fixpoint afterScheme (s : string) : option string :=
  match s with
  | String ":" (String "/" (String "/" rest)) => Some rest
  | String _ rest => afterScheme rest
  | EmptyString => None
  end.

(** [new URL(url).hostname] *)
Definition urlHostname (u : string) : option string :=
  match afterScheme u with
  | Some rest => Some (lowerCase (untilSlash rest))
  | None => None
  end.

(** 2 November 2026, 00:00 UTC. *)
Definition now : Z := 1793577600000.

#[export] Instance runtime : Runtime := {|
  toLowerCase := lowerCase;
  regexp_match := regexpMatch;
  Date_parse := dateParse;
  Date_now := now;
  URL_hostname := urlHostname;
  ai_process := fun _ _ => AiNull;
  sql_lower := lowerCase
|}.

End Demo.

(* ================================================================== *)
(** * Vocabulary of the statements *)
(* ================================================================== *)

Module Vocabulary.

(** [match] returned an array. *)
Definition is_match (r : RegExpResult) : bool :=
  match r with
  | Match _ => true
  | NoMatch => false
  | InvalidRegExp => false
  end.

(** The six canonical level names. *)
Definition canonicalLevels : list string :=
  ["Internship"; "Entry"; "Mid"; "Senior"; "Lead"; "Executive"].

(** The insert of this job returns an identifier. *)
Definition insertedBy (acc : DataProcessorApp.Commit) (job : Job) : bool :=
  match DatabaseService.upsertCompany (DataProcessorApp.cm_store acc)
          (company job) with
  | Return (companyId, store1) =>
      match DatabaseService.insertJobPost store1
              (DataProcessorApp.toJobData companyId job) with
      | Return (Some _, _) => true
      | _ => false
      end
  | Throw _ => false
  end.

(** The flag tells whether a cycle is in flight, and there is at most one. *)
Definition guarded (s : DataProcessorApp.System) : Prop :=
  let busy := DataProcessorApp.isProcessing (DataProcessorApp.app s) in
  (busy = false /\ DataProcessorApp.running s = [])
  \/ (busy = true /\ exists cycle, DataProcessorApp.running s = [cycle]).

Section WithRuntime.
Context {rt : Runtime}.

(** The patterns of the list that the text does not match (or that are
    not valid) are passed over. *)
Definition passedOver (salaryText : string) (patterns : list SalaryPattern) : bool :=
  forallb (fun q => negb (is_match (regexp_match (sp_regex q) salaryText))) patterns.

(** The AI fallback is disabled, or it is enabled and gives no level. *)
Definition aiFallbackFails (text : string) (config : Config) : Prop :=
  forall c f,
    experience_level config = Some c ->
    experience_ai_fallback c = Some f ->
    ai_enabled f = true ->
    ExperienceMapper.mapWithAI text (ai_prompt f) = None.

(** Every country pattern of the configuration is a valid regular
    expression (on this text, the constructor does not throw). *)
Definition countryPatternsCompile (text : string) (patterns : list CountryPattern) : bool :=
  forallb (fun p => match regexp_match (cp_regex p) text with
                    | InvalidRegExp => false
                    | _ => true
                    end) patterns.

(** No relative pattern of the list matches the text. *)
Definition noRelativeMatch (text : string) (patterns : list RelativePattern) : bool :=
  forallb (fun p => negb (is_match (regexp_match (rp_regex p) text)))
          patterns.

(** No absolute format of the list parses the text. *)
Definition noFormatParses (text : string) (formats : list string) : bool :=
  forallb (fun f => match DateParser.tryParseFormat (DateParser.DateText text) f with
                    | Some _ => false
                    | None => true
                    end) formats.

(** The date text matches no relative pattern and no absolute format of
    the date section (a missing section has neither). *)
Definition unparseable (text : string) (config : Config) : bool :=
  match date config with
  | Some c => (noRelativeMatch text (date_relative c)
               && noFormatParses text (date_formats c))%bool
  | None => true
  end.

(** The candidates of the raw jobs whose transformation returns. *)
Definition transformedJobs (p : BaseProcessor.Processor) (g : GlobalConfig)
    (rawJobs : list RawJob) : list Job :=
  flat_map (fun rawJob => match BaseProcessor.transformJob p rawJob g with
                          | Return job => [job]
                          | Throw _ => []
                          end) rawJobs.

End WithRuntime.

End Vocabulary.

(* ================================================================== *)
(** * Sample documents *)
(* ================================================================== *)

(** The CareerViet configuration of the project's documentation, and
    variations of it used below. *)
Module Samples.

Definition manual : option string := Some "manual".

Definition milRange : SalaryPattern :=
  {| sp_regex := "(\d+(?:,\d+)?)\s*Mil\s*-\s*(\d+(?:,\d+)?)\s*Mil\s*(VND|USD)";
     sp_type := "range";
     sp_multiplier := Some 1000000%float;
     sp_currency := None;
     sp_currency_group := Some 3;
     sp_min_group := Some 1;
     sp_max_group := Some 2;
     sp_value_group := None |}.

(** An exact amount in dollars: any word before [USD] is captured. *)
Definition exactUsd : SalaryPattern :=
  {| sp_regex := "(\w+)\s*USD";
     sp_type := "exact";
     sp_multiplier := None;
     sp_currency := Some "USD";
     sp_currency_group := None;
     sp_min_group := None;
     sp_max_group := None;
     sp_value_group := Some 1 |}.

Definition negotiable : SalaryPattern :=
  {| sp_regex := "negotiable|USD";
     sp_type := "negotiable";
     sp_multiplier := None;
     sp_currency := None;
     sp_currency_group := None;
     sp_min_group := None;
     sp_max_group := None;
     sp_value_group := None |}.

Definition salaryConfig : SalaryConfig :=
  {| salary_method := manual;
     salary_patterns := [milRange; exactUsd; negotiable];
     salary_ai_fallback := None;
     salary_default_currency := Some "VND" |}.

Definition experienceConfig : ExperienceConfig :=
  {| experience_method := manual;
     experience_mappings :=
       [("Intern", "Internship"); ("Entry level", "Entry"); ("Senior", "Senior")];
     experience_ai_fallback := None;
     experience_default := Some "Entry" |}.

Definition locationConfig : LocationConfig :=
  {| location_method := manual;
     city_mappings := [("HCM", "Ho Chi Minh City"); ("Remote", "Anywhere")];
     country_patterns := [{| cp_regex := "singapore"; cp_code := Some "SGP" |}];
     remote_keywords := ["remote"; "work from home"];
     hybrid_keywords := ["hybrid"];
     location_ai_fallback := None;
     default_country := Some "VNM" |}.

Definition dateConfig : DateConfig :=
  {| date_method := manual;
     date_relative := [{| rp_regex := "(\d+)\s+days?\s+ago"; rp_unit := Some "days" |}];
     date_formats := ["YYYY-MM-DD"];
     date_ai_fallback := None |}.

Definition qualityChecks : QualityChecks :=
  {| required_fields := ["title"; "postUrl"; "salaryPerMonth"];
     max_title_length := Some 200%Z |}.

Definition careerviet : Config :=
  {| platform_id := Some 3%Z;
     salary := Some salaryConfig;
     experience_level := Some experienceConfig;
     location := Some locationConfig;
     date := Some dateConfig;
     description := None;
     quality_checks := Some qualityChecks |}.

(** The same document with a country pattern that is not a valid regular
    expression. *)
Definition brokenCountryPattern : Config :=
  {| platform_id := Some 3%Z;
     salary := Some salaryConfig;
     experience_level := Some experienceConfig;
     location :=
       Some {| location_method := manual;
               city_mappings := city_mappings locationConfig;
               country_patterns := [{| cp_regex := "(singapore"; cp_code := Some "SGP" |}];
               remote_keywords := remote_keywords locationConfig;
               hybrid_keywords := hybrid_keywords locationConfig;
               location_ai_fallback := None;
               default_country := Some "VNM" |};
     date := Some dateConfig;
     description := None;
     quality_checks := Some qualityChecks |}.

(** The same document without a [location] section. *)
Definition noLocationSection : Config :=
  {| platform_id := Some 3%Z;
     salary := Some salaryConfig;
     experience_level := Some experienceConfig;
     location := None;
     date := Some dateConfig;
     description := None;
     quality_checks := Some qualityChecks |}.

Definition globalConfig : GlobalConfig :=
  {| platforms :=
       [("careerviet",
         {| pf_name := "CareerViet"; pf_enabled := true;
            pf_priority := Some 1%Z; pf_processor_class := "CareerVietProcessor" |})];
     reference_tables :=
       {| currencies := [("VND", 1%Z); ("USD", 2%Z)];
          platforms_table := [("CareerViet", 3%Z)] |};
     batch_size := Some 100%Z |}.

Definition processor (c : Config) : BaseProcessor.Processor :=
  {| BaseProcessor.platformName := "CareerViet";
     BaseProcessor.config := c;
     BaseProcessor.stats := BaseProcessor.resetStats |}.

(** A raw row of the CareerViet platform. *)
Definition rawJob (id title : string) (salaryText locationText : option string)
    (listed : option string) (link : string) (crawled : Z) : RawJob :=
  {| job_id := id; job_title := title;
     raw_description := Some "<p>Join   our <b>team</b></p>";
     raw_salary := salaryText;
     raw_experience_level := Some "Senior";
     raw_location := locationText;
     applies := Some 12%Z;
     listed_time := option_map DateParser.DateText listed;
     platform := "CareerViet";
     url := link;
     crawled_time := crawled;
     processed := false;
     company_name := Some "Test Company Ltd";
     company_location := Some "Ho Chi Minh City, Vietnam";
     company_url := Some "https://testcompany.com" |}.

(** A clean store holding one company. *)
Definition oneCompany : CleanStore :=
  {| companyTable := [{| co_id := 1; co_name := "Test Company Ltd";
                         co_location := Some "Ho Chi Minh City, Vietnam";
                         co_domain := Some "testcompany.com" |}];
     jobPostTable := [];
     next_uuid := 2 |}.

(** A job post of company 1 on platform 3. *)
Definition posting (title link : string) : JobData :=
  {| jd_companyId := Some 1; jd_title := Some title;
     jd_description := Some "Join our team";
     jd_salaryPerMonth := Some 20000000%float;
     jd_currencyId := Some 1%Z; jd_experienceLevelId := Some 4%Z;
     jd_location := Some "Ho Chi Minh City"; jd_countryCode := Some "VNM";
     jd_applicantCount := Some 12%Z;
     jd_postedDate := Some (PostedOn "2026-01-05");
     jd_platformId := Some 3%Z; jd_postUrl := Some link;
     jd_crawledTime := Some 5%Z |}.

Definition original : JobData :=
  posting "Backend Developer" "https://careerviet.vn/jobs/1".

(** The same posting again, under another URL. *)
Definition repost : JobData :=
  posting "  backend developer " "https://careerviet.vn/jobs/2".

(** The store after the original posting was inserted, as row 2. *)
Definition afterOriginal : CleanStore :=
  Sql.addJobPost oneCompany
    {| jp_id := 2; jp_companyId := 1; jp_title := "Backend Developer";
       jp_platformId := 3; jp_postUrl := "https://careerviet.vn/jobs/1";
       jp_data := original |}.

(** Three unprocessed CareerViet rows: the first has no location; the
    second has one, on which the country pattern of the configuration
    throws; the third has the URL of a job post that the clean store
    already holds. *)
Definition rowA : RawJob :=
  rawJob "a" "Backend Developer" (Some "15 Mil - 25 Mil VND") None
    (Some "2026-01-05") "https://careerviet.vn/jobs/1" 10.

Definition rowB : RawJob :=
  rawJob "b" "Data Analyst" (Some "Negotiable") (Some "District 1, HCM")
    (Some "2026-01-06") "https://careerviet.vn/jobs/2" 20.

Definition rowC : RawJob :=
  rawJob "c" "Product Manager" (Some "Negotiable") None
    (Some "2026-01-07") "https://careerviet.vn/jobs/3" 30.

Definition rawRows : RawStore := [rowA; rowB; rowC].

Definition stored : JobData :=
  posting "Product Manager" "https://careerviet.vn/jobs/3".

Definition cleanRows : CleanStore :=
  Sql.addJobPost oneCompany
    {| jp_id := 2; jp_companyId := 1; jp_title := "Product Manager";
       jp_platformId := 3; jp_postUrl := "https://careerviet.vn/jobs/3";
       jp_data := stored |}.

Definition application : DataProcessorApp.App :=
  {| DataProcessorApp.globalConfig := globalConfig;
     DataProcessorApp.processors :=
       [("careerviet", processor brokenCountryPattern)];
     DataProcessorApp.isProcessing := false;
     DataProcessorApp.env_BATCH_SIZE := None |}.

Definition worldBefore : DataProcessorApp.World :=
  {| DataProcessorApp.rawStore := rawRows;
     DataProcessorApp.cleanStore := cleanRows;
     DataProcessorApp.log := [] |}.

(** The world after the orchestrator handled the CareerViet batch. *)
Definition worldAfter : DataProcessorApp.World :=
  snd (fst (@DataProcessorApp.processPlatform Demo.runtime application
              worldBefore 100 "careerviet")).

(** Two raw rows of the same company, with titles that differ in case and
    surrounding spaces only, under two URLs; and the world in which the
    orchestrator finds them, the clean store holding the company. *)
Definition firstSighting : RawJob :=
  rawJob "r1" "Backend Developer" (Some "15 Mil - 25 Mil VND") (Some "HCM")
    (Some "2026-01-05") "https://careerviet.vn/jobs/1" 10.

Definition secondSighting : RawJob :=
  rawJob "r2" "  backend developer " (Some "15 Mil - 25 Mil VND") (Some "HCM")
    (Some "2026-01-06") "https://careerviet.vn/jobs/2" 20.

Definition repostApplication : DataProcessorApp.App :=
  {| DataProcessorApp.globalConfig := globalConfig;
     DataProcessorApp.processors := [("careerviet", processor careerviet)];
     DataProcessorApp.isProcessing := false;
     DataProcessorApp.env_BATCH_SIZE := None |}.

Definition repostWorld : DataProcessorApp.World :=
  {| DataProcessorApp.rawStore := [firstSighting; secondSighting];
     DataProcessorApp.cleanStore := oneCompany;
     DataProcessorApp.log := [] |}.

(** A raw row with a negotiable salary: its candidate has no monthly
    salary, which the quality checks of the document require. *)
Definition negotiableRow : RawJob :=
  rawJob "n" "Sales Executive" (Some "Negotiable") (Some "HCM")
    (Some "2026-01-09") "https://careerviet.vn/jobs/9" 50.

Definition negotiableWorld : DataProcessorApp.World :=
  {| DataProcessorApp.rawStore := [negotiableRow];
     DataProcessorApp.cleanStore := oneCompany;
     DataProcessorApp.log := [] |}.

(** A processor of the older generation for platform 3: a raw job with a
    salary text becomes a clean job of company 1, a raw job without one
    makes the processor return [null]. *)
Definition legacyProcessor : LegacyProcessor.Processor :=
  {| LegacyProcessor.platformId := Some 3%Z;
     LegacyProcessor.processJob := fun db rawJob =>
       (if truthy (raw_salary rawJob)
        then Return (Some (posting (job_title rawJob) (url rawJob)))
        else Return None, db) |}.

Definition rowD : RawJob :=
  rawJob "d" "Designer" None None (Some "2026-01-08")
    "https://careerviet.vn/jobs/4" 40.

End Samples.

(* ================================================================== *)
(** * Vocabulary of the further properties *)
(* ================================================================== *)

Module SalaryShape.
Import SalaryParser.

(** The numbers of a salary object fit its type. *)
Definition fitsType (info : SalaryInfo) : Prop :=
  (s_type info = "range"
   /\ exists low high,
        s_min info = Some low /\ s_max info = Some high
        /\ s_average info = Some ((low + high) / 2)%float)
  \/ (s_type info = "min"
      /\ s_max info = None /\ s_min info <> None /\ s_average info = s_min info)
  \/ (s_type info = "max"
      /\ s_min info = None /\ s_max info <> None /\ s_average info = s_max info)
  \/ (s_type info = "exact"
      /\ s_min info <> None /\ s_max info = s_min info /\ s_average info = s_min info)
  \/ (s_type info = "negotiable"
      /\ s_min info = None /\ s_max info = None /\ s_average info = None).
End SalaryShape.


Module Shape.

(** A [<] with a [>] somewhere after it: what the tag pattern of
    [simpleCleanHtml] matches. *)
Fixpoint hasTag (s : string) : bool :=
  match s with
  | EmptyString => false
  | String c rest => ((Ascii.eqb c "<" && includes rest ">") || hasTag rest)%bool
  end.

Definition startsWithSpace (s : string) : bool :=
  match s with
  | String c _ => is_space c
  | EmptyString => false
  end.

(** Every white-space character is a plain space, and no two of them are
    adjacent. *)
Fixpoint singleSpaced (s : string) : bool :=
  match s with
  | EmptyString => true
  | String c rest =>
      ((negb (is_space c) || (Ascii.eqb c " " && negb (startsWithSpace rest)))
       && singleSpaced rest)%bool
  end.

(** [thinned out s]: [out] is [s] with some characters left out and some
    turned into plain spaces. *)
Inductive thinned : string -> string -> Prop :=
| thinned_nil : thinned EmptyString EmptyString
| thinned_keep (c : ascii) (out s : string) :
    thinned out s -> thinned (String c out) (String c s)
| thinned_drop (c : ascii) (out s : string) :
    thinned out s -> thinned out (String c s)
| thinned_space (c : ascii) (out s : string) :
    thinned out s -> thinned (String " " out) (String c s).

(** Ascending order of a key. *)
Definition byKey {A} (key : A -> Z) (a b : A) : Prop := (key a <= key b)%Z.

End Shape.

Module StoreInvariant.

(** The constraints of the clean schema that the model keeps: [PostUrl] is
    unique, identifiers are unique, and every identifier in use was drawn
    before. *)
Definition wellFormed (db : CleanStore) : Prop :=
  NoDup (map jp_postUrl (jobPostTable db))
  /\ NoDup (map jp_id (jobPostTable db))
  /\ NoDup (map co_id (companyTable db))
  /\ (forall row, In row (jobPostTable db) -> jp_id row < next_uuid db)
  /\ (forall row, In row (companyTable db) -> co_id row < next_uuid db).

(** The later store has the job posts of the earlier one, unchanged and
    in place, and the same companies by identifier, each followed by what
    was added. *)
Definition grows (db db' : CleanStore) : Prop :=
  (exists added, jobPostTable db' = jobPostTable db ++ added)
  /\ (exists added,
        map co_id (companyTable db') = map co_id (companyTable db) ++ added)
  /\ next_uuid db <= next_uuid db'.

End StoreInvariant.

Module Marking.

(** A raw row apart from its [processed] flag. *)
Definition apartFromFlag (row : RawJob) : RawJob :=
  {| job_id := job_id row; job_title := job_title row;
     raw_description := raw_description row; raw_salary := raw_salary row;
     raw_experience_level := raw_experience_level row;
     raw_location := raw_location row; applies := applies row;
     listed_time := listed_time row; platform := platform row;
     url := url row; crawled_time := crawled_time row;
     processed := false;
     company_name := company_name row;
     company_location := company_location row;
     company_url := company_url row |}.

(** The identifier and the flag of every row, in order. *)
Definition flags (raw : RawStore) : list (string * bool) :=
  map (fun row => (job_id row, processed row)) raw.

End Marking.

Module Startup.
Import DataProcessorApp.


End Startup.

(** Further sample documents. *)
Module Cases.

(** A relative pattern with a unit that [calculateRelativeDate] does not
    know. *)
Definition yearsAgo : RelativePattern :=
  {| rp_regex := "(\d+)\s+years?\s+ago"; rp_unit := Some "years" |}.

(** A company of which only the name is known. *)
Definition nameOnly : CompanyData :=
  {| c_name := Some "Test Company Ltd"; c_location := None; c_domain := None |}.


(** The application after its constructor, before any cycle. *)
Definition idle : DataProcessorApp.System :=
  DataProcessorApp.initial Samples.globalConfig
    [("careerviet", Samples.processor Samples.careerviet)] None
    Samples.rawRows Samples.cleanRows.

(** The sample runtime with an AI service that always answers [answer]. *)
Definition answering (answer : string) : Runtime :=
  {| toLowerCase := @toLowerCase Demo.runtime;
     regexp_match := @regexp_match Demo.runtime;
     Date_parse := @Date_parse Demo.runtime;
     Date_now := @Date_now Demo.runtime;
     URL_hostname := @URL_hostname Demo.runtime;
     ai_process := fun _ _ => AiString answer;
     sql_lower := @sql_lower Demo.runtime |}.

(** The sample document with the AI fallback of the experience section
    enabled. *)
Definition withAiLevels : Config :=
  {| platform_id := platform_id Samples.careerviet;
     salary := salary Samples.careerviet;
     experience_level :=
       Some {| experience_method := experience_method Samples.experienceConfig;
               experience_mappings := experience_mappings Samples.experienceConfig;
               experience_ai_fallback :=
                 Some {| ai_enabled := true; ai_prompt := None |};
               experience_default := experience_default Samples.experienceConfig |};
     location := location Samples.careerviet;
     date := date Samples.careerviet;
     description := description Samples.careerviet;
     quality_checks := quality_checks Samples.careerviet |}.

(** The same company under a domain. *)
Definition withDomain : CompanyData :=
  {| c_name := Some "Test Company Ltd"; c_location := Some "Hanoi";
     c_domain := Some "testcompany.com" |}.

(** The application started with [BATCH_SIZE=-5]. *)
Definition negativeBatch : DataProcessorApp.App :=
  {| DataProcessorApp.globalConfig := Samples.globalConfig;
     DataProcessorApp.processors :=
       [("careerviet", Samples.processor Samples.careerviet)];
     DataProcessorApp.isProcessing := false;
     DataProcessorApp.env_BATCH_SIZE := Some "-5" |}.

End Cases.

Module Accounting.
Import DataProcessorApp.

(** The numbers of a log entry add up: processed is success plus failed,
    and as many rows were marked as were inserted. *)
Definition balanced (entry : LogEntry) : Prop :=
  match entry with
  | PlatformStats p ok ko => p = ok + ko
  | CycleCompleted p ok ko => p = ok + ko
  | InsertedAndMarked i marked => i = marked
  | _ => True
  end.

(** The processor's statistics are those of [resetStats]. *)
Definition fresh (entry : string * BaseProcessor.Processor) : Prop :=
  BaseProcessor.stats (snd entry) = BaseProcessor.resetStats.

(** The running totals of a suspended cycle add up. *)
Definition totalsAddUp (cycle : Cycle) : Prop :=
  totalProcessed cycle = totalSuccess cycle + totalFailed cycle.

End Accounting.

(* ================================================================== *)
(** * Facts about binary64 numbers *)
(* ================================================================== *)

Module FloatFacts.

Lemma SFeqb_refl_not_nan (x : spec_float) :
  SFeqb x x = false -> x = S754_nan.
Proof.
  destruct x as [s | s | | s m e]; unfold SFeqb, SFcompare; try reflexivity.
  - discriminate.
  - destruct s; discriminate.
  - rewrite Z.compare_refl.
    change (Pos.compare_cont Eq m m) with (Pos.compare m m).
    rewrite Pos.compare_refl. destruct s; discriminate.
Qed.

(** The only value that [isNaN] accepts is [NaN]. *)
Lemma is_nan_inv (x : float) : PrimFloat.is_nan x = true -> x = nan.
Proof.
  unfold PrimFloat.is_nan. rewrite FloatAxioms.eqb_spec. intro H.
  apply negb_true_iff in H. apply SFeqb_refl_not_nan in H.
  rewrite <- (SF2Prim_Prim2SF x), H. reflexivity.
Qed.

Lemma nan_mul (y : float) : (nan * y)%float = nan.
Proof.
  apply Prim2SF_inj. rewrite mul_spec. reflexivity.
Qed.

Lemma nan_add_l (y : float) : (nan + y)%float = nan.
Proof.
  apply Prim2SF_inj. rewrite add_spec. reflexivity.
Qed.

Lemma nan_add_r (x : float) : (x + nan)%float = nan.
Proof.
  apply Prim2SF_inj. rewrite add_spec.
  change (Prim2SF nan) with S754_nan.
  destruct (Prim2SF x); reflexivity.
Qed.

Lemma nan_div (y : float) : (nan / y)%float = nan.
Proof.
  apply Prim2SF_inj. rewrite div_spec. reflexivity.
Qed.

(** [NaN] is falsy. *)
Lemma nan_falsy : truthy_number nan = false.
Proof. reflexivity. Qed.

End FloatFacts.

(* ================================================================== *)
(** * The salary parser *)
(* ================================================================== *)

Module SalaryFacts.

Import SalaryParser.
Import Vocabulary.

Section WithRuntime.
Context {rt : Runtime}.

(** The first pattern that matches decides what [parseManual] returns. *)
Lemma parsePatterns_first_match (salaryText : string) (cfg : SalaryConfig)
    (skipped later : list SalaryPattern) (pattern : SalaryPattern)
    (m : list (option string)) :
  passedOver salaryText skipped = true ->
  regexp_match (sp_regex pattern) salaryText = Match m ->
  parsePatterns salaryText cfg (skipped ++ pattern :: later)
  = extractSalaryFromMatch m pattern cfg.
Proof.
  intros Hskip Hm. induction skipped as [| q skipped IH]; simpl.
  - rewrite Hm. reflexivity.
  - simpl in Hskip. apply andb_true_iff in Hskip. destruct Hskip as [Hq Hrest].
    destruct (regexp_match (sp_regex q) salaryText); simpl in Hq;
      try discriminate; apply IH; exact Hrest.
Qed.

(** When no pattern matches, the manual parser returns [null]. *)
Lemma parsePatterns_no_match (salaryText : string) (cfg : SalaryConfig)
    (patterns : list SalaryPattern) :
  passedOver salaryText patterns = true ->
  parsePatterns salaryText cfg patterns = None.
Proof.
  induction patterns as [| q patterns IH]; simpl; intro H.
  - reflexivity.
  - apply andb_true_iff in H. destruct H as [Hq Hrest].
    destruct (regexp_match (sp_regex q) salaryText); simpl in Hq;
      try discriminate; apply IH; exact Hrest.
Qed.

(** The result of a [range] pattern. *)
Lemma extract_range (m : list (option string)) (pattern : SalaryPattern)
    (cfg : SalaryConfig) :
  sp_type pattern = "range" ->
  extractSalaryFromMatch m pattern cfg
  = let min := (cleanNumber (group m (sp_min_group pattern)) * multiplier pattern)%float in
    let max := (cleanNumber (group m (sp_max_group pattern)) * multiplier pattern)%float in
    Some {| s_min := Some min; s_max := Some max;
            s_average := Some ((min + max) / 2)%float;
            s_currency := currency m pattern cfg; s_type := "range" |}.
Proof.
  intro H. unfold extractSalaryFromMatch. rewrite H. reflexivity.
Qed.




End WithRuntime.


Section Unparsable.
Context {rt : Runtime}.

(** A bound computed from a group that does not parse is [NaN]. *)
Lemma unparsable_bound (g : option string) (pattern : SalaryPattern) :
  PrimFloat.is_nan (cleanNumber g) = true ->
  (cleanNumber g * multiplier pattern)%float = nan.
Proof.
  intro H. rewrite (FloatFacts.is_nan_inv _ H). apply FloatFacts.nan_mul.
Qed.

(** C4, as the code has it: the first pattern whose regex matches decides
    the result and no later pattern is tried, also when a captured numeric
    group of it does not parse as a number; the bounds computed from that
    group, and the average, are then [NaN]. *)
Theorem first_match_decides (salaryText : string) (cfg : SalaryConfig)
    (skipped later : list SalaryPattern) (pattern : SalaryPattern)
    (m : list (option string)) :
  passedOver salaryText skipped = true ->
  regexp_match (sp_regex pattern) salaryText = Match m ->
  parsePatterns salaryText cfg (skipped ++ pattern :: later)
  = extractSalaryFromMatch m pattern cfg
  /\ (sp_type pattern = "range" ->
      PrimFloat.is_nan (cleanNumber (group m (sp_min_group pattern))) = true
      \/ PrimFloat.is_nan (cleanNumber (group m (sp_max_group pattern))) = true ->
      exists info,
        parsePatterns salaryText cfg (skipped ++ pattern :: later) = Some info
        /\ (s_min info = Some nan \/ s_max info = Some nan)
        /\ s_average info = Some nan)
  /\ (sp_type pattern = "min" \/ sp_type pattern = "max" \/ sp_type pattern = "exact" ->
      PrimFloat.is_nan (cleanNumber (group m (sp_value_group pattern))) = true ->
      exists info,
        parsePatterns salaryText cfg (skipped ++ pattern :: later) = Some info
        /\ (s_min info = Some nan \/ s_max info = Some nan)
        /\ s_average info = Some nan).
Proof.
  intros Hskip Hm.
  rewrite (parsePatterns_first_match _ cfg _ later _ _ Hskip Hm).
  split; [reflexivity | split].
  - intros Htype Hnan. rewrite (extract_range _ _ _ Htype).
    eexists; split; [reflexivity |]. simpl.
    destruct Hnan as [H | H]; rewrite (unparsable_bound _ _ H).
    + split; [left; reflexivity |].
      rewrite FloatFacts.nan_add_l, FloatFacts.nan_div. reflexivity.
    + split; [right; reflexivity |].
      rewrite FloatFacts.nan_add_r, FloatFacts.nan_div. reflexivity.
  - intros Htype Hnan. unfold extractSalaryFromMatch.
    rewrite (unparsable_bound _ _ Hnan).
    destruct Htype as [H | [H | H]]; rewrite H; simpl;
      eexists; (split; [reflexivity |]); simpl; split;
      try reflexivity; (left; reflexivity) || (right; reflexivity).
Qed.

End Unparsable.

(** A word before [USD] is captured by the first pattern and is not a
    number: the first pattern is not treated as a non-match, the second
    pattern (which matches as well) is not tried, and the result carries
    [NaN]. *)
Lemma unparsable_group_is_returned :
  @regexp_match Demo.runtime (sp_regex Samples.exactUsd) "abc USD"
  = Match [Some "abc USD"; Some "abc"]
  /\ PrimFloat.is_nan (cleanNumber (Some "abc")) = true
  /\ @parsePatterns Demo.runtime "abc USD" Samples.salaryConfig
       [Samples.exactUsd; Samples.negotiable]
     = Some {| s_min := Some nan; s_max := Some nan; s_average := Some nan;
               s_currency := Some "USD"; s_type := "exact" |}
  /\ @parsePatterns Demo.runtime "abc USD" Samples.salaryConfig
       [Samples.negotiable]
     = Some {| s_min := None; s_max := None; s_average := None;
               s_currency := Some "VND"; s_type := "negotiable" |}
  /\ @parsePatterns Demo.runtime "abc USD" Samples.salaryConfig
       [Samples.exactUsd; Samples.negotiable]
     <> @parsePatterns Demo.runtime "abc USD" Samples.salaryConfig
         [Samples.negotiable].
Proof.
  repeat split; try (vm_compute; reflexivity).
  vm_compute. discriminate.
Qed.

Lemma first_match_decides_witness :
  exists info,
    @parsePatterns Demo.runtime "abc USD" Samples.salaryConfig
      ([Samples.milRange] ++ Samples.exactUsd :: [Samples.negotiable]) = Some info
    /\ (s_min info = Some nan \/ s_max info = Some nan)
    /\ s_average info = Some nan.
Proof.
  refine (proj2 (proj2
    (@first_match_decides Demo.runtime "abc USD" Samples.salaryConfig
       [Samples.milRange] [Samples.negotiable] Samples.exactUsd
       [Some "abc USD"; Some "abc"] _ _)) (or_intror (or_intror eq_refl)) _);
    vm_compute; reflexivity.
Defined.

End SalaryFacts.

(* ================================================================== *)
(** * The experience mapper *)
(* ================================================================== *)

Module ExperienceFacts.

Import ExperienceMapper.
Import Vocabulary.

Section WithRuntime.
Context {rt : Runtime}.

Lemma default_level_truthy (config : Config) :
  truthy_string (default_level config) = true.
Proof.
  unfold default_level.
  destruct (experience_level config) as [c |]; [| reflexivity].
  destruct (experience_default c) as [d |]; [| reflexivity].
  destruct (truthy_string d) eqn:E; [exact E | reflexivity].
Qed.

Lemma afterManual_truthy (text : string) (config : Config) :
  truthy_string (afterManual text config) = true.
Proof.
  unfold afterManual.
  match goal with |- context [match ?a with Some _ => _ | None => _ end] =>
    destruct a as [level |] end; [| apply default_level_truthy].
  destruct (truthy_string level) eqn:E; [exact E | apply default_level_truthy].
Qed.

Lemma afterManual_default (text : string) (config : Config) :
  aiFallbackFails text config ->
  afterManual text config = default_level config.
Proof.
  intro H. unfold afterManual.
  destruct (experience_level config) as [c |] eqn:Ec; [| reflexivity].
  destruct (experience_ai_fallback c) as [f |] eqn:Ef; [| reflexivity].
  destruct (ai_enabled f) eqn:Ee; [| reflexivity].
  rewrite (H c f Ec Ef Ee). reflexivity.
Qed.

(** Names outside the reference map get the id of "Entry". *)
Lemma unknown_level_id (name : string) :
  ~ In name canonicalLevels -> getExperienceLevelId name = 2%Z.
Proof.
  intro H. unfold getExperienceLevelId, referenceMap, get.
  repeat match goal with
  | |- context [String.eqb name ?k] =>
      destruct (String.eqb_spec name k) as [-> | _];
      [exfalso; apply H; simpl; tauto |]
  end.
  reflexivity.
Qed.

(** On the own entries of the mapping table and of [referenceMap]: the
    experience mapping never returns [null] (its result is always a
    non-empty string); when the manual mapping finds nothing and the AI
    fallback is disabled or gives nothing, the result is the configured
    default, or "Entry" when none is configured; the six canonical names
    have the ids 1..6 and every other name has the id 2.  What the tables
    inherit is the matter of [PrototypeFacts]. *)
Lemma experience_never_null (experienceText : option string) (config : Config) :
  truthy_string (mapExperience experienceText config) = true
  /\ (forall text,
        experienceText = Some text ->
        truthy (mapManual text (experience_level config)) = false ->
        aiFallbackFails text config ->
        mapExperience experienceText config = default_level config)
  /\ (truthy experienceText = false ->
      mapExperience experienceText config = default_level config)
  /\ (forall c d, experience_level config = Some c ->
                  experience_default c = Some d -> truthy_string d = true ->
                  default_level config = d)
  /\ ((forall c, experience_level config = Some c ->
                 truthy (experience_default c) = false) ->
      default_level config = "Entry")
  /\ map getExperienceLevelId canonicalLevels = [1; 2; 3; 4; 5; 6]%Z
  /\ (forall name, ~ In name canonicalLevels -> getExperienceLevelId name = 2%Z).
Proof.
  split; [| split; [| split; [| split; [| split; [| split]]]]].
  - unfold mapExperience.
    destruct experienceText as [text |]; [| apply default_level_truthy].
    destruct (truthy_string text); simpl; [| apply default_level_truthy].
    destruct (manual_or_ai _); [| apply afterManual_truthy].
    destruct (mapManual text (experience_level config)) as [r |];
      [| apply afterManual_truthy].
    destruct (truthy_string r) eqn:E; [exact E | apply afterManual_truthy].
  - intros text -> Hmanual Hai. unfold mapExperience.
    destruct (truthy_string text); simpl; [| reflexivity].
    destruct (manual_or_ai _); [| apply afterManual_default; exact Hai].
    destruct (mapManual text (experience_level config)) as [r |];
      [| apply afterManual_default; exact Hai].
    simpl in Hmanual. rewrite Hmanual. apply afterManual_default; exact Hai.
  - intro H. unfold mapExperience.
    destruct experienceText as [text |]; [| reflexivity].
    simpl in H. rewrite H. reflexivity.
  - intros c d Hc Hd Ht. unfold default_level. rewrite Hc, Hd, Ht. reflexivity.
  - intro H. unfold default_level.
    destruct (experience_level config) as [c |]; [| reflexivity].
    specialize (H c eq_refl).
    destruct (experience_default c) as [d |]; [| reflexivity].
    simpl in H. rewrite H. reflexivity.
  - reflexivity.
  - apply unknown_level_id.
Qed.

End WithRuntime.

(** "Team player" is in no mapping of the sample document, whose default
    is "Entry": the level is "Entry" and its id 2. *)
Lemma experience_never_null_witness :
  @mapExperience Demo.runtime (Some "Team player") Samples.careerviet = "Entry"
  /\ getExperienceLevelId "Team player" = 2%Z.
Proof.
  pose proof (@experience_never_null Demo.runtime (Some "Team player")
                Samples.careerviet) as (_ & Hdefault & _ & _ & _ & _ & Hid).
  split.
  - rewrite (Hdefault "Team player" eq_refl).
    + reflexivity.
    + vm_compute. reflexivity.
    + intros c f Hc Hf. injection Hc as <-. discriminate Hf.
  - apply Hid. simpl. intros [H | [H | [H | [H | [H | [H | []]]]]]]; discriminate H.
Defined.

End ExperienceFacts.

(* ================================================================== *)
(** * The experience mapper and the inherited properties *)
(* ================================================================== *)

Module PrototypeFacts.
Import ExperienceMapper.
Import Vocabulary.

Lemma read_own {V} (d : dict V) (k : string) (v : V) :
  get d k = Some v -> read d k = Own v.
Proof. unfold read. intros ->. reflexivity. Qed.

Lemma read_not_inherited {V} (d : dict V) (k : string) :
  ~ In k objectPrototype ->
  read d k = match get d k with
             | Some v => Own v
             | None => Undefined
             end.
Proof.
  intros Hk. unfold read. destruct (get d k); [reflexivity |].
  destruct (existsb (String.eqb k) objectPrototype) eqn:He; [| reflexivity].
  apply existsb_exists in He as (name & Hin & Heq).
  apply String.eqb_eq in Heq. subst. contradiction.
Qed.

Lemma read_inherited {V} (d : dict V) (k : string) :
  In k objectPrototype -> get d k = None -> read d k = Inherited k.
Proof.
  intros Hk Hg. unfold read. rewrite Hg.
  assert (He : existsb (String.eqb k) objectPrototype = true).
  { apply existsb_exists. exists k. split; [assumption | apply String.eqb_refl]. }
  rewrite He. reflexivity.
Qed.

(** Off the inherited names the two readings of [getExperienceLevelId]
    agree. *)
Lemma getExperienceLevelId_agrees (name : string) :
  ~ In name objectPrototype ->
  PrototypeChain.getExperienceLevelId (PrototypeChain.LevelName name)
  = PrototypeChain.Id (getExperienceLevelId name).
Proof.
  intros Hk. unfold PrototypeChain.getExperienceLevelId, getExperienceLevelId.
  rewrite (read_not_inherited _ _ Hk).
  destruct (get referenceMap name) as [id |]; [| reflexivity].
  destruct (truthy_int id); reflexivity.
Qed.

(** On every inherited name [getExperienceLevelId] returns the inherited
    value, not 2. *)
Lemma getExperienceLevelId_inherited (name : string) :
  In name objectPrototype ->
  PrototypeChain.getExperienceLevelId (PrototypeChain.LevelName name)
  = PrototypeChain.IdInherited name.
Proof.
  intros Hk. unfold PrototypeChain.getExperienceLevelId.
  rewrite read_inherited; [reflexivity | assumption |].
  unfold objectPrototype in Hk. cbn in Hk.
  repeat (destruct Hk as [<- | Hk]; [reflexivity |]). destruct Hk.
Qed.

Section WithRuntime.
Context {rt : Runtime}.

Lemma mapManual_agrees (text : string) (experienceConfig : option ExperienceConfig) :
  ~ In text objectPrototype ->
  PrototypeChain.mapManual text experienceConfig
  = option_map PrototypeChain.LevelName (mapManual text experienceConfig).
Proof.
  intros Hk. unfold PrototypeChain.mapManual, mapManual.
  rewrite (read_not_inherited _ _ Hk).
  destruct (get _ text) as [value |]; cbn [truthy]; [| reflexivity].
  destruct (truthy_string value); reflexivity.
Qed.

Lemma mapWithAI_agrees (text : string) (prompt : option string) :
  (forall answer, ai_process prompt text = AiString answer ->
                  ~ In answer objectPrototype) ->
  PrototypeChain.mapWithAI text prompt = mapWithAI text prompt.
Proof.
  intros Hai. unfold PrototypeChain.mapWithAI, mapWithAI.
  destruct (ai_process prompt text) as [| answer |]; try reflexivity.
  rewrite (read_not_inherited _ _ (Hai answer eq_refl)).
  destruct (get referenceMap answer); reflexivity.
Qed.

(** When neither the experience text nor an answer of the AI service is an
    inherited name, the two readings of [mapExperience] agree. *)
Lemma mapExperience_agrees (experienceText : option string) (config : Config) :
  (forall text, experienceText = Some text -> ~ In text objectPrototype) ->
  (forall text prompt answer,
     experienceText = Some text ->
     ai_process prompt text = AiString answer -> ~ In answer objectPrototype) ->
  PrototypeChain.mapExperience experienceText config
  = PrototypeChain.LevelName (mapExperience experienceText config).
Proof.
  intros Htext Hai. unfold PrototypeChain.mapExperience, mapExperience.
  destruct experienceText as [text |]; [| reflexivity].
  destruct (negb (truthy_string text)); [reflexivity |].
  assert (Hafter : PrototypeChain.afterManual text config
                   = PrototypeChain.LevelName (afterManual text config)).
  { unfold PrototypeChain.afterManual, afterManual.
    destruct (experience_level config) as [c |]; [| reflexivity].
    destruct (experience_ai_fallback c) as [f |]; [| reflexivity].
    destruct (ai_enabled f); [| reflexivity].
    rewrite mapWithAI_agrees by (intros answer; apply (Hai text); reflexivity).
    destruct (mapWithAI text (ai_prompt f)) as [level |]; [| reflexivity].
    destruct (truthy_string level); reflexivity. }
  destruct (manual_or_ai _); [| exact Hafter].
  rewrite (mapManual_agrees _ _ (Htext text eq_refl)).
  destruct (mapManual text (experience_level config)) as [r |]; cbn [option_map];
    [| exact Hafter].
  cbn [PrototypeChain.truthyLevel]. destruct (truthy_string r); [reflexivity |].
  exact Hafter.
Qed.

(** Whatever the tables inherit, [mapExperience] returns a truthy value. *)
Lemma mapExperience_truthy (experienceText : option string) (config : Config) :
  PrototypeChain.truthyLevel (PrototypeChain.mapExperience experienceText config)
  = true.
Proof.
  assert (Hafter : forall text,
             PrototypeChain.truthyLevel (PrototypeChain.afterManual text config)
             = true).
  { intros text. unfold PrototypeChain.afterManual.
    match goal with |- context [match ?a with Some _ => _ | None => _ end] =>
      destruct a as [level |] end;
      [| apply ExperienceFacts.default_level_truthy].
    destruct (truthy_string level) eqn:E;
      [exact E | apply ExperienceFacts.default_level_truthy]. }
  unfold PrototypeChain.mapExperience.
  destruct experienceText as [text |];
    [| apply ExperienceFacts.default_level_truthy].
  destruct (negb (truthy_string text));
    [apply ExperienceFacts.default_level_truthy |].
  destruct (manual_or_ai _); [| apply Hafter].
  destruct (PrototypeChain.mapManual text (experience_level config)) as [r |];
    [| apply Hafter].
  destruct (PrototypeChain.truthyLevel r) eqn:E; [exact E | apply Hafter].
Qed.

End WithRuntime.

(** C6, at failing inputs.  The claim: the mapping returns a canonical
    level name, falling back to the configured default and then to
    "Entry", and the lookup gives every name outside the six canonical ones
    the id 2.  The code: "constructor" is none of the six names, yet
    [getExperienceLevelId] returns the function that [referenceMap]
    inherits under that name, where the unknown name "Team player" gets 2;
    [mapWithAI], whose check is the same read, keeps the answer
    "constructor", so that [mapExperience] returns it as the level; and for
    the experience text "constructor", which no mapping of the sample
    document matches, [mapExperience] returns the inherited function and
    not the default "Entry", which "Team player" gets. *)
Theorem inherited_name_is_not_defaulted :
  ~ In "constructor" canonicalLevels
  /\ PrototypeChain.getExperienceLevelId (PrototypeChain.LevelName "constructor")
     = PrototypeChain.IdInherited "constructor"
  /\ PrototypeChain.getExperienceLevelId (PrototypeChain.LevelName "Team player")
     = PrototypeChain.Id 2%Z
  /\ @PrototypeChain.mapWithAI (Cases.answering "constructor") "Team player" None
     = Some "constructor"
  /\ @PrototypeChain.mapExperience (Cases.answering "constructor") (Some "Team player")
       Cases.withAiLevels
     = PrototypeChain.LevelName "constructor"
  /\ @PrototypeChain.mapExperience Demo.runtime (Some "constructor")
       Samples.careerviet
     = PrototypeChain.LevelInherited "constructor"
  /\ @PrototypeChain.mapExperience Demo.runtime (Some "Team player")
       Samples.careerviet
     = PrototypeChain.LevelName "Entry".
Proof.
  split.
  { cbn. intros [H | [H | [H | [H | [H | [H | []]]]]]]; discriminate H. }
  repeat split; vm_compute; reflexivity.
Qed.

End PrototypeFacts.

(* ================================================================== *)
(** * The location normalizer *)
(* ================================================================== *)

Module LocationFacts.

Import LocationNormalizer.
Import Vocabulary.

Section WithRuntime.
Context {rt : Runtime}.

Lemma detectCountry_returns (text : string) (code : option string)
    (patterns : list CountryPattern) :
  countryPatternsCompile text patterns = true ->
  exists found, detectCountry text code patterns = Return found.
Proof.
  induction patterns as [| p patterns IH]; simpl; intro H.
  - eexists; reflexivity.
  - apply andb_true_iff in H. destruct H as [Hp Hrest].
    destruct (regexp_match (cp_regex p) text); try discriminate.
    + apply IH; exact Hrest.
    + eexists; reflexivity.
Qed.

Lemma detectCountry_throws (text : string) (code : option string)
    (patterns : list CountryPattern) (e : Error) :
  detectCountry text code patterns = Throw e -> e = SyntaxError.
Proof.
  induction patterns as [| p patterns IH]; simpl; intro H.
  - discriminate.
  - destruct (regexp_match (cp_regex p) text).
    + injection H as <-. reflexivity.
    + apply IH; exact H.
    + discriminate.
Qed.

(** With valid country patterns the manual normalizer returns, and its
    city and remote flag are as follows. *)
Lemma normalizeManual_returns (text : string) (lc : LocationConfig) :
  countryPatternsCompile text (country_patterns lc) = true ->
  exists code,
    normalizeManual text (Some lc)
    = Return {| city := if someKeyword text (remote_keywords lc)
                        then Some "Remote"
                        else Some (mapCity text (city_mappings lc));
                country := code;
                isRemote := someKeyword text (remote_keywords lc);
                isHybrid := Some (someKeyword text (hybrid_keywords lc)) |}.
Proof.
  intro H. unfold normalizeManual.
  destruct (detectCountry_returns text
              (Some (default_country_of (Some lc))) _ H) as [code Hcode].
  exists code. rewrite Hcode. simpl.
  destruct (someKeyword text (remote_keywords lc)); reflexivity.
Qed.

(** [someKeyword] holds exactly when some keyword of the list occurs in
    the text, both lower-cased. *)
Lemma someKeyword_spec (text : string) (keywords : list string) :
  someKeyword text keywords = true <->
  exists keyword, In keyword keywords
                  /\ includes (toLowerCase text) (toLowerCase keyword) = true.
Proof.
  unfold someKeyword. rewrite existsb_exists. reflexivity.
Qed.

(** What the manual normalizer returns, whenever it returns. *)
Lemma normalizeManual_result (text : string) (lc : LocationConfig)
    (info : LocationInfo) :
  normalizeManual text (Some lc) = Return info ->
  isRemote info = someKeyword text (remote_keywords lc)
  /\ city info = if someKeyword text (remote_keywords lc)
                 then Some "Remote"
                 else Some (mapCity text (city_mappings lc)).
Proof.
  unfold normalizeManual.
  destruct (detectCountry text _ (country_patterns lc)) as [code | e]; simpl;
    [| discriminate].
  intro H. injection H as <-. simpl.
  destruct (someKeyword text (remote_keywords lc)); split; reflexivity.
Qed.

(** The manual normalizer throws only on a country pattern that is not a
    valid regular expression. *)
Lemma normalizeManual_throws (text : string) (lc : LocationConfig) (e : Error) :
  normalizeManual text (Some lc) = Throw e ->
  e = SyntaxError /\ countryPatternsCompile text (country_patterns lc) = false.
Proof.
  intro H. split.
  - unfold normalizeManual in H.
    destruct (detectCountry text _ (country_patterns lc)) as [code | e'] eqn:E;
      simpl in H; [discriminate |].
    injection H as <-. apply (detectCountry_throws _ _ _ _ E).
  - destruct (countryPatternsCompile text (country_patterns lc)) eqn:E;
      [| reflexivity].
    destruct (normalizeManual_returns text lc E) as [code Hret].
    rewrite Hret in H. discriminate.
Qed.

(** C7: when a configured remote keyword occurs in the location text as a
    case-insensitive substring, the normalizer returns [isRemote = true]
    and the city "Remote", whatever the city mappings are; the city
    mapping applies only when no remote keyword occurs.  The normalizer
    returns whenever the country patterns of the configuration are valid
    regular expressions, and nothing else makes it throw. *)
Theorem remote_keyword_overrides_city (text : string) (lc : LocationConfig) :
  ((exists keyword, In keyword (remote_keywords lc)
                    /\ includes (toLowerCase text) (toLowerCase keyword) = true) ->
   (countryPatternsCompile text (country_patterns lc) = true ->
    exists info, normalizeManual text (Some lc) = Return info
                 /\ isRemote info = true /\ city info = Some "Remote")
   /\ (forall info, normalizeManual text (Some lc) = Return info ->
                    isRemote info = true /\ city info = Some "Remote"))
  /\ ((forall keyword, In keyword (remote_keywords lc) ->
                       includes (toLowerCase text) (toLowerCase keyword) = false) ->
      (countryPatternsCompile text (country_patterns lc) = true ->
       exists info, normalizeManual text (Some lc) = Return info
                    /\ isRemote info = false
                    /\ city info = Some (mapCity text (city_mappings lc)))
      /\ (forall info, normalizeManual text (Some lc) = Return info ->
                       isRemote info = false
                       /\ city info = Some (mapCity text (city_mappings lc))))
  /\ (forall e, normalizeManual text (Some lc) = Throw e ->
                e = SyntaxError
                /\ countryPatternsCompile text (country_patterns lc) = false).
Proof.
  split; [| split].
  - intro Hkw. apply someKeyword_spec in Hkw. split.
    + intro Hvalid.
      destruct (normalizeManual_returns text lc Hvalid) as [code Hret].
      rewrite Hkw in Hret. eexists; split; [exact Hret |]. split; reflexivity.
    + intros info Hret.
      destruct (normalizeManual_result text lc info Hret) as [Hr Hc].
      rewrite Hkw in Hr, Hc. split; assumption.
  - intro Hnone.
    assert (Hfalse : someKeyword text (remote_keywords lc) = false).
    { apply not_true_is_false. intro Htrue.
      apply someKeyword_spec in Htrue. destruct Htrue as (kw & Hin & Hinc).
      rewrite (Hnone kw Hin) in Hinc. discriminate. }
    split.
    + intro Hvalid.
      destruct (normalizeManual_returns text lc Hvalid) as [code Hret].
      rewrite Hfalse in Hret. eexists; split; [exact Hret |]. split; reflexivity.
    + intros info Hret.
      destruct (normalizeManual_result text lc info Hret) as [Hr Hc].
      rewrite Hfalse in Hr, Hc. split; assumption.
  - apply normalizeManual_throws.
Qed.

End WithRuntime.

(** "Remote - anywhere" with the keyword "remote", although the city
    mapping "Remote" -> "Anywhere" matches the text as well. *)
Lemma remote_keyword_overrides_city_witness :
  includes "Remote - anywhere" "Remote" = true
  /\ exists info,
       @normalizeManual Demo.runtime "Remote - anywhere" (Some Samples.locationConfig)
       = Return info
       /\ isRemote info = true /\ city info = Some "Remote".
Proof.
  split; [reflexivity |].
  refine (proj1 (proj1 (@remote_keyword_overrides_city Demo.runtime
                          "Remote - anywhere" Samples.locationConfig) _) eq_refl).
  exists "remote". split; [left; reflexivity | vm_compute; reflexivity].
Defined.

End LocationFacts.

(* ================================================================== *)
(** * The date parser *)
(* ================================================================== *)

Module DateFacts.

Import DateParser.
Import Vocabulary.

Section WithRuntime.
Context {rt : Runtime}.

Lemma tryFormats_none (text : string) (formats : list string) :
  noFormatParses text formats = true ->
  tryFormats (DateText text) formats = None.
Proof.
  induction formats as [| f formats IH]; simpl; intro H.
  - reflexivity.
  - apply andb_true_iff in H. destruct H as [Hf Hrest].
    destruct (tryParseFormat (DateText text) f); [discriminate | apply IH; exact Hrest].
Qed.

Lemma parseRelative_none (text : string) (formats : list string)
    (patterns : list RelativePattern) :
  noRelativeMatch text patterns = true ->
  noFormatParses text formats = true ->
  parseRelative (DateText text) formats patterns = None.
Proof.
  intros Hrel Hfmt. induction patterns as [| p patterns IH]; simpl.
  - apply tryFormats_none; exact Hfmt.
  - simpl in Hrel. apply andb_true_iff in Hrel. destruct Hrel as [Hp Hrest].
    destruct (regexp_match (rp_regex p) text); simpl in Hp;
      try discriminate; apply IH; exact Hrest.
Qed.

(** An unparseable text with the AI fallback disabled gives [null]. *)
Lemma parseDate_null (text : string) (config : Config) :
  unparseable text config = true ->
  fallback_enabled (match date config with
                    | Some c => date_ai_fallback c
                    | None => None
                    end) = false ->
  parseDate (Some (DateText text)) config = DateNull.
Proof.
  unfold unparseable, parseDate. intros Hun Hai.
  destruct (negb (present (Some (DateText text)))); [reflexivity |].
  assert (Hmanual : parseManual (DateText text) (date config) = None).
  { unfold parseManual. destruct (date config) as [c |]; [| reflexivity].
    apply andb_true_iff in Hun. destruct Hun as [Hrel Hfmt].
    apply parseRelative_none; assumption. }
  rewrite Hmanual, Hai.
  destruct (manual_or_ai _); reflexivity.
Qed.

Lemma length_append (a b : string) :
  String.length (String.append a b) = String.length a + String.length b.
Proof.
  induction a as [| c a IH]; simpl; [reflexivity | rewrite IH; reflexivity].
Qed.

Lemma digits_length (width : nat) (z : Z) : String.length (digits width z) = width.
Proof.
  revert z. induction width as [| w IH]; intro z; simpl.
  - reflexivity.
  - rewrite length_append, IH. simpl. apply Nat.add_1_r.
Qed.

End WithRuntime.

(** From 1970 to the end of the year 9999 the calendar date of a time
    value has a year of four digits, a month from 1 to 12 and a day from
    1 to 31. *)
Lemma civil_from_days_range (t : Z) :
  (0 <= t <= 253402300799999)%Z ->
  let '(y, m, d) := civil_from_days (t / msPerDay) in
  (1970 <= y <= 9999 /\ 1 <= m <= 12 /\ 1 <= d <= 31)%Z.
Proof.
  intros Ht. unfold civil_from_days, msPerDay.
  set (days := (t / 86400000)%Z).
  assert (Hd : (0 <= days <= 2932896)%Z)
    by (unfold days; Z.to_euclidean_division_equations; lia).
  clearbody days. clear Ht t.
  set (z := (days + 719468)%Z).
  set (era := (z / 146097)%Z).
  set (doe := (z - era * 146097)%Z).
  set (yoe := ((doe - doe / 1460 + doe / 36524 - doe / 146096) / 365)%Z).
  set (doy := (doe - (365 * yoe + yoe / 4 - yoe / 100))%Z).
  set (mp := ((5 * doy + 2) / 153)%Z).
  set (d := (doy - (153 * mp + 2) / 5 + 1)%Z).
  assert (Hera : (4 <= era <= 24)%Z)
    by (unfold era, z; Z.to_euclidean_division_equations; lia).
  assert (Hdoe : (0 <= doe <= 146096)%Z)
    by (unfold doe, era; Z.to_euclidean_division_equations; lia).
  assert (Hyoe : (0 <= yoe <= 399)%Z)
    by (unfold yoe; Z.to_euclidean_division_equations; lia).
  assert (Hdoy : (0 <= doy <= 365)%Z)
    by (unfold doy, yoe; Z.to_euclidean_division_equations; lia).
  assert (Hmp : (0 <= mp <= 11)%Z)
    by (unfold mp; Z.to_euclidean_division_equations; lia).
  assert (Hday : (1 <= d <= 31)%Z)
    by (unfold d, mp; Z.to_euclidean_division_equations; lia).
  assert (Hlate : (306 <= doy -> 10 <= mp)%Z)
    by (unfold mp; Z.to_euclidean_division_equations; lia).
  assert (Hearly : (doy < 306 -> mp < 10)%Z)
    by (unfold mp; Z.to_euclidean_division_equations; lia).
  assert (Hz : (z = era * 146097 + 365 * yoe + yoe / 4 - yoe / 100 + doy)%Z)
    by (unfold doy, doe; lia).
  assert (Hlow : (1970 <= yoe + era * 400 + (if mp <? 10 then 0 else 1))%Z).
  { destruct (mp <? 10)%Z eqn:E; [apply Z.ltb_lt in E | apply Z.ltb_ge in E];
      unfold z in Hz; Z.to_euclidean_division_equations; lia. }
  assert (Hhigh : (yoe + era * 400 + (if mp <? 10 then 0 else 1) <= 9999)%Z).
  { destruct (mp <? 10)%Z eqn:E; [apply Z.ltb_lt in E | apply Z.ltb_ge in E];
      unfold z in Hz; Z.to_euclidean_division_equations; lia. }
  destruct (mp <? 10)%Z eqn:E; [apply Z.ltb_lt in E | apply Z.ltb_ge in E].
  - destruct (mp + 3 <=? 2)%Z eqn:E2; [apply Z.leb_le in E2; lia |]. lia.
  - destruct (mp - 9 <=? 2)%Z eqn:E2; [| apply Z.leb_gt in E2; lia]. lia.
Qed.

(** From 1970 to the end of the year 9999 the ISO date has the ten
    characters of [YYYY-MM-DD], with the dashes in the fifth and eighth
    place. *)
Lemma isoDate_shape (t : Z) :
  (0 <= t <= 253402300799999)%Z ->
  String.length (isoDate t) = 10
  /\ String.get 4 (isoDate t) = Some "-"%char
  /\ String.get 7 (isoDate t) = Some "-"%char.
Proof.
  intro Ht. pose proof (civil_from_days_range t Ht) as Hrange.
  unfold isoDate. destruct (civil_from_days (t / msPerDay)) as [[y m] d].
  destruct Hrange as [[Hlo Hhi] _]. unfold isoYear.
  assert (Hlo' : (0 <=? y)%Z = true) by (apply Z.leb_le; lia).
  assert (Hhi' : (y <=? 9999)%Z = true) by (apply Z.leb_le; lia).
  rewrite Hlo', Hhi'. simpl andb. cbv iota.
  split; [| split].
  - rewrite length_append. cbn [String.length].
    rewrite length_append. cbn [String.length].
    rewrite !digits_length. reflexivity.
  - change (digits 4 y) with
      (String.append (String.append (String.append (String.append EmptyString
         (String (ascii_of_nat (Z.to_nat (48 + (y / 10 / 10 / 10) mod 10))) EmptyString))
         (String (ascii_of_nat (Z.to_nat (48 + (y / 10 / 10) mod 10))) EmptyString))
         (String (ascii_of_nat (Z.to_nat (48 + (y / 10) mod 10))) EmptyString))
         (String (ascii_of_nat (Z.to_nat (48 + y mod 10))) EmptyString)).
    reflexivity.
  - change (digits 4 y) with
      (String.append (String.append (String.append (String.append EmptyString
         (String (ascii_of_nat (Z.to_nat (48 + (y / 10 / 10 / 10) mod 10))) EmptyString))
         (String (ascii_of_nat (Z.to_nat (48 + (y / 10 / 10) mod 10))) EmptyString))
         (String (ascii_of_nat (Z.to_nat (48 + (y / 10) mod 10))) EmptyString))
         (String (ascii_of_nat (Z.to_nat (48 + y mod 10))) EmptyString)).
    change (digits 2 m) with
      (String.append (String.append EmptyString
         (String (ascii_of_nat (Z.to_nat (48 + (m / 10) mod 10))) EmptyString))
         (String (ascii_of_nat (Z.to_nat (48 + m mod 10))) EmptyString)).
    reflexivity.
Qed.


End DateFacts.

(* ================================================================== *)
(** * The processor: transformJob and processJobs *)
(* ================================================================== *)

Module TransformFacts.

Import BaseProcessor.
Import Vocabulary.

Section WithRuntime.
Context {rt : Runtime}.

(** [transformJob] returns exactly when [normalizeLocation] does; what the
    salary parser, the experience mapper, the date parser and the
    description cleanup give never stops it. *)
Lemma transformJob_returns (this : Processor) (rawJob : RawJob)
    (g : GlobalConfig) (locationInfo : LocationNormalizer.LocationResult) :
  LocationNormalizer.normalizeLocation (raw_location rawJob) (config this)
  = Return locationInfo ->
  exists job,
    transformJob this rawJob g = Return job
    /\ salaryPerMonth job
       = averageOrNull (SalaryParser.parseSalary (raw_salary rawJob) (config this))
    /\ postedDate job
       = postedDateOr (DateParser.parseDate (listed_time rawJob) (config this))
    /\ experienceLevelId job
       = ExperienceMapper.getExperienceLevelId
           (ExperienceMapper.mapExperience (raw_experience_level rawJob) (config this))
    /\ jobDescription job = processDescription this (raw_description rawJob)
    /\ title job = job_title rawJob
    /\ postUrl job = url rawJob
    /\ rawJobId job = job_id rawJob.
Proof.
  intro H. unfold transformJob. rewrite H. simpl.
  eexists. split; [reflexivity |]. simpl. repeat split.
Qed.

(** An exception of the location normalizer leaves [transformJob]
    uncaught: the whole record is lost. *)
Lemma transformJob_throws (this : Processor) (rawJob : RawJob)
    (g : GlobalConfig) (e : Error) :
  LocationNormalizer.normalizeLocation (raw_location rawJob) (config this)
  = Throw e ->
  transformJob this rawJob g = Throw e.
Proof.
  intro H. unfold transformJob. rewrite H. reflexivity.
Qed.

(** The fields of the record that [transformJob] returns. *)
Lemma transformJob_fields (this : Processor) (rawJob : RawJob)
    (g : GlobalConfig) (job : Job) :
  transformJob this rawJob g = Return job ->
  salaryPerMonth job
  = averageOrNull (SalaryParser.parseSalary (raw_salary rawJob) (config this))
  /\ postedDate job
     = postedDateOr (DateParser.parseDate (listed_time rawJob) (config this)).
Proof.
  unfold transformJob.
  destruct (LocationNormalizer.normalizeLocation _ _); simpl; [| discriminate].
  intro H. injection H as <-. split; reflexivity.
Qed.

(** C10: when the parsed salary has an average that is falsy (0, -0 or
    NaN) or absent, the monthly salary of the candidate record is [null]:
    every record that [transformJob] returns has it so, and a record is
    returned whenever the location normalizer returns. *)
Theorem falsy_average_gives_null_salary (this : Processor) (rawJob : RawJob)
    (g : GlobalConfig) (info : SalaryParser.SalaryInfo) :
  SalaryParser.parseSalary (raw_salary rawJob) (config this)
  = SalaryParser.SalaryObject info ->
  (SalaryParser.s_average info = None
   \/ exists average,
        SalaryParser.s_average info = Some average
        /\ (PrimFloat.is_zero average = true \/ PrimFloat.is_nan average = true)) ->
  (forall job, transformJob this rawJob g = Return job -> salaryPerMonth job = None)
  /\ (forall locationInfo,
        LocationNormalizer.normalizeLocation (raw_location rawJob) (config this)
        = Return locationInfo ->
        exists job, transformJob this rawJob g = Return job
                    /\ salaryPerMonth job = None).
Proof.
  intros Hsalary Hfalsy.
  assert (Hnull : forall job, transformJob this rawJob g = Return job ->
                              salaryPerMonth job = None).
  { intros job Hjob.
    destruct (transformJob_fields this rawJob g job Hjob) as [Hmonth _].
    rewrite Hmonth, Hsalary. unfold averageOrNull.
    destruct Hfalsy as [-> | (average & -> & Hzero)]; [reflexivity |].
    unfold truthy_number.
    destruct Hzero as [-> | ->]; [rewrite orb_true_r | rewrite orb_true_l];
      reflexivity. }
  split; [exact Hnull |].
  intros locationInfo Hloc.
  destruct (transformJob_returns this rawJob g locationInfo Hloc) as (job & Hjob & _).
  exists job. split; [exact Hjob | apply Hnull; exact Hjob].
Qed.

(** C8: a date text that matches no relative pattern and no absolute
    format, with the AI fallback disabled, makes the date normalizer
    return [null], and the processor then gives the candidate record the
    current processing date: every record that [transformJob] returns has
    it, and a record is returned whenever the location normalizer returns.
    The date has the form YYYY-MM-DD for a clock from 1970 to the end of
    the year 9999. *)
Theorem unparseable_date_defaults_to_today (this : Processor) (rawJob : RawJob)
    (g : GlobalConfig) (text : string) :
  listed_time rawJob = Some (DateParser.DateText text) ->
  Vocabulary.unparseable text (config this) = true ->
  fallback_enabled (match date (config this) with
                    | Some c => date_ai_fallback c
                    | None => None
                    end) = false ->
  DateParser.parseDate (listed_time rawJob) (config this) = DateParser.DateNull
  /\ (forall job, transformJob this rawJob g = Return job ->
                  postedDate job = PostedOn (DateParser.isoDate Date_now))
  /\ (forall locationInfo,
        LocationNormalizer.normalizeLocation (raw_location rawJob) (config this)
        = Return locationInfo ->
        exists job, transformJob this rawJob g = Return job
                    /\ postedDate job = PostedOn (DateParser.isoDate Date_now))
  /\ ((0 <= Date_now <= 253402300799999)%Z ->
      String.length (DateParser.isoDate Date_now) = 10
      /\ String.get 4 (DateParser.isoDate Date_now) = Some "-"%char
      /\ String.get 7 (DateParser.isoDate Date_now) = Some "-"%char).
Proof.
  intros Htext Hun Hai.
  assert (Hnull : DateParser.parseDate (listed_time rawJob) (config this)
                  = DateParser.DateNull).
  { rewrite Htext. apply DateFacts.parseDate_null; assumption. }
  assert (Htoday : forall job, transformJob this rawJob g = Return job ->
                     postedDate job = PostedOn (DateParser.isoDate Date_now)).
  { intros job Hjob.
    destruct (transformJob_fields this rawJob g job Hjob) as [_ Hdate].
    rewrite Hdate, Hnull. reflexivity. }
  split; [exact Hnull | split; [exact Htoday | split]].
  - intros locationInfo Hloc.
    destruct (transformJob_returns this rawJob g locationInfo Hloc)
      as (job & Hjob & _).
    exists job. split; [exact Hjob | apply Htoday; exact Hjob].
  - apply DateFacts.isoDate_shape.
Qed.

End WithRuntime.

(** An exact pattern capturing the value 0. *)
Lemma falsy_average_gives_null_salary_witness :
  let this := Samples.processor Samples.careerviet in
  let raw := Samples.rawJob "j1" "Volunteer" (Some "0 USD") (Some "Hanoi")
               (Some "2026-01-05") "https://careerviet.vn/jobs/1" 5 in
  @SalaryParser.parseSalary Demo.runtime (raw_salary raw) (config this)
  = SalaryParser.SalaryObject
      {| SalaryParser.s_min := Some 0%float; SalaryParser.s_max := Some 0%float;
         SalaryParser.s_average := Some 0%float;
         SalaryParser.s_currency := Some "USD"; SalaryParser.s_type := "exact" |}
  /\ exists job, @transformJob Demo.runtime this raw Samples.globalConfig = Return job
                 /\ salaryPerMonth job = None.
Proof.
  intros this raw.
  assert (Hsalary :
    @SalaryParser.parseSalary Demo.runtime (raw_salary raw) (config this)
    = SalaryParser.SalaryObject
        {| SalaryParser.s_min := Some 0%float; SalaryParser.s_max := Some 0%float;
           SalaryParser.s_average := Some 0%float;
           SalaryParser.s_currency := Some "USD"; SalaryParser.s_type := "exact" |})
    by (vm_compute; reflexivity).
  split; [exact Hsalary |].
  refine (proj2 (@falsy_average_gives_null_salary Demo.runtime this raw
                   Samples.globalConfig _ Hsalary _) _ _).
  - right. exists 0%float. split; [reflexivity | left; reflexivity].
  - vm_compute. reflexivity.
Defined.

(** "as soon as possible" is not a date, and the processing date is
    2 November 2026. *)
Lemma unparseable_date_defaults_to_today_witness :
  let this := Samples.processor Samples.careerviet in
  let raw := Samples.rawJob "j1" "Developer" (Some "Negotiable") (Some "Hanoi")
               (Some "as soon as possible") "https://careerviet.vn/jobs/1" 5 in
  @DateParser.parseDate Demo.runtime (listed_time raw) (config this)
  = DateParser.DateNull
  /\ exists job, @transformJob Demo.runtime this raw Samples.globalConfig = Return job
                 /\ postedDate job = PostedOn "2026-11-02".
Proof.
  intros this raw.
  pose proof (@unparseable_date_defaults_to_today Demo.runtime this raw
                Samples.globalConfig "as soon as possible" eq_refl eq_refl eq_refl)
    as (Hnull & _ & Hjob & _).
  split; [exact Hnull |].
  refine (Hjob (LocationNormalizer.LocationObject
                  {| LocationNormalizer.city := Some "Hanoi";
                     LocationNormalizer.country := Some "VNM";
                     LocationNormalizer.isRemote := false;
                     LocationNormalizer.isHybrid := Some false |}) _).
  vm_compute. reflexivity.
Defined.

(** C5, at a failing input: with a country pattern that is not a valid
    regular expression, or without a [location] section, the location
    normalizer throws on a record whose other fields all normalize; the
    exception is not caught in [transformJob], so no candidate record is
    built and [processJobs] drops the record and counts it as failed. *)
Theorem location_failure_aborts_record :
  let raw := Samples.rawJob "j1" "Senior Developer" (Some "15 Mil - 25 Mil VND")
               (Some "District 1, HCM") (Some "2026-01-05")
               "https://careerviet.vn/jobs/1" 5 in
  let broken := Samples.processor Samples.brokenCountryPattern in
  let missing := Samples.processor Samples.noLocationSection in
  @BaseProcessor.averageOrNull
     (@SalaryParser.parseSalary Demo.runtime (raw_salary raw) (config broken))
  = Some 20000000%float
  /\ @ExperienceMapper.mapExperience Demo.runtime (raw_experience_level raw)
       (config broken) = "Senior"
  /\ @DateParser.parseDate Demo.runtime (listed_time raw) (config broken)
     = DateParser.DateString "2026-01-05"
  /\ @processDescription Demo.runtime broken (raw_description raw)
     = Some "Join our team"
  /\ @LocationNormalizer.normalizeLocation Demo.runtime (raw_location raw)
       (config broken) = Throw SyntaxError
  /\ @transformJob Demo.runtime broken raw Samples.globalConfig = Throw SyntaxError
  /\ @processJobs Demo.runtime broken [raw] Samples.globalConfig
     = ([], {| platformName := "CareerViet";
               config := Samples.brokenCountryPattern;
               stats := {| st_processed := 1; st_success := 0; st_failed := 1;
                           st_errors := [{| err_job_id := "j1";
                                            err_job_title := "Senior Developer";
                                            err_error := SyntaxError |}] |} |})
  /\ @transformJob Demo.runtime missing raw Samples.globalConfig = Throw TypeError
  /\ fst (@processJobs Demo.runtime missing [raw] Samples.globalConfig) = [].
Proof.
  repeat split; vm_compute; reflexivity.
Qed.

End TransformFacts.

(* ================================================================== *)
(** * Inserting job posts *)
(* ================================================================== *)

Module InsertFacts.

Import Vocabulary.

Section WithRuntime.
Context {rt : Runtime}.

(** A URL found by [findJobByUrl] is the URL of a stored row with the
    returned identifier. *)
Lemma findJobByUrl_sound (db : CleanStore) (postUrl : string) (id : uuid) :
  Database.findJobByUrl db (Some postUrl) = Some id ->
  exists row, In row (jobPostTable db) /\ jp_id row = id /\ jp_postUrl row = postUrl.
Proof.
  unfold Database.findJobByUrl, Sql.selectByUrl. intro H.
  destruct (find _ (jobPostTable db)) as [row |] eqn:E; [| discriminate].
  injection H as <-. apply find_some in E. destruct E as [Hin Heq].
  exists row. repeat split; [exact Hin |]. apply String.eqb_eq. exact Heq.
Qed.

(** A row found by company, title and platform has that company, that
    platform, and the same title up to case and surrounding spaces. *)
Lemma findJobByCompanyTitlePlatform_sound (db : CleanStore)
    (companyId : uuid) (title : string) (platformId : Z) (id : uuid) :
  Database.findJobByCompanyTitlePlatform db (Some companyId) (Some title)
    (Some platformId) = Some id ->
  exists row, In row (jobPostTable db) /\ jp_id row = id
              /\ jp_companyId row = companyId
              /\ sql_lower (Sql.TRIM (jp_title row)) = sql_lower (Sql.TRIM title)
              /\ jp_platformId row = platformId.
Proof.
  unfold Database.findJobByCompanyTitlePlatform. intro H.
  destruct (find _ (jobPostTable db)) as [row |] eqn:E; [| discriminate].
  injection H as <-. apply find_some in E. destruct E as [Hin Heq].
  unfold Database.sameCompanyTitlePlatform in Heq.
  apply andb_true_iff in Heq. destruct Heq as [Heq Hp].
  apply andb_true_iff in Heq. destruct Heq as [Hc Ht].
  exists row. repeat split.
  - exact Hin.
  - apply Nat.eqb_eq. exact Hc.
  - apply String.eqb_eq. exact Ht.
  - apply Z.eqb_eq. exact Hp.
Qed.

(** [createJobPost] is duplicate-safe: a job post with the same URL, or
    else with the same company, title (up to case and surrounding spaces)
    and platform, makes the call a skip that returns the existing
    identifier and leaves the store as it is; otherwise a row is added. *)
Lemma createJobPost_duplicate_safe (db : CleanStore) (jobData : JobData) :
  (forall id, Database.findJobByUrl db (jd_postUrl jobData) = Some id ->
              Database.createJobPost db jobData = Return (false, id, db))
  /\ (forall id,
        Database.findJobByUrl db (jd_postUrl jobData) = None ->
        Database.findJobByCompanyTitlePlatform db (jd_companyId jobData)
          (jd_title jobData) (jd_platformId jobData) = Some id ->
        Database.createJobPost db jobData = Return (false, id, db))
  /\ (forall checked,
        Database.findJobByUrl db (jd_postUrl jobData) = None ->
        Database.findJobByCompanyTitlePlatform db (jd_companyId jobData)
          (jd_title jobData) (jd_platformId jobData) = None ->
        Sql.checkJobData jobData = Return checked ->
        Database.createJobPost db jobData
        = Return (true, next_uuid db,
                  Sql.addJobPost db (Sql.newJobPost db jobData checked))).
Proof.
  unfold Database.createJobPost. split; [| split].
  - intros id ->. reflexivity.
  - intros id -> ->. reflexivity.
  - intros checked Hurl -> Hcheck. rewrite Hurl.
    unfold Database.insertRow. rewrite Hcheck. simpl.
    destruct checked as [[[companyId title] platformId] postUrl].
    assert (Hsome : jd_postUrl jobData = Some postUrl).
    { unfold Sql.checkJobData in Hcheck.
      destruct (jd_postedDate jobData) as [[day |] |];
        destruct (jd_companyId jobData), (jd_title jobData),
                 (jd_platformId jobData), (jd_postUrl jobData);
        try discriminate; injection Hcheck as _ _ _ ->; reflexivity. }
    rewrite Hsome in Hurl. unfold Database.findJobByUrl in Hurl. simpl.
    destruct (Sql.selectByUrl db postUrl); [discriminate | reflexivity].
Qed.

End WithRuntime.

(** C1, at a failing input: [DatabaseService.insertJobPost], which the
    orchestrator calls, inserts a repost (same company, title and
    platform, another URL) as a second row, and on a URL that is already
    stored it returns no identifier; [createJobPost] skips both and returns
    the identifier of the stored row.  Through the orchestrator, two raw
    records of one company with the same title under two URLs end as two
    job posts of that company. *)
Theorem insertJobPost_admits_repost :
  DatabaseService.insertJobPost Samples.oneCompany Samples.original
  = Return (Some 2, Samples.afterOriginal)
  /\ DatabaseService.insertJobPost Samples.afterOriginal Samples.repost
     = Return (Some 3,
               Sql.addJobPost Samples.afterOriginal
                 {| jp_id := 3; jp_companyId := 1;
                    jp_title := "  backend developer ";
                    jp_platformId := 3;
                    jp_postUrl := "https://careerviet.vn/jobs/2";
                    jp_data := Samples.repost |})
  /\ DatabaseService.insertJobPost Samples.afterOriginal Samples.original
     = Return (None, Samples.afterOriginal)
  /\ @Database.createJobPost Demo.runtime Samples.afterOriginal Samples.repost
     = Return (false, 2, Samples.afterOriginal)
  /\ @Database.createJobPost Demo.runtime Samples.afterOriginal Samples.original
     = Return (false, 2, Samples.afterOriginal)
  /\ map (fun row => (jp_companyId row, jp_title row, jp_platformId row, jp_postUrl row))
       (jobPostTable
          (DataProcessorApp.cleanStore
             (snd (fst (@DataProcessorApp.processPlatform Demo.runtime
                          Samples.repostApplication Samples.repostWorld
                          100 "careerviet")))))
     = [(1, "Backend Developer", 3%Z, "https://careerviet.vn/jobs/1");
        (1, "  backend developer ", 3%Z, "https://careerviet.vn/jobs/2")].
Proof.
  repeat split; vm_compute; reflexivity.
Qed.

End InsertFacts.

(* ================================================================== *)
(** * One platform of a processing cycle *)
(* ================================================================== *)

Module CycleFacts.

Import DataProcessorApp.
Import Vocabulary.

(** ** Lists *)

Lemma insertBy_In {A} (key : A -> Z) (x y : A) (sorted : list A) :
  In x (Sql.insertBy key y sorted) -> x = y \/ In x sorted.
Proof.
  induction sorted as [| z sorted IH]; simpl.
  - intros [H | []]. left. symmetry. exact H.
  - destruct (key y <? key z)%Z; simpl.
    + intros [H | H]; [left; symmetry; exact H | right; exact H].
    + intros [H | H]; [right; left; exact H |].
      destruct (IH H) as [H' | H']; [left; exact H' | right; right; exact H'].
Qed.

Lemma sortBy_In {A} (key : A -> Z) (x : A) (l : list A) :
  In x (Sql.sortBy key l) -> In x l.
Proof.
  unfold Sql.sortBy.
  assert (H : forall acc, In x (fold_left (fun s y => Sql.insertBy key y s) l acc) ->
                          In x l \/ In x acc).
  { induction l as [| y l IH]; simpl; intros acc Hin.
    - right. exact Hin.
    - destruct (IH _ Hin) as [H | H]; [left; right; exact H |].
      destruct (insertBy_In key x y acc H) as [-> | H'];
        [left; left; reflexivity | right; exact H']. }
  intro Hin. destruct (H [] Hin) as [H' | []]. exact H'.
Qed.

Lemma firstn_In {A} (n : nat) (x : A) (l : list A) :
  In x (firstn n l) -> In x l.
Proof.
  revert l. induction n as [| n IH]; intros [| y l]; simpl; try tauto.
  intros [H | H]; [left; exact H | right; apply IH; exact H].
Qed.

Lemma same_key_same_row {A B} (f : A -> B) (l : list A) (x y : A) :
  NoDup (map f l) -> In x l -> In y l -> f x = f y -> x = y.
Proof.
  induction l as [| z l IH]; simpl; intros Hnd Hx Hy Heq; [contradiction |].
  inversion Hnd as [| ? ? Hnotin Hnd']; subst.
  destruct Hx as [-> | Hx], Hy as [-> | Hy].
  - reflexivity.
  - exfalso. apply Hnotin. rewrite Heq. apply in_map. exact Hy.
  - exfalso. apply Hnotin. rewrite <- Heq. apply in_map. exact Hx.
  - apply IH; assumption.
Qed.

(** ** The raw store *)

(** The rows of a batch are unprocessed rows of the raw store. *)
Lemma getUnprocessedJobs_sound (raw : RawStore) (name : string) (size : Z)
    (rawJobs : list RawJob) :
  DatabaseService.getUnprocessedJobs raw name size = Return rawJobs ->
  forall row, In row rawJobs ->
              In row raw /\ processed row = false /\ platform row = name.
Proof.
  unfold DatabaseService.getUnprocessedJobs.
  destruct (size <? 0)%Z; [discriminate |].
  intros H row Hin. injection H as <-.
  apply firstn_In, sortBy_In, filter_In in Hin. destruct Hin as [Hin Hok].
  apply andb_true_iff in Hok. destruct Hok as [Hp Hn].
  split; [exact Hin | split].
  - apply negb_true_iff. exact Hp.
  - apply String.eqb_eq. exact Hn.
Qed.

Lemma markProcessed_other (jobIds : list string) (row : RawJob) :
  ~ In (job_id row) jobIds ->
  DatabaseService.markProcessed jobIds row = row.
Proof.
  intro H. unfold DatabaseService.markProcessed.
  destruct (existsb (String.eqb (job_id row)) jobIds) eqn:E; [| reflexivity].
  exfalso. apply H. apply existsb_exists in E. destruct E as (id & Hin & Heq).
  apply String.eqb_eq in Heq. rewrite Heq. exact Hin.
Qed.

Lemma markProcessed_listed (jobIds : list string) (row : RawJob) :
  In (job_id row) jobIds ->
  processed (DatabaseService.markProcessed jobIds row) = true
  /\ job_id (DatabaseService.markProcessed jobIds row) = job_id row.
Proof.
  intro H. unfold DatabaseService.markProcessed.
  assert (E : existsb (String.eqb (job_id row)) jobIds = true).
  { apply existsb_exists. exists (job_id row). split; [exact H |].
    apply String.eqb_refl. }
  rewrite E. split; reflexivity.
Qed.

Lemma markJobsProcessed_nil (raw : RawStore) :
  DatabaseService.markJobsProcessed raw [] = raw.
Proof.
  unfold DatabaseService.markJobsProcessed.
  induction raw as [| row raw IH]; simpl; [reflexivity |].
  rewrite IH. reflexivity.
Qed.

(** ** The insert loop *)

Lemma commitJob_ids (acc : Commit) (job : Job) :
  processedJobIds (commitJob acc job)
  = processedJobIds acc ++ (if insertedBy acc job then [rawJobId job] else []).
Proof.
  unfold commitJob, insertedBy.
  destruct (DatabaseService.upsertCompany _ _) as [[companyId store1] | e]; simpl;
    [| symmetry; apply app_nil_r].
  destruct (DatabaseService.insertJobPost _ _) as [[[id |] store2] | e]; simpl;
    try reflexivity; symmetry; apply app_nil_r.
Qed.

Lemma commit_ids_kept (jobs : list Job) (acc : Commit) (id : string) :
  In id (processedJobIds acc) ->
  In id (processedJobIds (fold_left commitJob jobs acc)).
Proof.
  revert acc. induction jobs as [| job jobs IH]; simpl; intros acc H; [exact H |].
  apply IH. rewrite commitJob_ids. apply in_or_app. left. exact H.
Qed.

Lemma commit_ids_origin (jobs : list Job) (acc : Commit) (id : string) :
  In id (processedJobIds (fold_left commitJob jobs acc)) ->
  In id (processedJobIds acc) \/ exists job, In job jobs /\ rawJobId job = id.
Proof.
  revert acc. induction jobs as [| job jobs IH]; simpl; intros acc H;
    [left; exact H |].
  destruct (IH _ H) as [Hacc | (job' & Hin & Heq)].
  - rewrite commitJob_ids in Hacc. apply in_app_or in Hacc.
    destruct Hacc as [Hacc | Hnew]; [left; exact Hacc |].
    right. exists job. split; [left; reflexivity |].
    destruct (insertedBy acc job); simpl in Hnew; [| contradiction].
    destruct Hnew as [Hnew | []]. exact Hnew.
  - right. exists job'. split; [right; exact Hin | exact Heq].
Qed.

Section WithRuntime.
Context {rt : Runtime}.

(** ** The transform loop *)

Lemma processJobs_transformed (p : BaseProcessor.Processor) (rawJobs : list RawJob)
    (g : GlobalConfig) :
  fst (BaseProcessor.processJobs p rawJobs g) = transformedJobs p g rawJobs.
Proof.
  unfold BaseProcessor.processJobs.
  assert (H : forall acc,
             fst (fold_left (BaseProcessor.processOne p g) rawJobs acc)
             = fst acc ++ transformedJobs p g rawJobs).
  { induction rawJobs as [| rawJob rawJobs IH]; intros [jobs st]; simpl.
    - symmetry. apply app_nil_r.
    - rewrite IH. unfold BaseProcessor.processOne.
      destruct (BaseProcessor.transformJob p rawJob g); simpl.
      + rewrite <- app_assoc. reflexivity.
      + reflexivity. }
  specialize (H ([], BaseProcessor.stats p)).
  destruct (fold_left _ rawJobs _) as [jobs st]. exact H.
Qed.

Lemma transformJob_rawJobId (p : BaseProcessor.Processor) (rawJob : RawJob)
    (g : GlobalConfig) (job : Job) :
  BaseProcessor.transformJob p rawJob g = Return job ->
  rawJobId job = job_id rawJob.
Proof.
  unfold BaseProcessor.transformJob.
  destruct (LocationNormalizer.normalizeLocation _ _); simpl; [| discriminate].
  intro H. injection H as <-. reflexivity.
Qed.

Lemma transformedJobs_origin (p : BaseProcessor.Processor) (g : GlobalConfig)
    (rawJobs : list RawJob) (job : Job) :
  In job (transformedJobs p g rawJobs) ->
  exists rawJob, In rawJob rawJobs
                 /\ BaseProcessor.transformJob p rawJob g = Return job.
Proof.
  unfold transformedJobs. rewrite in_flat_map. intros (rawJob & Hin & Hjob).
  exists rawJob. split; [exact Hin |].
  destruct (BaseProcessor.transformJob p rawJob g); simpl in Hjob.
  - destruct Hjob as [-> | []]. reflexivity.
  - contradiction.
Qed.

(** ** The raw store after one platform *)

(** What [processPlatform] does to the raw store: one update, with the
    identifiers that the insert loop recorded. *)
Lemma processPlatform_rawStore (a : App) (w : World) (size : Z) (key : string)
    (processor : BaseProcessor.Processor) (entry : PlatformEntry)
    (rawJobs : list RawJob) :
  get (processors a) key = Some processor ->
  get (platforms (globalConfig a)) key = Some entry ->
  DatabaseService.getUnprocessedJobs (rawStore w) (pf_name entry) size
  = Return rawJobs ->
  rawStore (snd (fst (processPlatform a w size key)))
  = DatabaseService.markJobsProcessed (rawStore w)
      (processedJobIds
         (commitJobs (cleanStore w)
            (transformedJobs processor (globalConfig a) rawJobs))).
Proof.
  intros Hp He Hb. unfold processPlatform. rewrite Hp, He, Hb.
  destruct rawJobs as [| rawJob rawJobs].
  - simpl. symmetry. apply markJobsProcessed_nil.
  - rewrite <- processJobs_transformed.
    destruct (BaseProcessor.processJobs processor (rawJob :: rawJobs) (globalConfig a))
      as [jobs processor'].
    simpl fst. simpl snd. cbv beta iota. simpl rawStore.
    destruct (processedJobIds (commitJobs (cleanStore w) jobs));
      [symmetry; apply markJobsProcessed_nil | reflexivity].
Qed.

(** C2, as the code has it: after the orchestrator has handled a batch of
    a source, the raw store differs from the one before by a single
    batched update, with the identifiers recorded by the insert loop;
    every raw record whose candidate the insert returned an identifier for
    is marked processed; a raw record whose transformation threw is not
    marked: it is still in the raw store, unprocessed. *)
Theorem inserted_records_are_marked (a : App) (w : World) (size : Z)
    (key : string) (processor : BaseProcessor.Processor) (entry : PlatformEntry)
    (rawJobs : list RawJob) :
  NoDup (map job_id (rawStore w)) ->
  get (processors a) key = Some processor ->
  get (platforms (globalConfig a)) key = Some entry ->
  DatabaseService.getUnprocessedJobs (rawStore w) (pf_name entry) size
  = Return rawJobs ->
  let transformed := transformedJobs processor (globalConfig a) rawJobs in
  let done := commitJobs (cleanStore w) transformed in
  let w' := snd (fst (processPlatform a w size key)) in
  fst (BaseProcessor.processJobs processor rawJobs (globalConfig a)) = transformed
  /\ rawStore w'
     = DatabaseService.markJobsProcessed (rawStore w) (processedJobIds done)
  /\ (forall before job after,
        transformed = before ++ job :: after ->
        insertedBy (commitJobs (cleanStore w) before) job = true ->
        forall row, In row (rawStore w) -> job_id row = rawJobId job ->
                    exists row', In row' (rawStore w')
                                 /\ job_id row' = job_id row
                                 /\ processed row' = true)
  /\ (forall rawJob e,
        In rawJob rawJobs ->
        BaseProcessor.transformJob processor rawJob (globalConfig a) = Throw e ->
        ~ In (job_id rawJob) (processedJobIds done)
        /\ In rawJob (rawStore w') /\ processed rawJob = false).
Proof.
  intros Hkeys Hp He Hb transformed done w'.
  assert (Hraw : rawStore w'
                 = DatabaseService.markJobsProcessed (rawStore w)
                     (processedJobIds done))
    by (apply (processPlatform_rawStore a w size key processor entry); assumption).
  split; [apply processJobs_transformed | split; [exact Hraw | split]].
  - intros before job after Hsplit Hins row Hin Hid.
    assert (Hlisted : In (job_id row) (processedJobIds done)).
    { unfold done, commitJobs. rewrite Hsplit, fold_left_app. simpl.
      apply commit_ids_kept. rewrite commitJob_ids.
      apply in_or_app. right. unfold commitJobs in Hins. rewrite Hins.
      left. symmetry. exact Hid. }
    exists (DatabaseService.markProcessed (processedJobIds done) row).
    destruct (markProcessed_listed _ row Hlisted) as [Hproc Hsame].
    split; [| split; [exact Hsame | exact Hproc]].
    rewrite Hraw. unfold DatabaseService.markJobsProcessed.
    apply in_map. exact Hin.
  - intros rawJob e Hin Hthrow.
    destruct (getUnprocessedJobs_sound _ _ _ _ Hb rawJob Hin) as (Hstore & Hflag & _).
    assert (Hnot : ~ In (job_id rawJob) (processedJobIds done)).
    { intro Hlisted. unfold done, commitJobs in Hlisted.
      apply commit_ids_origin in Hlisted.
      destruct Hlisted as [[] | (job & Hjob & Hid)].
      apply transformedJobs_origin in Hjob.
      destruct Hjob as (rawJob' & Hin' & Hret).
      destruct (getUnprocessedJobs_sound _ _ _ _ Hb rawJob' Hin') as (Hstore' & _).
      assert (rawJob' = rawJob).
      { apply (same_key_same_row job_id (rawStore w)); try assumption.
        rewrite <- (transformJob_rawJobId _ _ _ _ Hret). exact Hid. }
      subst rawJob'. rewrite Hthrow in Hret. discriminate. }
    split; [exact Hnot | split; [| exact Hflag]].
    rewrite Hraw. unfold DatabaseService.markJobsProcessed.
    rewrite <- (markProcessed_other (processedJobIds done) rawJob Hnot).
    apply in_map. exact Hstore.
Qed.

End WithRuntime.

(** ** A candidate that the quality checks would reject

    [validateJob] is not called: a candidate without the required monthly
    salary is inserted, and its raw row marked processed, like any other. *)
Lemma unvalidated_candidate_is_inserted :
  let after := snd (fst (@processPlatform Demo.runtime Samples.repostApplication
                           Samples.negotiableWorld 100 "careerviet")) in
  (exists job,
     @BaseProcessor.transformJob Demo.runtime (Samples.processor Samples.careerviet)
       Samples.negotiableRow Samples.globalConfig = Return job
     /\ BaseProcessor.validateJob (Samples.processor Samples.careerviet) job = false)
  /\ map jp_postUrl (jobPostTable (cleanStore after))
     = ["https://careerviet.vn/jobs/9"]
  /\ map (fun row => (job_id row, processed row)) (rawStore after) = [("n", true)].
Proof.
  split; [eexists; split; vm_compute; reflexivity |].
  split; vm_compute; reflexivity.
Qed.

(** ** A batch with a failed and a duplicate record *)

(** All three rows are in the batch; the second fails in the
    transformation and the third is skipped by the insert as a duplicate
    URL; after the cycle only the first is marked processed, and the next
    fetch returns the other two again. *)
Lemma failed_and_duplicate_not_marked :
  DatabaseService.getUnprocessedJobs (rawStore Samples.worldBefore) "CareerViet" 100
  = Return [Samples.rowA; Samples.rowB; Samples.rowC]
  /\ @BaseProcessor.transformJob Demo.runtime
       (Samples.processor Samples.brokenCountryPattern) Samples.rowB Samples.globalConfig
     = Throw SyntaxError
  /\ (exists job,
        @BaseProcessor.transformJob Demo.runtime
          (Samples.processor Samples.brokenCountryPattern) Samples.rowC Samples.globalConfig
        = Return job
        /\ DatabaseService.insertJobPost Samples.cleanRows (toJobData 1 job)
           = Return (None, Samples.cleanRows))
  /\ map (fun row => (job_id row, processed row)) (rawStore Samples.worldAfter)
     = [("a", true); ("b", false); ("c", false)]
  /\ DatabaseService.getUnprocessedJobs (rawStore Samples.worldAfter) "CareerViet" 100
     = Return [Samples.rowB; Samples.rowC].
Proof.
  split; [vm_compute; reflexivity |].
  split; [vm_compute; reflexivity |].
  split; [eexists; split; vm_compute; reflexivity |].
  split; vm_compute; reflexivity.
Qed.

Lemma rawRows_keys : NoDup (map job_id Samples.rawRows).
Proof.
  simpl. repeat constructor; simpl; intuition discriminate.
Defined.

(** On the same batch: the inserted record is marked, the record whose
    transformation threw is still there, unprocessed. *)
Lemma inserted_records_are_marked_witness :
  (exists row', In row' (rawStore Samples.worldAfter) /\ job_id row' = "a"
                /\ processed row' = true)
  /\ In Samples.rowB (rawStore Samples.worldAfter) /\ processed Samples.rowB = false.
Proof.
  pose proof (@inserted_records_are_marked Demo.runtime
                Samples.application Samples.worldBefore 100 "careerviet"
                (Samples.processor Samples.brokenCountryPattern)
                {| pf_name := "CareerViet"; pf_enabled := true;
                   pf_priority := Some 1%Z;
                   pf_processor_class := "CareerVietProcessor" |}
                [Samples.rowA; Samples.rowB; Samples.rowC] rawRows_keys eq_refl eq_refl eq_refl)
    as (Hjobs & _ & Hinserted & Hthrown).
  split.
  - assert (Hsplit : exists job rest,
              @transformedJobs Demo.runtime
                (Samples.processor Samples.brokenCountryPattern)
                (globalConfig Samples.application) [Samples.rowA; Samples.rowB; Samples.rowC]
              = [] ++ job :: rest
              /\ rawJobId job = "a"
              /\ insertedBy (commitJobs (cleanStore Samples.worldBefore) []) job = true).
    { eexists. eexists. split; [lazy; reflexivity |].
      split; vm_compute; reflexivity. }
    destruct Hsplit as (job & rest & Hsplit & Hid & Hins).
    exact (Hinserted [] job rest Hsplit Hins Samples.rowA (or_introl eq_refl) (eq_sym Hid)).
  - refine (proj2 (Hthrown Samples.rowB SyntaxError (or_intror (or_introl eq_refl)) _)).
    vm_compute. reflexivity.
Defined.

End CycleFacts.


(* ================================================================== *)
(** * The re-entrancy guard *)
(* ================================================================== *)

Module GuardFacts.

Import DataProcessorApp.
Import Vocabulary.

Section WithRuntime.
Context {rt : Runtime}.

Lemma processPlatform_flag (a : App) (w : World) (size : Z) (key : string) :
  isProcessing (fst (fst (processPlatform a w size key))) = isProcessing a.
Proof.
  unfold processPlatform.
  destruct (get (processors a) key) as [processor |]; [| reflexivity].
  destruct (get (platforms (globalConfig a)) key) as [entry |]; [| reflexivity].
  destruct (DatabaseService.getUnprocessedJobs _ _ _) as [[| rawJob rawJobs] | e];
    try reflexivity.
  destruct (BaseProcessor.processJobs _ _ _) as [jobs processor']. reflexivity.
Qed.

Lemma invoke_guarded (s : System) : guarded s -> guarded (invoke s).
Proof.
  unfold invoke. intros [[Hflag Hrun] | [Hflag Hrun]]; rewrite Hflag.
  - right. simpl. split; [reflexivity |]. rewrite Hrun. eexists. reflexivity.
  - right. simpl. split; [exact Hflag | exact Hrun].
Qed.

Lemma cronTick_guarded (s : System) : guarded s -> guarded (cronTick s).
Proof.
  unfold cronTick. intro H.
  destruct (isProcessing (app s)) eqn:E; simpl.
  - destruct H as [[Hflag _] | [_ Hrun]]; [congruence |].
    right. simpl. split; [exact E | exact Hrun].
  - apply invoke_guarded. exact H.
Qed.

Lemma resume_guarded (s : System) (index : nat) : guarded s -> guarded (resume s index).
Proof.
  unfold resume. intros [[Hflag Hrun] | [Hflag [cycle Hrun]]].
  - rewrite Hrun. destruct index; simpl; left; split; assumption.
  - rewrite Hrun. destruct index as [| index]; simpl.
    + destruct (remaining cycle) as [| key rest].
      * left. split; reflexivity.
      * pose proof (processPlatform_flag (app s) (world s) (batchSize cycle) key) as Hkeep.
        destruct (processPlatform (app s) (world s) (batchSize cycle) key)
          as [[a w] [[p ok] ko]].
        simpl in Hkeep. right. simpl. split; [congruence |].
        eexists. reflexivity.
    + destruct index; simpl; right; (split; [exact Hflag |]);
        exists cycle; exact Hrun.
Qed.

Lemma step_guarded (s : System) (e : Event) : guarded s -> guarded (step s e).
Proof.
  destruct e; simpl;
    [apply invoke_guarded | apply cronTick_guarded | apply resume_guarded].
Qed.

Lemma run_guarded (events : list Event) (s : System) :
  guarded s -> guarded (run s events).
Proof.
  unfold run. revert s. induction events as [| e events IH]; simpl; intros s H.
  - exact H.
  - apply IH, step_guarded, H.
Qed.

(** C9: in every state that the process reaches from its start, at most
    one cycle is in flight and [isProcessing] is set exactly when there is
    one; a call of [processAllPlatforms], or a firing of the cron
    callback, that arrives while a cycle is in progress starts nothing: it
    leaves the application, the cycle in flight and both stores as they
    are and only writes a warning to the log; a call that arrives when no
    cycle is in progress sets the flag and starts the only cycle; and the
    cycle in flight, once it has no platform left, clears the flag as it
    ends. *)
Theorem one_cycle_at_a_time (g : GlobalConfig)
    (ps : dict BaseProcessor.Processor) (env : option string)
    (raw : RawStore) (clean : CleanStore) (events : list Event) :
  let s := run (initial g ps env raw clean) events in
  (List.length (running s) <= 1
   /\ (isProcessing (app s) = true <-> running s <> []))
  /\ (isProcessing (app s) = true ->
      (app (step s Invoke) = app s
       /\ running (step s Invoke) = running s
       /\ rawStore (world (step s Invoke)) = rawStore (world s)
       /\ cleanStore (world (step s Invoke)) = cleanStore (world s)
       /\ log (world (step s Invoke)) = log (world s) ++ [AlreadyInProgress])
      /\ (app (step s CronTick) = app s
          /\ running (step s CronTick) = running s
          /\ rawStore (world (step s CronTick)) = rawStore (world s)
          /\ cleanStore (world (step s CronTick)) = cleanStore (world s)
          /\ log (world (step s CronTick)) = log (world s) ++ [SkippingCycle]))
  /\ (isProcessing (app s) = false ->
      isProcessing (app (step s Invoke)) = true
      /\ exists cycle, running (step s Invoke) = [cycle]
                       /\ remaining cycle = sortedPlatforms (app s))
  /\ (forall index cycle,
        nth_error (running s) index = Some cycle ->
        remaining cycle = [] ->
        isProcessing (app (step s (Resume index))) = false
        /\ running (step s (Resume index)) = []).
Proof.
  intro s.
  assert (Hguard : guarded s).
  { apply run_guarded. left. split; reflexivity. }
  split; [| split; [| split]].
  - destruct Hguard as [[Hflag Hrun] | [Hflag [cycle Hrun]]]; rewrite Hflag, Hrun.
    + split; [simpl; lia |]. split; [discriminate | intro H; exfalso; apply H; reflexivity].
    + split; [simpl; lia |]. split; [discriminate | reflexivity].
  - intro Hflag. simpl. unfold invoke, cronTick. rewrite Hflag. simpl.
    repeat split.
  - intro Hflag. simpl. unfold invoke. rewrite Hflag. simpl.
    split; [reflexivity |].
    destruct Hguard as [[_ Hrun] | [Hflag' _]]; [| congruence].
    rewrite Hrun. eexists. split; reflexivity.
  - intros index cycle Hnth Hrest. simpl. unfold resume. rewrite Hnth, Hrest. simpl.
    split; [reflexivity |].
    destruct Hguard as [[_ Hrun] | [_ [cycle' Hrun]]]; rewrite Hrun in *.
    + destruct index; discriminate.
    + destruct index as [| index]; [reflexivity |]. destruct index; discriminate.
Qed.

End WithRuntime.

(** The batch of [BatchExample], with a second call and a cron firing
    arriving while the first cycle is suspended: both are dropped and
    logged, and the CareerViet batch is handled once. *)
Lemma dropped_calls_example :
  let start := @initial Samples.globalConfig
                 [("careerviet", Samples.processor Samples.careerviet)] None
                 Samples.rawRows Samples.cleanRows in
  let s := @run Demo.runtime start [Invoke; Invoke; CronTick] in
  let s' := @run Demo.runtime s [Resume 0; Invoke; Resume 0] in
  isProcessing (app s) = true
  /\ List.length (running s) = 1
  /\ log (world s) = [CycleStarted; AlreadyInProgress; SkippingCycle]
  /\ isProcessing (app s') = false
  /\ running s' = []
  /\ List.length (filter (fun entry => match entry with
                                       | FoundJobs _ => true
                                       | _ => false
                                       end) (log (world s'))) = 1.
Proof.
  repeat split; vm_compute; reflexivity.
Qed.

(** After the first call, a second call and a cron firing change neither
    the cycle in flight nor the stores. *)
Lemma one_cycle_at_a_time_witness :
  let start := @initial Samples.globalConfig
                 [("careerviet", Samples.processor Samples.careerviet)] None
                 Samples.rawRows Samples.cleanRows in
  let s := @run Demo.runtime start [Invoke] in
  isProcessing (app s) = true
  /\ running (@step Demo.runtime s Invoke) = running s
  /\ rawStore (world (@step Demo.runtime s Invoke)) = rawStore (world s)
  /\ cleanStore (world (@step Demo.runtime s Invoke)) = cleanStore (world s)
  /\ running (@step Demo.runtime s CronTick) = running s
  /\ log (world (@step Demo.runtime s CronTick)) = log (world s) ++ [SkippingCycle].
Proof.
  intros start s.
  pose proof (@one_cycle_at_a_time Demo.runtime Samples.globalConfig
                [("careerviet", Samples.processor Samples.careerviet)] None
                Samples.rawRows Samples.cleanRows [Invoke])
    as (_ & Hbusy & _).
  destruct (Hbusy eq_refl) as ((_ & Hrun & Hraw & Hclean & _)
                               & (_ & Hrun' & _ & _ & Hlog)).
  split; [reflexivity |].
  split; [exact Hrun |]. split; [exact Hraw |]. split; [exact Hclean |].
  split; [exact Hrun' | exact Hlog].
Defined.

End GuardFacts.

(* ================================================================== *)
(** * The older batchProcess *)
(* ================================================================== *)

Module LegacyFacts.

Import LegacyProcessor.
Import Vocabulary.

Section WithRuntime.
Context {rt : Runtime}.

(** An identifier recorded by [batchProcess] is the identifier of a raw
    job of the batch for which [processJob] returned a clean job and
    [insertCleanJob] returned (created it, or skipped it as a duplicate):
    a raw job for which the processor returned [null] or threw is not
    recorded. *)
Lemma batchStep_ids_origin (this : Processor) (rawJobs : list RawJob)
    (acc : CleanStore * Results) (id : string) :
  In id (processedJobIds (snd (fold_left (batchStep this) rawJobs acc))) ->
  In id (processedJobIds (snd acc))
  \/ exists rawJob db0 cleanJob db1 outcome,
       In rawJob rawJobs /\ job_id rawJob = id
       /\ processJob this db0 rawJob = (Return (Some cleanJob), db1)
       /\ insertCleanJob this db1 cleanJob = Return outcome.
Proof.
  revert acc. induction rawJobs as [| rawJob rawJobs IH]; simpl; intros acc H.
  - left. exact H.
  - destruct (IH _ H) as [Hacc | (r & db0 & cleanJob & db1 & outcome & Hin & Hrest)].
    + destruct acc as [db results]. unfold batchStep in Hacc.
      destruct (processJob this db rawJob) as [[[cleanJob |] | e] db1] eqn:Ejob;
        simpl in Hacc; try (left; exact Hacc).
      destruct (insertCleanJob this db1 cleanJob) as [[[created jobId] db2] | e] eqn:Eins;
        simpl in Hacc; try (left; exact Hacc).
      apply in_app_or in Hacc. destruct Hacc as [Hacc | [Hnew | []]];
        [left; exact Hacc |].
      right. exists rawJob, db, cleanJob, db1, (created, jobId, db2).
      repeat split; try assumption. left. reflexivity.
    + right. exists r, db0, cleanJob, db1, outcome.
      destruct Hrest as (Hid & Hjob & Hins).
      repeat split; try assumption. right. exact Hin.
Qed.

End WithRuntime.

(** In [batchProcess] the first row is created and the row with the
    stored URL is skipped as a duplicate, and both are marked processed;
    the row for which the processor returned [null] is not. *)
Lemma batchProcess_example :
  let '(raw, db, results) :=
    @batchProcess Demo.runtime Samples.legacyProcessor
      [Samples.rowA; Samples.rowC; Samples.rowD] Samples.cleanRows
      [Samples.rowA; Samples.rowC; Samples.rowD] in
  (r_created results, r_skipped results, r_errors results) = (1, 1, 1)
  /\ processedJobIds results = ["a"; "c"]
  /\ map (fun row => (job_id row, processed row)) raw
     = [("a", true); ("c", true); ("d", false)].
Proof.
  vm_compute. repeat split.
Qed.

End LegacyFacts.

(* ================================================================== *)
(** * Further properties: the salary parser *)
(* ================================================================== *)

Module SalaryTypeFacts.
Import SalaryParser.
Import SalaryShape.

Section WithRuntime.
Context {rt : Runtime}.

Lemma extract_fitsType (m : list (option string)) (pattern : SalaryPattern)
    (cfg : SalaryConfig) (info : SalaryInfo) :
  extractSalaryFromMatch m pattern cfg = Some info -> fitsType info.
Proof.
  unfold extractSalaryFromMatch, fitsType.
  destruct (String.eqb (sp_type pattern) "range");
    [ intros [= <-]; left; cbn; split; [reflexivity | eauto] | ].
  destruct (String.eqb (sp_type pattern) "min");
    [ intros [= <-]; right; left; cbn; repeat split; congruence | ].
  destruct (String.eqb (sp_type pattern) "max");
    [ intros [= <-]; right; right; left; cbn; repeat split; congruence | ].
  destruct (String.eqb (sp_type pattern) "exact");
    [ intros [= <-]; right; right; right; left; cbn; repeat split; congruence | ].
  destruct (String.eqb (sp_type pattern) "negotiable");
    [ intros [= <-]; right; right; right; right; cbn; repeat split | discriminate ].
Qed.

Lemma parsePatterns_fitsType (text : string) (cfg : SalaryConfig)
    (patterns : list SalaryPattern) (info : SalaryInfo) :
  parsePatterns text cfg patterns = Some info -> fitsType info.
Proof.
  induction patterns as [| pattern rest IH]; cbn; [discriminate |].
  destruct (regexp_match (sp_regex pattern) text); auto.
  apply extract_fitsType.
Qed.

(** X1: Every salary object that [parseSalary] returns carries one of
    the five types, and its numbers fit the type: a range has both bounds
    and their mean as average; "min" and "max" have that bound only, which
    is also the average; "exact" has the same number three times; and
    "negotiable" has no number. *)
Theorem salary_object_fits_its_type (salaryText : option string) (config : Config)
    (info : SalaryInfo) :
  parseSalary salaryText config = SalaryObject info -> fitsType info.
Proof.
  unfold parseSalary.
  destruct salaryText as [text |]; [| discriminate].
  destruct (negb (truthy_string text)); [discriminate |].
  destruct (manual_or_ai _).
  - unfold parseManual. destruct (salary config) as [cfg |].
    + destruct (parsePatterns text cfg (salary_patterns cfg)) eqn:Hp.
      * intros [= <-]. eapply parsePatterns_fitsType; eassumption.
      * destruct (_ && _)%bool; discriminate.
    + cbn. discriminate.
  - destruct (_ && _)%bool; discriminate.
Qed.

(** X2: [parseSalary] returns the pending promise of the AI fallback
    exactly when the text is not empty, the method is "ai", the fallback is
    enabled and the patterns gave nothing.  With a method other than
    "manual" and "ai" the result is [null], whatever the patterns and the
    fallback are. *)
Theorem promise_only_for_ai_method (salaryText : option string) (config : Config) :
  (parseSalary salaryText config = SalaryPromise <->
   exists text,
     salaryText = Some text /\ truthy_string text = true
     /\ method_of salary_method (salary config) = "ai"
     /\ fallback_enabled (match salary config with
                          | Some c => salary_ai_fallback c
                          | None => None
                          end) = true
     /\ parseManual text (salary config) = None)
  /\ (manual_or_ai (method_of salary_method (salary config)) = false ->
      parseSalary salaryText config = SalaryNull).
Proof.
  unfold parseSalary. split.
  - split.
    + destruct salaryText as [text |]; [| discriminate].
      destruct (truthy_string text) eqn:Ht; cbn [negb]; [| discriminate].
      intros H. exists text.
      destruct (String.eqb (method_of salary_method (salary config)) "ai") eqn:Hai.
      * apply String.eqb_eq in Hai. unfold manual_or_ai in H. rewrite Hai in H.
        cbn in H.
        destruct (parseManual text (salary config)); [discriminate |].
        rewrite andb_true_r in H.
        destruct (fallback_enabled _) eqn:Hf; [| discriminate].
        rewrite Hai. auto.
      * rewrite andb_false_r in H.
        destruct (if manual_or_ai _ then _ else _); discriminate.
    + intros (text & -> & Ht & Hm & Hf & Hp).
      rewrite Ht, Hm, Hf, Hp. reflexivity.
  - intros Hm. destruct salaryText as [text |]; [| reflexivity].
    destruct (negb (truthy_string text)); [reflexivity |].
    rewrite Hm.
    unfold manual_or_ai in Hm. apply orb_false_elim in Hm as [_ Hai].
    rewrite Hai, andb_false_r. reflexivity.
Qed.

End WithRuntime.

(** The documented range pattern on "15 Mil - 25 Mil VND". *)
Lemma salary_object_fits_its_type_witness :
  fitsType {| s_min := Some 15000000%float; s_max := Some 25000000%float;
              s_average := Some 20000000%float;
              s_currency := Some "VND"; s_type := "range" |}.
Proof.
  apply (@salary_object_fits_its_type Demo.runtime (Some "15 Mil - 25 Mil VND")
           Samples.careerviet).
  vm_compute. reflexivity.
Defined.

End SalaryTypeFacts.

Module NumberFacts.
Import SalaryParser.

Lemma remove_chars_append (drop : ascii -> bool) (a b : string) :
  remove_chars drop (a ++ b)%string
  = (remove_chars drop a ++ remove_chars drop b)%string.
Proof.
  induction a as [| c a IH]; cbn; [reflexivity |].
  destruct (drop c); cbn; rewrite IH; reflexivity.
Qed.

Lemma append_truthy (a b : string) (c : ascii) :
  truthy_string (a ++ String c b)%string = true.
Proof. destruct a; reflexivity. Qed.

(** X3: On an ASCII text, [cleanNumber] gives the same number with and
    without a comma or one of the ASCII white-space characters (TAB, LF,
    VT, FF, CR, SPACE) at any place of the text, as long as the text
    without it is not empty (a lone comma gives [NaN], the empty text
    gives 0). *)
Theorem separators_are_ignored (a b : string) (c : ascii) :
  (c = ","%char \/ is_space c = true) ->
  truthy_string (a ++ b)%string = true ->
  cleanNumber (Some (a ++ String c b)%string) = cleanNumber (Some (a ++ b)%string).
Proof.
  intros Hc Hab. unfold cleanNumber.
  rewrite append_truthy, Hab. f_equal.
  rewrite !remove_chars_append. f_equal.
  cbn [remove_chars].
  destruct (Ascii.eqb "," c) eqn:Hcomma; [reflexivity |].
  cbn [remove_chars].
  destruct Hc as [-> | ->]; [discriminate | reflexivity].
Qed.

Lemma separators_are_ignored_witness :
  cleanNumber (Some ("1" ++ String "," "500")%string)
  = cleanNumber (Some ("1" ++ "500")%string).
Proof.
  apply separators_are_ignored; [left; reflexivity | reflexivity].
Defined.

End NumberFacts.

(* ================================================================== *)
(** * Further properties: the experience mapper *)
(* ================================================================== *)

Module LevelFacts.
Import ExperienceMapper.
Import Vocabulary.

Lemma get_In {V} (d : dict V) (k : string) (v : V) :
  get d k = Some v -> In (k, v) d.
Proof.
  induction d as [| [k' v'] rest IH]; cbn; [discriminate |].
  destruct (String.eqb k k') eqn:Hk.
  - apply String.eqb_eq in Hk. intros [= ->]. left. congruence.
  - auto.
Qed.


Section WithRuntime.
Context {rt : Runtime}.






End WithRuntime.


End LevelFacts.

(* ================================================================== *)
(** * Further properties: when a record fails *)
(* ================================================================== *)

Module FailureFacts.
Import LocationNormalizer.
Import BaseProcessor.

Section WithRuntime.
Context {rt : Runtime}.

(** The country loop throws exactly when an invalid pattern comes before
    the first pattern that matches. *)
Lemma detectCountry_throws_iff (text : string) (code : option string)
    (patterns : list CountryPattern) (e : Error) :
  detectCountry text code patterns = Throw e <->
  e = SyntaxError
  /\ exists skipped bad later,
       patterns = skipped ++ bad :: later
       /\ (forall p, In p skipped -> regexp_match (cp_regex p) text = NoMatch)
       /\ regexp_match (cp_regex bad) text = InvalidRegExp.
Proof.
  induction patterns as [| pattern rest IH]; cbn.
  - split; [discriminate |].
    intros (_ & skipped & bad & later & H & _). destruct skipped; discriminate.
  - destruct (regexp_match (cp_regex pattern) text) eqn:Hm.
    + split.
      * intros [= <-]. split; [reflexivity |].
        exists [], pattern, rest. cbn. tauto.
      * intros [-> _]. reflexivity.
    + rewrite IH. split.
      * intros (-> & skipped & bad & later & -> & Hs & Hb).
        split; [reflexivity |].
        exists (pattern :: skipped), bad, later. cbn.
        repeat split; [| assumption].
        intros p [<- | Hp]; auto.
      * intros (-> & skipped & bad & later & Heq & Hs & Hb).
        split; [reflexivity |].
        destruct skipped as [| first skipped]; cbn in Heq; injection Heq as <- ->.
        -- congruence.
        -- exists skipped, bad, later. repeat split; auto.
           intros p Hp. apply Hs. right. assumption.
    + split; [discriminate |].
      intros (_ & skipped & bad & later & Heq & Hs & Hb).
      destruct skipped as [| first skipped]; cbn in Heq; injection Heq as <- ->.
      * congruence.
      * specialize (Hs pattern (or_introl eq_refl)). congruence.
Qed.

(** X6: [transformJob] throws exactly when the raw job has a
    non-empty location text, the location method is "manual" or "ai", and
    either the configuration has no location section (a [TypeError]) or a
    country pattern that is not a valid regular expression comes before
    the first country pattern that matches (a [SyntaxError]).  Every other
    raw job is transformed. *)
Theorem transform_fails_only_on_location (this : Processor) (rawJob : RawJob)
    (g : GlobalConfig) (e : Error) :
  transformJob this rawJob g = Throw e <->
  exists text,
    raw_location rawJob = Some text
    /\ truthy_string text = true
    /\ manual_or_ai (method_of location_method (location (config this))) = true
    /\ ((location (config this) = None /\ e = TypeError)
        \/ (e = SyntaxError
            /\ exists lc skipped bad later,
                 location (config this) = Some lc
                 /\ country_patterns lc = skipped ++ bad :: later
                 /\ (forall p, In p skipped ->
                               regexp_match (cp_regex p) text = NoMatch)
                 /\ regexp_match (cp_regex bad) text = InvalidRegExp)).
Proof.
  assert (Hbind : transformJob this rawJob g = Throw e <->
                  normalizeLocation (raw_location rawJob) (config this) = Throw e).
  { destruct (normalizeLocation (raw_location rawJob) (config this))
      as [locationInfo | e'] eqn:Hn.
    - destruct (TransformFacts.transformJob_returns this rawJob g locationInfo Hn)
        as (job & -> & _).
      split; discriminate.
    - rewrite (TransformFacts.transformJob_throws this rawJob g e' Hn).
      split; intros [= <-]; reflexivity. }
  rewrite Hbind. clear Hbind. unfold normalizeLocation.
  destruct (raw_location rawJob) as [text |].
  2: { split; [discriminate | intros (? & [=] & _)]. }
  destruct (truthy_string text) eqn:Ht.
  2: { split; [discriminate |]. intros (? & [= <-] & Ht' & _). congruence. }
  destruct (manual_or_ai _) eqn:Hm.
  2: { split.
       - destruct (fallback_enabled _); discriminate.
       - intros (? & _ & _ & [=] & _). }
  unfold normalizeManual.
  destruct (location (config this)) as [lc |].
  - destruct (detectCountry text (Some (default_country_of (Some lc)))
                (country_patterns lc)) as [code | e'] eqn:Hd; cbn [bind].
    + split; [discriminate |].
      intros (? & [= <-] & _ & _ & [[[=] _] | (-> & lc' & s & b & l & [= <-] & H)]).
      assert (Hthrow : detectCountry text (Some (default_country_of (Some lc)))
                         (country_patterns lc) = Throw SyntaxError).
      { apply detectCountry_throws_iff. split; [reflexivity |].
        exists s, b, l. assumption. }
      congruence.
    + apply detectCountry_throws_iff in Hd as (-> & s & b & l & Hp & Hs & Hb).
      split.
      * intros [= <-]. exists text. repeat split; auto.
        right. split; [reflexivity |]. exists lc, s, b, l. auto.
      * intros (? & _ & _ & _ & [[[=] _] | (-> & _)]). reflexivity.
  - cbn [bind]. split.
    + intros [= <-]. exists text. repeat split; auto.
    + intros (? & _ & _ & _ & [[_ ->] | (_ & ? & ? & ? & ? & [=] & _)]).
      reflexivity.
Qed.

End WithRuntime.
End FailureFacts.

(* ================================================================== *)
(** * Further properties: the date parser *)
(* ================================================================== *)

Module DayFacts.
Import DateParser.
Import Vocabulary.

Lemma isoDate_truthy (t : Z) : truthy_string (isoDate t) = true.
Proof.
  unfold isoDate. destruct (civil_from_days (t / msPerDay)) as [[y m] d].
  destruct (isoYear y); reflexivity.
Qed.

Section WithRuntime.
Context {rt : Runtime}.

Lemma calculateRelativeDate_iso (value unit : option string) (s : string) :
  calculateRelativeDate value unit = Return (Some s) ->
  exists t, validTime t = true /\ s = isoDate t.
Proof.
  unfold calculateRelativeDate, toISODate.
  destruct unit as [u |]; [| discriminate].
  repeat (destruct (String.eqb u _);
          [ destruct (parseInt value) as [a |]; cbn [option_map bind];
            [| discriminate];
            match goal with
            | |- context [validTime ?x] =>
                destruct (validTime x) eqn:Hv; cbn [bind];
                [ intros [= <-]; exists x; auto | discriminate ]
            end |]).
  discriminate.
Qed.

Lemma tryFormats_iso (dateText : DateInput) (formats : list string) (s : string) :
  tryFormats dateText formats = Some s ->
  exists t, validTime t = true /\ s = isoDate t.
Proof.
  induction formats as [| format rest IH]; cbn [tryFormats]; [discriminate |].
  destruct (tryParseFormat dateText format) as [parsed |] eqn:Hp; [| exact IH].
  destruct (truthy_string parsed); [| exact IH].
  intros [= <-]. unfold tryParseFormat in Hp.
  destruct (match dateText with DateText s => Date_parse s | DateObject ms => Some ms end)
    as [ms |]; [| discriminate].
  destruct (validTime ms) eqn:Hv; [| discriminate].
  injection Hp as <-. eauto.
Qed.

Lemma parseRelative_iso (dateText : DateInput) (formats : list string)
    (patterns : list RelativePattern) (s : string) :
  parseRelative dateText formats patterns = Some s ->
  exists t, validTime t = true /\ s = isoDate t.
Proof.
  induction patterns as [| pattern rest IH]; cbn [parseRelative].
  - apply tryFormats_iso.
  - destruct dateText as [text | ms]; [| exact IH].
    destruct (regexp_match (rp_regex pattern) text) as [| | m]; try exact IH.
    destruct (calculateRelativeDate (group m (Some 1%nat)) (rp_unit pattern))
      as [result | e] eqn:Hc; [| exact IH].
    intros ->. eapply calculateRelativeDate_iso; eassumption.
Qed.

(** X7: A string that [parseDate] returns is the ISO day
    ([toISOString().split('T')[0]]) of a valid time value; the input text is
    never handed through. *)
Theorem returned_date_is_an_iso_day (dateText : option DateInput) (config : Config)
    (s : string) :
  parseDate dateText config = DateString s ->
  exists t, validTime t = true /\ s = isoDate t.
Proof.
  unfold parseDate. destruct dateText as [text |]; [| discriminate].
  destruct (negb (present (Some text))); [discriminate |].
  destruct (manual_or_ai _).
  - unfold parseManual. destruct (date config) as [c |].
    + destruct (parseRelative text (date_formats c) (date_relative c)) as [r |] eqn:Hr.
      * destruct (truthy_string r).
        -- intros [= <-]. eapply parseRelative_iso; eassumption.
        -- destruct (fallback_enabled _); discriminate.
      * destruct (fallback_enabled _); discriminate.
    + destruct (fallback_enabled _); discriminate.
  - destruct (fallback_enabled _); discriminate.
Qed.

Lemma parseRelative_timestamp (ms : Z) (formats : list string)
    (patterns : list RelativePattern) :
  parseRelative (DateObject ms) formats patterns = tryFormats (DateObject ms) formats.
Proof. induction patterns as [| pattern rest IH]; cbn [parseRelative]; auto. Qed.

(** X8: For a [listed_time] that the driver delivers as a [Date]
    object, the relative patterns never apply: with a non-empty format list
    [parseDate] returns the ISO day of the timestamp, and with an empty one
    it returns [null] (or the promise of the AI fallback), although the
    value is a valid date. *)
Theorem timestamp_needs_a_format (ms : Z) (config : Config) (c : DateConfig) :
  date config = Some c ->
  manual_or_ai (method_of date_method (date config)) = true ->
  validTime ms = true ->
  (date_formats c <> [] ->
   parseDate (Some (DateObject ms)) config = DateString (isoDate ms))
  /\ (date_formats c = [] ->
      parseDate (Some (DateObject ms)) config
      = if fallback_enabled (date_ai_fallback c) then DatePromise else DateNull).
Proof.
  intros Hc Hm Hv. unfold parseDate. cbn [present negb]. rewrite Hm.
  unfold parseManual. rewrite Hc, parseRelative_timestamp. split.
  - destruct (date_formats c) as [| format rest]; [congruence |]. intros _.
    cbn [tryFormats tryParseFormat]. rewrite Hv, isoDate_truthy, isoDate_truthy.
    reflexivity.
  - intros ->. reflexivity.
Qed.

(** X9: When the first relative pattern that matches the text
    has a unit other than "days", "weeks" and "months", [parseManual]
    returns [null] at once: the later patterns and the absolute formats are
    not tried. *)
Theorem unknown_unit_hides_the_formats (text : string) (formats : list string)
    (skipped later : list RelativePattern) (pattern : RelativePattern)
    (m : list (option string)) :
  noRelativeMatch text skipped = true ->
  regexp_match (rp_regex pattern) text = Match m ->
  rp_unit pattern <> Some "days" ->
  rp_unit pattern <> Some "weeks" ->
  rp_unit pattern <> Some "months" ->
  parseRelative (DateText text) formats (skipped ++ pattern :: later) = None.
Proof.
  intros Hs Hm Hd Hw Hmo.
  induction skipped as [| first skipped IH]; cbn [app parseRelative].
  - rewrite Hm. unfold calculateRelativeDate.
    destruct (rp_unit pattern) as [u |]; [| reflexivity].
    destruct (String.eqb u "days") eqn:H1;
      [apply String.eqb_eq in H1; congruence |].
    destruct (String.eqb u "weeks") eqn:H2;
      [apply String.eqb_eq in H2; congruence |].
    destruct (String.eqb u "months") eqn:H3;
      [apply String.eqb_eq in H3; congruence |].
    reflexivity.
  - cbn in Hs. apply andb_prop in Hs as [Hf Hs].
    destruct (regexp_match (rp_regex first) text); cbn in Hf;
      [auto | auto | discriminate].
Qed.

End WithRuntime.

(** "3 days ago", on the second of November 2026. *)
Lemma returned_date_is_an_iso_day_witness :
  exists t, validTime t = true /\ "2026-10-30" = isoDate t.
Proof.
  apply (@returned_date_is_an_iso_day Demo.runtime (Some (DateText "3 days ago"))
           Samples.careerviet).
  vm_compute. reflexivity.
Defined.

(** The timestamp of the fifth of January 2026, with the one format of the
    sample document. *)
Lemma timestamp_needs_a_format_witness :
  @parseDate Demo.runtime (Some (DateObject 1767571200000)) Samples.careerviet
  = DateString (isoDate 1767571200000).
Proof.
  apply (proj1 (@timestamp_needs_a_format Demo.runtime 1767571200000
                  Samples.careerviet Samples.dateConfig
                  eq_refl eq_refl eq_refl)).
  discriminate.
Defined.

(** "2 years ago" is passed over by the days pattern and matched by a
    pattern whose unit is "years": the result is [null], although the
    format list is not empty. *)
Lemma unknown_unit_hides_the_formats_witness :
  @parseRelative Demo.runtime (DateText "2 years ago") ["YYYY-MM-DD"]
    (date_relative Samples.dateConfig ++ Cases.yearsAgo :: []) = None.
Proof.
  apply (@unknown_unit_hides_the_formats Demo.runtime "2 years ago" ["YYYY-MM-DD"]
           (date_relative Samples.dateConfig) [] Cases.yearsAgo
           [Some "2 years ago"; Some "2"]);
    try (vm_compute; reflexivity); cbn; discriminate.
Defined.

End DayFacts.

(* ================================================================== *)
(** * Further properties: the description cleanup *)
(* ================================================================== *)

Module DescriptionFacts.
Import BaseProcessor.
Import Shape.

Lemma includes_gt (c : ascii) (rest : string) :
  includes (String c rest) ">" = (Ascii.eqb c ">" || includes rest ">")%bool.
Proof.
  cbn [includes String.prefix].
  destruct (ascii_dec ">" c) as [<- | Hne].
  - destruct rest; reflexivity.
  - destruct (Ascii.eqb c ">") eqn:Hc; [| reflexivity].
    apply Ascii.eqb_eq in Hc. congruence.
Qed.

Lemma thinned_refl (s : string) : thinned s s.
Proof. induction s; constructor; assumption. Qed.

Lemma thinned_includes (out s : string) :
  thinned out s -> includes out ">" = true -> includes s ">" = true.
Proof.
  induction 1 as [| c out s _ IH | c out s _ IH | c out s _ IH]; intros H.
  - assumption.
  - rewrite includes_gt in *. apply orb_true_iff in H as [H | H].
    + rewrite H. reflexivity.
    + rewrite (IH H). apply orb_true_r.
  - rewrite includes_gt, (IH H). apply orb_true_r.
  - rewrite includes_gt in *. cbn in H. rewrite (IH H). apply orb_true_r.
Qed.

Lemma thinned_hasTag (out s : string) :
  thinned out s -> hasTag s = false -> hasTag out = false.
Proof.
  induction 1 as [| c out s Ht IH | c out s Ht IH | c out s Ht IH];
    cbn [hasTag]; intros H.
  - reflexivity.
  - apply orb_false_elim in H as [Hc Hs]. rewrite (IH Hs), orb_false_r.
    destruct (Ascii.eqb c "<"); [| reflexivity]. cbn in *.
    destruct (includes out ">") eqn:Hi; [| reflexivity].
    rewrite (thinned_includes _ _ Ht Hi) in Hc. discriminate.
  - apply orb_false_elim in H as [_ Hs]. auto.
  - apply orb_false_elim in H as [_ Hs]. rewrite (IH Hs). reflexivity.
Qed.

(** The output of the tag removal is made of characters of the input and
    of spaces. *)
Lemma stripTags_thinned (inside : bool) (html : string) :
  thinned (stripTags inside html) html.
Proof.
  revert inside. induction html as [| c rest IH]; intros inside; cbn [stripTags].
  - constructor.
  - destruct inside.
    + destruct (Ascii.eqb c ">"); constructor; apply IH.
    + destruct (_ && _)%bool; constructor; apply IH.
Qed.

Lemma stripTags_hasTag (inside : bool) (html : string) :
  hasTag (stripTags inside html) = false.
Proof.
  revert inside. induction html as [| c rest IH]; intros inside; cbn [stripTags].
  - reflexivity.
  - destruct inside.
    + destruct (Ascii.eqb c ">"); [| apply IH].
      cbn [hasTag]. rewrite IH. reflexivity.
    + destruct (Ascii.eqb c "<") eqn:Hc; cbn [andb].
      * destruct (includes rest ">") eqn:Hi; [apply IH |].
        cbn [hasTag]. rewrite IH, orb_false_r.
        destruct (includes (stripTags false rest) ">") eqn:Ho;
          [| apply andb_false_r].
        rewrite (thinned_includes _ _ (stripTags_thinned false rest) Ho) in Hi.
        discriminate.
      * cbn [hasTag]. rewrite Hc, IH. reflexivity.
Qed.

Lemma collapseSpaces_thinned (after_space : bool) (s : string) :
  thinned (collapseSpaces after_space s) s.
Proof.
  revert after_space. induction s as [| c rest IH]; intros b; cbn [collapseSpaces].
  - constructor.
  - destruct (is_space c); [destruct b |]; constructor; apply IH.
Qed.

Lemma skip_spaces_thinned (s : string) : thinned (skip_spaces s) s.
Proof.
  induction s as [| c rest IH]; cbn [skip_spaces].
  - constructor.
  - destruct (is_space c); [constructor; assumption | apply thinned_refl].
Qed.

Lemma trimEnd_thinned (s : string) : thinned (trimEnd s) s.
Proof.
  induction s as [| c rest IH]; cbn [trimEnd].
  - constructor.
  - destruct (_ && _)%bool eqn:H.
    + apply andb_prop in H as [_ H]. apply String.eqb_eq in H.
      rewrite H in IH. constructor. assumption.
    + constructor. assumption.
Qed.

Lemma substring_thinned (m : nat) (s : string) : thinned (String.substring 0 m s) s.
Proof.
  revert s. induction m as [| m IH]; intros s.
  - destruct s as [| c rest]; cbn; [constructor |].
    induction (String c rest); constructor; assumption.
  - destruct s as [| c rest]; cbn; constructor. apply IH.
Qed.

Lemma substring_length (m : nat) (s : string) :
  String.length (String.substring 0 m s) <= m.
Proof.
  revert s. induction m as [| m IH]; intros [| c rest]; cbn; auto.
  - lia.
  - specialize (IH rest). lia.
Qed.

(** ** White space *)

Lemma collapseSpaces_single (after_space : bool) (s : string) :
  singleSpaced (collapseSpaces after_space s) = true
  /\ (after_space = true ->
      startsWithSpace (collapseSpaces after_space s) = false).
Proof.
  revert after_space. induction s as [| c rest IH]; intros b; cbn [collapseSpaces].
  - auto.
  - destruct (is_space c) eqn:Hc.
    + destruct b; [apply IH |].
      split; [| discriminate].
      cbn [singleSpaced]. destruct (IH true) as [-> ->]; reflexivity.
    + cbn [singleSpaced startsWithSpace]. rewrite Hc.
      destruct (IH false) as [-> _]. auto.
Qed.

Lemma skip_spaces_single (s : string) :
  singleSpaced s = true ->
  singleSpaced (skip_spaces s) = true /\ startsWithSpace (skip_spaces s) = false.
Proof.
  induction s as [| c rest IH]; cbn [skip_spaces]; [auto |].
  destruct (is_space c) eqn:Hc.
  - cbn [singleSpaced]. intros H. apply andb_prop in H as [_ H]. auto.
  - intros H. cbn [startsWithSpace]. auto.
Qed.

Lemma trimEnd_starts (s : string) :
  startsWithSpace s = false -> startsWithSpace (trimEnd s) = false.
Proof.
  destruct s as [| c rest]; cbn [trimEnd]; [auto |].
  destruct (_ && _)%bool; auto.
Qed.

Lemma trimEnd_single (s : string) :
  singleSpaced s = true -> singleSpaced (trimEnd s) = true.
Proof.
  induction s as [| c rest IH]; cbn [trimEnd]; [auto |].
  destruct (_ && _)%bool; [reflexivity |].
  cbn [singleSpaced]. intros H. apply andb_prop in H as [Hc Hr].
  rewrite (IH Hr), andb_true_r.
  destruct (is_space c); [| reflexivity]. cbn [negb orb] in *.
  apply andb_prop in Hc as [-> Hs]. apply negb_true_iff in Hs.
  rewrite (trimEnd_starts _ Hs). reflexivity.
Qed.

Lemma substring_starts (m : nat) (s : string) :
  startsWithSpace s = false -> startsWithSpace (String.substring 0 m s) = false.
Proof. destruct m, s; cbn; auto. Qed.

Lemma substring_single (m : nat) (s : string) :
  singleSpaced s = true -> singleSpaced (String.substring 0 m s) = true.
Proof.
  revert s. induction m as [| m IH]; intros [| c rest]; cbn [String.substring];
    auto.
  cbn [singleSpaced]. intros H. apply andb_prop in H as [Hc Hr].
  rewrite (IH _ Hr), andb_true_r.
  destruct (is_space c); [| reflexivity]. cbn [negb orb] in *.
  apply andb_prop in Hc as [-> Hs]. apply negb_true_iff in Hs.
  rewrite (substring_starts _ _ Hs). reflexivity.
Qed.

(** X10: For an ASCII text, the text that [simpleCleanHtml] returns has
    at most 10000 characters, contains no [<] with a [>] after it (no tag
    is left), has no TAB, LF, VT, FF or CR and never two spaces in a row,
    and does not begin with a space. *)
Theorem cleaned_description_shape (html : option string) (text : string) :
  simpleCleanHtml html = Some text ->
  (Z.of_nat (String.length text) <= 10000)%Z
  /\ hasTag text = false
  /\ singleSpaced text = true
  /\ startsWithSpace text = false.
Proof.
  unfold simpleCleanHtml. destruct html as [h |]; [| discriminate].
  destruct (truthy_string h); [| discriminate].
  intros [= <-]. unfold trim.
  set (stripped := stripTags false h).
  set (collapsed := collapseSpaces false stripped).
  assert (Hs : singleSpaced (skip_spaces collapsed) = true
               /\ startsWithSpace (skip_spaces collapsed) = false).
  { apply skip_spaces_single, collapseSpaces_single. }
  destruct Hs as [Hsingle Hstart].
  repeat split.
  - pose proof (substring_length (Z.to_nat 10000) (trimEnd (skip_spaces collapsed)))
      as Hlen.
    apply Nat2Z.inj_le in Hlen. rewrite Z2Nat.id in Hlen by lia. exact Hlen.
  - eapply thinned_hasTag; [apply substring_thinned |].
    eapply thinned_hasTag; [apply trimEnd_thinned |].
    eapply thinned_hasTag; [apply skip_spaces_thinned |].
    eapply thinned_hasTag; [apply collapseSpaces_thinned |].
    apply stripTags_hasTag.
  - apply substring_single, trimEnd_single, Hsingle.
  - apply substring_starts, trimEnd_starts, Hstart.
Qed.

Lemma cleaned_description_shape_witness :
  simpleCleanHtml (Some "  <p>Build   <b>APIs</b></p> 5 < 7 ")
  = Some "Build APIs 5 < 7"
  /\ hasTag "Build APIs 5 < 7" = false.
Proof.
  split; [vm_compute; reflexivity |].
  apply (cleaned_description_shape (Some "  <p>Build   <b>APIs</b></p> 5 < 7 ")).
  vm_compute. reflexivity.
Defined.

End DescriptionFacts.

(* ================================================================== *)
(** * Further properties: the statistics of a batch *)
(* ================================================================== *)

Module StatsFacts.
Import BaseProcessor.

Section WithRuntime.
Context {rt : Runtime}.

Lemma processOne_counts (this : Processor) (g : GlobalConfig)
    (rawJobs : list RawJob) (acc : list Job * Stats) :
  let out := fold_left (processOne this g) rawJobs acc in
  st_processed (snd out) = st_processed (snd acc) + List.length rawJobs
  /\ st_failed (snd acc) <= st_failed (snd out)
  /\ st_success (snd out) + List.length (fst acc)
     = st_success (snd acc) + List.length (fst out)
  /\ st_failed (snd out) + List.length (fst out)
     = st_failed (snd acc) + List.length (fst acc) + List.length rawJobs
  /\ List.length (st_errors (snd out)) + List.length (fst out)
     = List.length (st_errors (snd acc)) + List.length (fst acc)
       + List.length rawJobs.
Proof.
  revert acc. induction rawJobs as [| rawJob rest IH]; intros [jobs st]; cbn zeta.
  - cbn. lia.
  - cbn [fold_left]. specialize (IH (processOne this g (jobs, st) rawJob)).
    cbn zeta in IH.
    destruct (processOne this g (jobs, st) rawJob) as [jobs1 st1] eqn:Hone.
    assert (Hstep : st_processed st1 = S (st_processed st)
                    /\ st_failed st <= st_failed st1
                    /\ st_success st1 + List.length jobs
                       = st_success st + List.length jobs1
                    /\ st_failed st1 + List.length jobs1
                       = S (st_failed st + List.length jobs)
                    /\ List.length (st_errors st1) + List.length jobs1
                       = S (List.length (st_errors st) + List.length jobs)).
    { unfold processOne in Hone.
      destruct (transformJob this rawJob g) as [job | e];
        injection Hone as <- <-; cbn; rewrite length_app; cbn; lia. }
    cbn [fst snd List.length] in *. lia.
Qed.

(** X11: [processJobs] adds the size of the batch to [processed], the
    number of returned jobs to [success], and the number of the others to
    [failed] and to the length of [errors]; so processed = success + failed
    is kept, and no more jobs are returned than were given. *)
Theorem processJobs_counts (this : Processor) (rawJobs : list RawJob)
    (g : GlobalConfig) :
  let jobs := fst (processJobs this rawJobs g) in
  let before := stats this in
  let after := stats (snd (processJobs this rawJobs g)) in
  List.length jobs <= List.length rawJobs
  /\ st_processed after = st_processed before + List.length rawJobs
  /\ st_success after = st_success before + List.length jobs
  /\ st_failed after = st_failed before + (List.length rawJobs - List.length jobs)
  /\ List.length (st_errors after)
     = List.length (st_errors before) + (List.length rawJobs - List.length jobs)
  /\ (st_processed before = st_success before + st_failed before ->
      st_processed after = st_success after + st_failed after).
Proof.
  cbn zeta. unfold processJobs.
  pose proof (processOne_counts this g rawJobs ([], stats this)) as H.
  cbn zeta in H.
  destruct (fold_left (processOne this g) rawJobs ([], stats this)) as [jobs st].
  cbn [fst snd stats List.length] in *. lia.
Qed.

End WithRuntime.
End StatsFacts.

(* ================================================================== *)
(** * Further properties: fetching and marking raw rows *)
(* ================================================================== *)

Module FetchFacts.
Import DatabaseService.
Import Shape.

Lemma insertBy_perm {A} (key : A -> Z) (x : A) (sorted : list A) :
  Permutation (Sql.insertBy key x sorted) (x :: sorted).
Proof.
  induction sorted as [| y rest IH]; cbn; [reflexivity |].
  destruct (key x <? key y)%Z; [reflexivity |].
  rewrite IH. apply perm_swap.
Qed.

Lemma insertBy_sorted {A} (key : A -> Z) (x : A) (sorted : list A) :
  StronglySorted (byKey key) sorted ->
  StronglySorted (byKey key) (Sql.insertBy key x sorted).
Proof.
  induction 1 as [| y rest Hs IH Hy]; cbn.
  - repeat constructor.
  - destruct (key x <? key y)%Z eqn:Hlt.
    + apply Z.ltb_lt in Hlt. constructor; [constructor; assumption |].
      constructor; [unfold byKey; lia |].
      eapply Forall_impl; [| exact Hy]. unfold byKey. intros; lia.
    + apply Z.ltb_ge in Hlt. constructor; [assumption |].
      eapply Permutation_Forall; [symmetry; apply insertBy_perm |].
      constructor; assumption.
Qed.

Lemma fold_insertBy {A} (key : A -> Z) (l acc : list A) :
  StronglySorted (byKey key) acc ->
  StronglySorted (byKey key)
    (fold_left (fun sorted x => Sql.insertBy key x sorted) l acc)
  /\ Permutation (fold_left (fun sorted x => Sql.insertBy key x sorted) l acc)
       (acc ++ l).
Proof.
  revert acc. induction l as [| x rest IH]; intros acc Hacc; cbn [fold_left].
  - rewrite app_nil_r. auto.
  - destruct (IH _ (insertBy_sorted key x acc Hacc)) as [Hs Hp].
    split; [assumption |].
    rewrite Hp, insertBy_perm. apply Permutation_middle.
Qed.

(** [ORDER BY] and [Array.sort] give the same elements, in ascending
    order of the key. *)
Lemma sortBy_sorted {A} (key : A -> Z) (l : list A) :
  StronglySorted (byKey key) (Sql.sortBy key l).
Proof. apply fold_insertBy. constructor. Qed.

Lemma sortBy_perm {A} (key : A -> Z) (l : list A) :
  Permutation (Sql.sortBy key l) l.
Proof. apply (fold_insertBy key l []). constructor. Qed.

Lemma sorted_split {A} (key : A -> Z) (front back : list A) :
  StronglySorted (byKey key) (front ++ back) ->
  StronglySorted (byKey key) front
  /\ forall a b, In a front -> In b back -> (key a <= key b)%Z.
Proof.
  induction front as [| x front IH]; cbn.
  - split; [constructor | contradiction].
  - intros H. inversion H as [| ? ? Hs Hx]; subst.
    destruct (IH Hs) as [Hf Hle]. split.
    + constructor; [assumption |].
      apply Forall_app in Hx. tauto.
    + intros a b [<- | Ha] Hb; [| auto].
      rewrite Forall_forall in Hx. apply Hx, in_or_app. auto.
Qed.

Lemma fetch_rows_origin (raw : RawStore) (platformName : string)
    (limit : Z) (rows : list RawJob) :
  getUnprocessedJobs raw platformName limit = Return rows ->
  forall row, In row rows ->
    In row raw /\ processed row = false /\ platform row = platformName.
Proof.
  unfold getUnprocessedJobs.
  destruct (limit <? 0)%Z; [discriminate |]. intros [= <-] row Hin.
  apply CycleFacts.firstn_In in Hin.
  eapply Permutation_in in Hin; [| apply sortBy_perm].
  apply filter_In in Hin as [Hraw Hw].
  apply andb_prop in Hw as [Hp Hpl].
  apply negb_true_iff in Hp. apply String.eqb_eq in Hpl. auto.
Qed.

(** X12: [getUnprocessedJobs] returns at most [limit] rows, in
    ascending order of [crawled_time], all of them unprocessed rows of the
    platform; and an unprocessed row of the platform that is left out is
    not older than any row that was taken. *)
Theorem fetch_takes_the_oldest (raw : RawStore) (platformName : string)
    (limit : Z) (rows : list RawJob) :
  getUnprocessedJobs raw platformName limit = Return rows ->
  (Z.of_nat (List.length rows) <= limit)%Z
  /\ StronglySorted (byKey crawled_time) rows
  /\ (forall row, In row rows ->
        In row raw /\ processed row = false /\ platform row = platformName)
  /\ (forall row, In row raw -> processed row = false ->
        platform row = platformName ->
        In row rows
        \/ forall taken, In taken rows -> (crawled_time taken <= crawled_time row)%Z).
Proof.
  unfold getUnprocessedJobs.
  destruct (limit <? 0)%Z eqn:Hl; [discriminate |]. apply Z.ltb_ge in Hl.
  intros [= <-].
  set (wanted := fun row => (negb (processed row)
                             && String.eqb (platform row) platformName)%bool).
  set (sorted := Sql.sortBy crawled_time (filter wanted raw)).
  assert (Hsplit := firstn_skipn (Z.to_nat limit) sorted).
  assert (Hsorted : StronglySorted (byKey crawled_time) sorted)
    by apply sortBy_sorted.
  rewrite <- Hsplit in Hsorted. apply sorted_split in Hsorted as [Hfront Hle].
  assert (Hmem : forall row, In row (firstn (Z.to_nat limit) sorted) ->
                             In row raw /\ wanted row = true).
  { intros row Hin. apply filter_In.
    eapply Permutation_in; [apply sortBy_perm |].
    eapply CycleFacts.firstn_In. eassumption. }
  split; [| split; [assumption | split]].
  - pose proof (firstn_le_length (Z.to_nat limit) sorted). lia.
  - intros row Hin. destruct (Hmem row Hin) as [Hraw Hw].
    apply andb_prop in Hw as [Hp Hpl].
    apply negb_true_iff in Hp. apply String.eqb_eq in Hpl. auto.
  - intros row Hin Hp Hpl.
    assert (Hs : In row sorted).
    { eapply Permutation_in; [symmetry; apply sortBy_perm |].
      apply filter_In. split; [assumption |]. unfold wanted.
      rewrite Hp, Hpl, String.eqb_refl. reflexivity. }
    rewrite <- Hsplit in Hs. apply in_app_or in Hs as [Hs | Hs]; [auto |].
    right. intros taken Ht. apply Hle; assumption.
Qed.

(** The two oldest of the three sample rows. *)
Lemma fetch_takes_the_oldest_witness :
  StronglySorted (byKey crawled_time) [Samples.rowA; Samples.rowB].
Proof.
  exact (proj1 (proj2 (fetch_takes_the_oldest Samples.rawRows "CareerViet" 2
                         [Samples.rowA; Samples.rowB] eq_refl))).
Defined.

End FetchFacts.

Module MarkFacts.
Import DatabaseService.
Import Marking.

Lemma markProcessed_id (ids : list string) (row : RawJob) :
  job_id (markProcessed ids row) = job_id row.
Proof. unfold markProcessed. destruct (existsb _ ids); reflexivity. Qed.

Lemma markProcessed_flag (ids : list string) (row : RawJob) :
  processed (markProcessed ids row)
  = (existsb (String.eqb (job_id row)) ids || processed row)%bool.
Proof. unfold markProcessed. destruct (existsb _ ids); reflexivity. Qed.

Lemma markProcessed_twice (first second : list string) (row : RawJob) :
  markProcessed second (markProcessed first row)
  = markProcessed (first ++ second) row.
Proof.
  unfold markProcessed at 1. rewrite markProcessed_id.
  unfold markProcessed. rewrite existsb_app.
  destruct (existsb _ first), (existsb _ second); reflexivity.
Qed.

(** X13: After [markJobsProcessed], a row whose identifier was
    in the list is not returned by [getUnprocessedJobs] any more; the rows
    that are returned are rows of the store as it was, still unprocessed. *)
Theorem marked_rows_are_not_fetched_again (raw : RawStore) (ids : list string)
    (platformName : string) (limit : Z) (rows : list RawJob) :
  getUnprocessedJobs (markJobsProcessed raw ids) platformName limit = Return rows ->
  forall row, In row rows ->
    ~ In (job_id row) ids
    /\ In row raw /\ processed row = false.
Proof.
  intros Hfetch row Hin.
  destruct (FetchFacts.fetch_rows_origin _ _ _ _ Hfetch row Hin) as (Hraw & Hp & _).
  unfold markJobsProcessed in Hraw. apply in_map_iff in Hraw as (old & <- & Hold).
  rewrite markProcessed_id. rewrite markProcessed_flag in Hp.
  apply orb_false_elim in Hp as [Hids Hold_p].
  assert (Hsame : markProcessed ids old = old).
  { unfold markProcessed. rewrite Hids. reflexivity. }
  rewrite Hsame. repeat split; try assumption.
  intros Hmem. apply not_true_iff_false in Hids. apply Hids.
  apply existsb_exists. exists (job_id old). split; [assumption |].
  apply String.eqb_refl.
Qed.

(** After row "a" was marked, the next batch is rows "b" and "c". *)
Lemma marked_rows_are_not_fetched_again_witness :
  ~ In (job_id Samples.rowB) ["a"]
  /\ In Samples.rowB Samples.rawRows /\ processed Samples.rowB = false.
Proof.
  apply (marked_rows_are_not_fetched_again Samples.rawRows ["a"] "CareerViet" 100
           [Samples.rowB; Samples.rowC]);
    [vm_compute; reflexivity | left; reflexivity].
Defined.

(** X14: As far as the [processed] flags go ([processed_at], which every
    marking sets anew on the listed rows, is not a column of the model):
    after [markJobsProcessed] a row is flagged exactly when it was listed
    or flagged before, so no flag is ever cleared; marking a list and then
    another leaves the flags of marking the two lists at once; marking the
    same list again sets no further flag; and every row keeps its place
    and its other columns. *)
Theorem marking_composes (raw : RawStore) (first second : list string) :
  flags (markJobsProcessed raw first)
  = map (fun row => (job_id row,
                     (existsb (String.eqb (job_id row)) first
                      || processed row)%bool)) raw
  /\ flags (markJobsProcessed (markJobsProcessed raw first) second)
     = flags (markJobsProcessed raw (first ++ second))
  /\ flags (markJobsProcessed (markJobsProcessed raw first) first)
     = flags (markJobsProcessed raw first)
  /\ map apartFromFlag (markJobsProcessed raw first) = map apartFromFlag raw
  /\ (forall id, In (id, true) (flags raw) ->
                 In (id, true) (flags (markJobsProcessed raw first))).
Proof.
  assert (Hflags : flags (markJobsProcessed raw first)
                   = map (fun row => (job_id row,
                                      (existsb (String.eqb (job_id row)) first
                                       || processed row)%bool)) raw).
  { unfold flags, markJobsProcessed. rewrite map_map. apply map_ext.
    intros row. rewrite markProcessed_id, markProcessed_flag. reflexivity. }
  assert (Htwice : forall later,
             markJobsProcessed (markJobsProcessed raw first) later
             = markJobsProcessed raw (first ++ later)).
  { intros later. unfold markJobsProcessed. rewrite map_map.
    apply map_ext, markProcessed_twice. }
  split; [exact Hflags |]. split; [rewrite Htwice; reflexivity |]. split.
  - rewrite Htwice. unfold flags, markJobsProcessed. rewrite !map_map.
    apply map_ext. intros row. rewrite !markProcessed_id, !markProcessed_flag.
    rewrite existsb_app. destruct (existsb _ first); reflexivity.
  - split.
    + unfold markJobsProcessed. rewrite map_map. apply map_ext. intros row.
      unfold markProcessed. destruct (existsb _ first); reflexivity.
    + intros id Hin. rewrite Hflags. unfold flags in Hin.
      apply in_map_iff in Hin as (row & [= <- Hp] & Hrow).
      apply in_map_iff. exists row. split; [| assumption].
      rewrite Hp, orb_true_r. reflexivity.
Qed.

End MarkFacts.

(* ================================================================== *)
(** * Further properties: companies *)
(* ================================================================== *)

Module CompanyFacts.

Lemma find_app {A} (f : A -> bool) (l l' : list A) :
  find f (l ++ l') = match find f l with
                     | Some x => Some x
                     | None => find f l'
                     end.
Proof.
  induction l as [| x l IH]; cbn; [reflexivity |].
  destruct (f x); auto.
Qed.

Lemma find_map {A} (f : A -> bool) (g : A -> A) (l : list A) :
  (forall x, f (g x) = f x) ->
  find f (map g l) = option_map g (find f l).
Proof.
  intros Hfg. induction l as [| x l IH]; cbn; [reflexivity |].
  rewrite Hfg. destruct (f x); auto.
Qed.

Section WithRuntime.
Context {rt : Runtime}.

Lemma sameCompany_new (db : CleanStore) (n : string) (domain location : option string) :
  Database.sameCompany n domain
    {| co_id := next_uuid db; co_name := n;
       co_location := location; co_domain := domain |} = true.
Proof.
  unfold Database.sameCompany. cbn. rewrite String.eqb_refl.
  destruct domain; [apply String.eqb_refl | reflexivity].
Qed.

(** The unique constraint cannot fire after the case-insensitive lookup
    found nothing. *)
Lemma lookup_covers_constraint (n : string) (domain : option string)
    (table : list CompanyRow) :
  find (Database.sameCompany n domain) table = None ->
  find (DatabaseService.sameNameAndDomain n domain) table = None.
Proof.
  induction table as [| row rest IH]; cbn; [reflexivity |].
  destruct (Database.sameCompany n domain row) eqn:Hs; [discriminate |].
  intros H. rewrite (IH H).
  unfold DatabaseService.sameNameAndDomain, Database.sameCompany in *.
  destruct domain as [d |], (co_domain row) as [d' |]; try reflexivity.
  destruct (String.eqb (co_name row) n) eqn:Hn; [| reflexivity].
  destruct (String.eqb d d') eqn:Hd; [| reflexivity].
  apply String.eqb_eq in Hn, Hd. subst. rewrite !String.eqb_refl in Hs.
  discriminate.
Qed.

Lemma createCompany_outcome (db : CleanStore)
    (name domain location : option string) :
  (name = None ->
   exists e, Database.createCompany db name domain location = Throw e)
  /\ (forall id db',
        Database.createCompany db name domain location = Return (id, db') ->
        (db' = db
         \/ exists n, name = Some n /\ id = next_uuid db
                      /\ jobPostTable db' = jobPostTable db
                      /\ companyTable db'
                         = companyTable db
                           ++ [{| co_id := id; co_name := n;
                                  co_location := location; co_domain := domain |}])
        /\ forall location',
             Database.createCompany db' name domain location' = Return (id, db')).
Proof.
  unfold Database.createCompany.
  destruct name as [n |].
  2: { split; [| cbn; destruct (negb (truthy domain)); discriminate].
       intros _. exists Sql.not_null_violation. cbn.
       destruct (negb (truthy domain)); reflexivity. }
  split; [discriminate |].
  destruct (Database.findCompanyByNameAndDomain db (Some n) domain)
    as [found |] eqn:Hf.
  { intros id db' Hret. injection Hret as Hid Hdb. subst id db'.
    split; [auto |]. intros location'. rewrite Hf. reflexivity. }
  destruct (if negb (truthy domain)
            then Database.findCompanyByName db (Some n) else None)
    as [found |] eqn:Hn.
  { intros id db' Hret. injection Hret as Hid Hdb. subst id db'.
    split; [auto |]. intros location'. rewrite Hf, Hn. reflexivity. }
  cbn [Database.insertCompany].
  unfold Database.findCompanyByNameAndDomain in Hf.
  destruct (find (Database.sameCompany n domain) (companyTable db)) eqn:Hfind;
    [discriminate |].
  rewrite (lookup_covers_constraint _ _ _ Hfind).
  intros id db' Hret. injection Hret as Hid Hdb. subst id db'. split.
  - right. exists n. auto.
  - intros location'. unfold Database.findCompanyByNameAndDomain.
    cbn [companyTable]. rewrite find_app, Hfind. cbn [find].
    rewrite sameCompany_new. reflexivity.
Qed.

(** X15: With a missing name [createCompany] throws.  When it returns,
    calling it again with the same name and domain (and any location)
    returns the same identifier and leaves the store as it is; the first
    call added at most rows at the end of the company table, and no job
    post. *)
Theorem createCompany_is_idempotent (db : CleanStore)
    (name domain location : option string) :
  (name = None ->
   exists e, Database.createCompany db name domain location = Throw e)
  /\ (forall id db',
        Database.createCompany db name domain location = Return (id, db') ->
        (forall location',
           Database.createCompany db' name domain location' = Return (id, db'))
        /\ (exists added, companyTable db' = companyTable db ++ added)
        /\ jobPostTable db' = jobPostTable db).
Proof.
  destruct (createCompany_outcome db name domain location) as [Hthrow Hret].
  split; [exact Hthrow |]. intros id db' H.
  destruct (Hret id db' H) as [[-> | (n & _ & _ & Hjobs & Hrows)] Hagain].
  - repeat split; [exact Hagain | exists []; rewrite app_nil_r; reflexivity].
  - repeat split; [exact Hagain | eexists; exact Hrows | exact Hjobs].
Qed.

Lemma substring_all (s : string) : String.substring 0 (String.length s) s = s.
Proof. induction s as [| c s IH]; cbn; [reflexivity | rewrite IH; reflexivity]. Qed.

Lemma removeFirst_www (h : string) :
  LegacyProcessor.removeFirst "www." (String.append "www." h) = h.
Proof.
  cbn [String.append]. unfold LegacyProcessor.removeFirst.
  cbn [String.prefix String.length]. cbn.
  assert (Hp : String.prefix "" h = true) by (destruct h; reflexivity).
  rewrite Hp, Nat.sub_0_r. apply substring_all.
Qed.

Lemma removeFirst_absent (sub s : string) :
  includes s sub = false -> LegacyProcessor.removeFirst sub s = s.
Proof.
  induction s as [| c rest IH]; cbn [includes LegacyProcessor.removeFirst].
  - destruct (String.prefix sub ""); [discriminate | reflexivity].
  - destruct (String.prefix sub (String c rest)); [discriminate |].
    intros H. rewrite (IH H). reflexivity.
Qed.

(** X16: [findOrCreateCompany] drops the first "www." of the host
    name: a company found or created from a URL on [www.h] is found again,
    with the same identifier and without a new row, from a URL on [h]. *)
Theorem www_does_not_split_a_company (db db' : CleanStore)
    (name location location' : option string) (withWww without h : string)
    (id : uuid) :
  truthy_string withWww = true ->
  truthy_string without = true ->
  URL_hostname withWww = Some (String.append "www." h) ->
  URL_hostname without = Some h ->
  includes h "www." = false ->
  LegacyProcessor.findOrCreateCompany db name (Some withWww) location
  = Return (id, db') ->
  LegacyProcessor.companyDomain (Some withWww) = Some h
  /\ LegacyProcessor.findOrCreateCompany db' name (Some without) location'
     = Return (id, db').
Proof.
  intros Hw Ho Hhw Hho Habsent. unfold LegacyProcessor.findOrCreateCompany.
  assert (H1 : LegacyProcessor.companyDomain (Some withWww) = Some h).
  { unfold LegacyProcessor.companyDomain. rewrite Hw, Hhw, removeFirst_www.
    reflexivity. }
  assert (H2 : LegacyProcessor.companyDomain (Some without) = Some h).
  { unfold LegacyProcessor.companyDomain.
    rewrite Ho, Hho, (removeFirst_absent _ _ Habsent). reflexivity. }
  rewrite H1, H2. intros Hret. split; [reflexivity |].
  destruct (createCompany_outcome db name (Some h) location) as [_ Hagain].
  apply (Hagain id db' Hret).
Qed.

(** X17: Whenever [upsertCompany] returns: with a null domain it has
    inserted a new row under a new identifier, even when a company of that
    name is stored (a null domain conflicts with nothing); with a domain,
    a later call with the same name and domain that returns gives back the
    identifier of the first call, and has added no row and drawn no
    identifier. *)
Theorem upsertCompany_merges_only_with_a_domain (db db1 : CleanStore)
    (companyData : CompanyData) (id : uuid) :
  DatabaseService.upsertCompany db companyData = Return (id, db1) ->
  (c_domain companyData = None ->
   id = next_uuid db
   /\ next_uuid db1 = S (next_uuid db)
   /\ jobPostTable db1 = jobPostTable db
   /\ exists n, c_name companyData = Some n
                /\ companyTable db1
                   = companyTable db
                     ++ [{| co_id := id; co_name := n;
                            co_location := c_location companyData;
                            co_domain := None |}])
  /\ (forall n d location' id2 db2,
        c_name companyData = Some n ->
        c_domain companyData = Some d ->
        DatabaseService.upsertCompany db1
          {| c_name := Some n; c_location := location'; c_domain := Some d |}
        = Return (id2, db2) ->
        id2 = id
        /\ map co_id (companyTable db2) = map co_id (companyTable db1)
        /\ jobPostTable db2 = jobPostTable db1
        /\ next_uuid db2 = next_uuid db1).
Proof.
  unfold DatabaseService.upsertCompany.
  destruct (c_name companyData) as [name |] eqn:Hname; [| discriminate].
  intros Hret. split.
  - intros Hd. rewrite Hd in Hret.
    assert (Hnone : forall table,
               find (DatabaseService.sameNameAndDomain name None) table = None).
    { induction table as [| row rest IH]; cbn; auto. }
    rewrite Hnone in Hret. injection Hret as <- <-.
    cbn [companyTable jobPostTable next_uuid].
    repeat split. exists name. split; reflexivity.
  - intros n d location' id2 db2 [= <-] Hd. rewrite Hd in Hret.
    cbn [c_name c_domain c_location].
    destruct (find (DatabaseService.sameNameAndDomain name (Some d))
                (companyTable db)) as [existing |] eqn:Hfind;
      injection Hret as <- <-; cbn [companyTable jobPostTable next_uuid].
    + rewrite find_map, Hfind by (intros row; destruct (Nat.eqb _ _); reflexivity).
      cbn [option_map]. rewrite Nat.eqb_refl. cbn [co_id].
      intros Hsecond. injection Hsecond as <- <-.
      cbn [companyTable jobPostTable next_uuid]. repeat split.
      rewrite map_map. apply map_ext.
      intros row. destruct (Nat.eqb _ _); reflexivity.
    + rewrite find_app, Hfind.
      cbn [find DatabaseService.sameNameAndDomain co_domain co_name].
      rewrite !String.eqb_refl. cbn [andb co_id].
      intros Hsecond. injection Hsecond as <- <-.
      cbn [companyTable jobPostTable next_uuid]. repeat split.
      rewrite map_map. apply map_ext.
      intros row. destruct (Nat.eqb _ _); reflexivity.
Qed.

End WithRuntime.

(** The stored company has the domain "testcompany.com". *)
Lemma www_does_not_split_a_company_witness :
  @LegacyProcessor.findOrCreateCompany Demo.runtime Samples.oneCompany
    (Some "Test Company Ltd") (Some "https://testcompany.com") None
  = Return (1, Samples.oneCompany).
Proof.
  apply (proj2 (@www_does_not_split_a_company Demo.runtime
                  Samples.oneCompany Samples.oneCompany
                  (Some "Test Company Ltd") None None
                  "https://www.testcompany.com/about" "https://testcompany.com"
                  "testcompany.com" 1
                  eq_refl eq_refl eq_refl eq_refl eq_refl eq_refl)).
Defined.

(** A company without a domain, although one of that name is stored. *)
Lemma upsertCompany_merges_only_with_a_domain_witness :
  match DatabaseService.upsertCompany Samples.oneCompany Cases.nameOnly with
  | Return (id, db1) => id = 2 /\ next_uuid db1 = 3
  | Throw _ => False
  end.
Proof.
  destruct (DatabaseService.upsertCompany Samples.oneCompany Cases.nameOnly)
    as [[id db1] | e] eqn:H.
  - destruct (proj1 (upsertCompany_merges_only_with_a_domain
                       Samples.oneCompany db1 Cases.nameOnly id H) eq_refl)
      as (Hid & Hnext & _).
    split; assumption.
  - vm_compute in H. discriminate.
Defined.

End CompanyFacts.

(* ================================================================== *)
(** * Further properties: the location normalizer *)
(* ================================================================== *)

Module OriginFacts.
Import LocationNormalizer.
Import Vocabulary.

Lemma mapCity_origin (text : string) (mappings : dict string) :
  mapCity text mappings = text
  \/ exists key, In (key, mapCity text mappings) mappings
                 /\ includes text key = true.
Proof.
  induction mappings as [| [key value] rest IH]; cbn [mapCity]; [auto |].
  destruct (includes text key) eqn:Hi.
  - right. exists key. split; [left; reflexivity | assumption].
  - destruct IH as [IH | (k & Hin & Hk)]; [auto |].
    right. exists k. split; [right; assumption | assumption].
Qed.

Section WithRuntime.
Context {rt : Runtime}.

Lemma detectCountry_origin (text : string) (code found : option string)
    (patterns : list CountryPattern) :
  detectCountry text code patterns = Return found ->
  found = code
  \/ exists p, In p patterns
               /\ is_match (regexp_match (cp_regex p) text) = true
               /\ found = cp_code p.
Proof.
  induction patterns as [| pattern rest IH]; cbn [detectCountry].
  - intros [= <-]. auto.
  - destruct (regexp_match (cp_regex pattern) text) eqn:Hm.
    + discriminate.
    + intros H. destruct (IH H) as [-> | (p & Hin & Hp & ->)]; [auto |].
      right. exists p. split; [right; assumption | auto].
    + intros [= <-]. right. exists pattern.
      rewrite Hm. split; [left; reflexivity | auto].
Qed.

(** X18: In the object that [normalizeLocation] returns for a
    non-empty text, the city is "Remote", the text itself, or the value of
    a city mapping whose key the text includes; and the country is the
    default country or the code of a country pattern that matches the
    text. *)
Theorem location_fields_come_from_the_configuration (text : string)
    (config : Config) (info : LocationInfo) :
  truthy_string text = true ->
  normalizeLocation (Some text) config = Return (LocationObject info) ->
  (city info = Some "Remote"
   \/ city info = Some text
   \/ exists lc key value,
        location config = Some lc
        /\ In (key, value) (city_mappings lc)
        /\ includes text key = true
        /\ city info = Some value)
  /\ (country info = Some (default_country_of (location config))
      \/ exists lc p,
           location config = Some lc
           /\ In p (country_patterns lc)
           /\ is_match (regexp_match (cp_regex p) text) = true
           /\ country info = cp_code p).
Proof.
  intros Ht. unfold normalizeLocation. rewrite Ht.
  destruct (manual_or_ai _).
  - unfold normalizeManual. destruct (location config) as [lc |];
      [| discriminate].
    destruct (detectCountry text (Some (default_country_of (Some lc)))
                (country_patterns lc)) as [found | e] eqn:Hd; cbn [bind];
      [| discriminate].
    intros [= <-]. cbn [city country]. split.
    + destruct (someKeyword text (remote_keywords lc)); [auto |].
      destruct (mapCity_origin text (city_mappings lc)) as [-> | (key & Hin & Hk)];
        [auto |].
      right. right. exists lc, key, (mapCity text (city_mappings lc)). auto.
    + destruct (detectCountry_origin _ _ _ _ Hd) as [-> | (p & Hin & Hp & ->)];
        [auto |].
      right. exists lc, p. auto.
  - destruct (fallback_enabled _); [discriminate |].
    intros [= <-]. cbn. auto.
Qed.

End WithRuntime.

(** "District 1, HCM" with the sample document. *)
Lemma location_fields_come_from_the_configuration_witness :
  match @normalizeLocation Demo.runtime (Some "District 1, HCM") Samples.careerviet with
  | Return (LocationObject info) =>
      country info = Some (default_country_of (location Samples.careerviet))
      \/ exists lc p,
           location Samples.careerviet = Some lc
           /\ In p (country_patterns lc)
           /\ is_match (@regexp_match Demo.runtime (cp_regex p) "District 1, HCM") = true
           /\ country info = cp_code p
  | _ => False
  end.
Proof.
  destruct (@normalizeLocation Demo.runtime (Some "District 1, HCM") Samples.careerviet)
    as [[info |] | e] eqn:H.
  - exact (proj2 (@location_fields_come_from_the_configuration Demo.runtime
                    "District 1, HCM" Samples.careerviet info eq_refl H)).
  - vm_compute in H. discriminate.
  - vm_compute in H. discriminate.
Defined.

End OriginFacts.

(* ================================================================== *)
(** * Further properties: the insert loop *)
(* ================================================================== *)

Module RoundTripFacts.
Import DataProcessorApp.

(** X19: [insertJobPost] returns no identifier exactly when a row
    with the URL is stored, and then leaves the store as it is; otherwise it
    appends one row, with the next identifier, which is found by the URL
    afterwards.  In both cases a second call with the same data returns no
    identifier and changes nothing. *)
Theorem insertJobPost_skips_a_known_url (db db' : CleanStore) (jobData : JobData)
    (result : option uuid) :
  DatabaseService.insertJobPost db jobData = Return (result, db') ->
  DatabaseService.insertJobPost db' jobData = Return (None, db')
  /\ match result with
     | Some id =>
         id = next_uuid db
         /\ exists u row,
              jd_postUrl jobData = Some u
              /\ Sql.selectByUrl db u = None
              /\ Sql.selectByUrl db' u = Some row /\ jp_id row = id
              /\ jobPostTable db' = jobPostTable db ++ [row]
     | None =>
         db' = db
         /\ exists u row,
              jd_postUrl jobData = Some u /\ Sql.selectByUrl db u = Some row
     end.
Proof.
  unfold DatabaseService.insertJobPost.
  destruct (Sql.checkJobData jobData)
    as [[[[companyId title] platformId] postUrl] |] eqn:Hcheck;
    cbn [bind]; [| discriminate].
  assert (Hurl : jd_postUrl jobData = Some postUrl).
  { unfold Sql.checkJobData in Hcheck.
    destruct (jd_postedDate jobData) as [[day |] |]; try discriminate;
      destruct (jd_companyId jobData), (jd_title jobData),
               (jd_platformId jobData), (jd_postUrl jobData);
      try discriminate; injection Hcheck as _ _ _ ->; reflexivity. }
  cbn [Sql.newJobPost jp_postUrl jp_id].
  destruct (Sql.selectByUrl db postUrl) as [found |] eqn:Hsel;
    intros Hret; injection Hret as <- <-.
  - rewrite Hsel. split; [reflexivity |]. split; [reflexivity |]. eauto.
  - assert (Hnew : Sql.selectByUrl
                     (Sql.addJobPost db
                        {| jp_id := next_uuid db; jp_companyId := companyId;
                           jp_title := title; jp_platformId := platformId;
                           jp_postUrl := postUrl; jp_data := jobData |}) postUrl
                   = Some {| jp_id := next_uuid db; jp_companyId := companyId;
                             jp_title := title; jp_platformId := platformId;
                             jp_postUrl := postUrl; jp_data := jobData |}).
    { unfold Sql.selectByUrl in *. cbn [Sql.addJobPost jobPostTable].
      rewrite CompanyFacts.find_app, Hsel. cbn [find jp_postUrl].
      rewrite String.eqb_refl. reflexivity. }
    rewrite Hnew. split; [reflexivity |]. split; [reflexivity |].
    eexists. eexists. repeat split; eauto.
Qed.

(** The original posting, into the store that holds its company. *)
Lemma insertJobPost_skips_a_known_url_witness :
  DatabaseService.insertJobPost Samples.afterOriginal Samples.original
  = Return (None, Samples.afterOriginal).
Proof.
  exact (proj1 (insertJobPost_skips_a_known_url Samples.oneCompany
                  Samples.afterOriginal Samples.original (Some 2) eq_refl)).
Defined.

Lemma commitJob_counts (acc : Commit) (job : Job) :
  let out := commitJob acc job in
  (inserted out = inserted acc /\ processedJobIds out = processedJobIds acc
   /\ List.length (cm_log out) <= S (List.length (cm_log acc)))
  \/ (inserted out = S (inserted acc)
      /\ processedJobIds out = processedJobIds acc ++ [rawJobId job]
      /\ cm_log out = cm_log acc).
Proof.
  cbn zeta. unfold commitJob.
  destruct (DatabaseService.upsertCompany (cm_store acc) (company job))
    as [[companyId store1] | e].
  - destruct (DatabaseService.insertJobPost store1 (toJobData companyId job))
      as [[[id |] store2] | e]; cbn; rewrite ?length_app; cbn; auto.
    left. repeat split. lia.
  - cbn. rewrite length_app. cbn. left. repeat split. lia.
Qed.

Lemma fold_commitJob_counts (jobs : list Job) (acc : Commit) :
  let out := fold_left commitJob jobs acc in
  (inserted acc = List.length (processedJobIds acc) ->
   inserted out = List.length (processedJobIds out))
  /\ inserted out + List.length (cm_log out)
     <= inserted acc + List.length (cm_log acc) + List.length jobs.
Proof.
  revert acc. induction jobs as [| job rest IH]; intros acc; cbn zeta;
    cbn [fold_left].
  - cbn. split; [auto | lia].
  - destruct (IH (commitJob acc job)) as [Heq Hle]. cbn zeta in Heq, Hle.
    cbn [List.length].
    destruct (commitJob_counts acc job) as [(Hi & Hp & Hl) | (Hi & Hp & Hl)];
      cbn zeta in Hi, Hp, Hl.
    + split; [intros H0; apply Heq; rewrite Hi, Hp; exact H0 | lia].
    + split; [intros H0; apply Heq; rewrite Hi, Hp, length_app; cbn; lia |].
      rewrite Hl in Hle. lia.
Qed.

(** X20: In the insert loop of a platform the number of inserted
    job posts is the number of identifiers recorded for marking, inserted
    and failed inserts together are at most the candidates, and every
    recorded identifier is the raw identifier of a candidate. *)
Theorem inserted_count_is_marked_count (store : CleanStore) (jobs : list Job) :
  let done := commitJobs store jobs in
  inserted done = List.length (processedJobIds done)
  /\ inserted done + List.length (cm_log done) <= List.length jobs
  /\ (forall id, In id (processedJobIds done) ->
        exists job, In job jobs /\ rawJobId job = id).
Proof.
  cbn zeta. unfold commitJobs.
  destruct (fold_commitJob_counts jobs
              {| cm_store := store; inserted := 0; processedJobIds := [];
                 cm_log := [] |}) as [Heq Hle].
  cbn in Heq, Hle.
  split; [auto |]. split; [lia |].
  intros id Hin. apply CycleFacts.commit_ids_origin in Hin as [[] | Hjob].
  exact Hjob.
Qed.

End RoundTripFacts.

(* ================================================================== *)
(** * Further properties: the clean store across cycles *)
(* ================================================================== *)

Module StoreFacts.
Import DataProcessorApp.
Import StoreInvariant.

Lemma grows_refl (db : CleanStore) : grows db db.
Proof.
  repeat split; try (exists []; rewrite app_nil_r; reflexivity). lia.
Qed.

Lemma grows_trans (a b c : CleanStore) : grows a b -> grows b c -> grows a c.
Proof.
  intros ([j1 Hj1] & [c1 Hc1] & Hn1) ([j2 Hj2] & [c2 Hc2] & Hn2).
  repeat split.
  - exists (j1 ++ j2). rewrite Hj2, Hj1, app_assoc. reflexivity.
  - exists (c1 ++ c2). rewrite Hc2, Hc1, app_assoc. reflexivity.
  - lia.
Qed.

Lemma selectByUrl_none (db : CleanStore) (postUrl : string) :
  Sql.selectByUrl db postUrl = None ->
  ~ In postUrl (map jp_postUrl (jobPostTable db)).
Proof.
  unfold Sql.selectByUrl. intros Hnone Hin.
  apply in_map_iff in Hin as (row & <- & Hrow).
  pose proof (find_none _ _ Hnone row Hrow) as H. cbn in H.
  rewrite String.eqb_refl in H. discriminate.
Qed.

Lemma fresh_id {A} (id_of : A -> nat) (table : list A) (next : nat) :
  (forall row, In row table -> id_of row < next) ->
  ~ In next (map id_of table).
Proof.
  intros Hlt Hin. apply in_map_iff in Hin as (row & Heq & Hrow).
  specialize (Hlt row Hrow). lia.
Qed.

Lemma NoDup_snoc {A} (l : list A) (x : A) : NoDup l -> ~ In x l -> NoDup (l ++ [x]).
Proof.
  intros Hl Hx. apply NoDup_app; [assumption | repeat constructor; auto |].
  intros y Hy [<- | []]. contradiction.
Qed.

Lemma upsertCompany_keeps (db db' : CleanStore) (companyData : CompanyData) (id : uuid) :
  DatabaseService.upsertCompany db companyData = Return (id, db') ->
  wellFormed db -> wellFormed db' /\ grows db db'.
Proof.
  unfold DatabaseService.upsertCompany.
  destruct (c_name companyData) as [name |]; [| discriminate].
  intros Hret (Hurl & Hjid & Hcid & Hj & Hc).
  destruct (find _ (companyTable db)) as [existing |];
    injection Hret as <- <-; unfold wellFormed, grows;
    cbn [companyTable jobPostTable next_uuid].
  - assert (Hids : map co_id
                     (map (fun row =>
                             if Nat.eqb (co_id row) (co_id existing)
                             then {| co_id := co_id row; co_name := co_name row;
                                     co_location := c_location companyData;
                                     co_domain := co_domain row |}
                             else row) (companyTable db))
                   = map co_id (companyTable db)).
    { rewrite map_map. apply map_ext. intros row.
      destruct (Nat.eqb _ _); reflexivity. }
    rewrite Hids. repeat split; auto.
    + intros row Hrow. apply in_map_iff in Hrow as (old & <- & Hold).
      specialize (Hc old Hold). destruct (Nat.eqb _ _); assumption.
    + exists []. rewrite app_nil_r. reflexivity.
    + exists []. rewrite app_nil_r. reflexivity.
  - rewrite map_app. cbn [map co_id]. repeat split; auto.
    + apply NoDup_snoc; [assumption |]. apply fresh_id. assumption.
    + intros row Hrow. specialize (Hj row Hrow). lia.
    + intros row Hrow. apply in_app_or in Hrow as [Hrow | [<- | []]].
      * specialize (Hc row Hrow). lia.
      * cbn. lia.
    + exists []. rewrite app_nil_r. reflexivity.
    + eexists. reflexivity.
Qed.

Lemma insertJobPost_keeps (db db' : CleanStore) (jobData : JobData)
    (id : option uuid) :
  DatabaseService.insertJobPost db jobData = Return (id, db') ->
  wellFormed db -> wellFormed db' /\ grows db db'.
Proof.
  unfold DatabaseService.insertJobPost.
  destruct (Sql.checkJobData jobData) as [[[[companyId title] platformId] postUrl] |];
    cbn [bind]; [| discriminate].
  cbn [Sql.newJobPost jp_postUrl jp_id].
  destruct (Sql.selectByUrl db postUrl) eqn:Hsel; intros Hret; injection Hret as <- <-.
  - intros H. split; [assumption | apply grows_refl].
  - intros (Hurl & Hjid & Hcid & Hj & Hc). unfold wellFormed, grows, Sql.addJobPost.
    cbn [companyTable jobPostTable next_uuid]. rewrite !map_app.
    cbn [map jp_postUrl jp_id]. repeat split; auto.
    + apply NoDup_snoc; [assumption |]. apply selectByUrl_none. assumption.
    + apply NoDup_snoc; [assumption |]. apply fresh_id. assumption.
    + intros row Hrow. apply in_app_or in Hrow as [Hrow | [<- | []]].
      * specialize (Hj row Hrow). lia.
      * cbn. lia.
    + intros row Hrow. specialize (Hc row Hrow). lia.
    + eexists. reflexivity.
    + exists []. rewrite app_nil_r. reflexivity.
Qed.

Lemma commitJob_keeps (acc : Commit) (job : Job) :
  wellFormed (cm_store acc) ->
  wellFormed (cm_store (commitJob acc job))
  /\ grows (cm_store acc) (cm_store (commitJob acc job)).
Proof.
  intros Hwf. unfold commitJob.
  destruct (DatabaseService.upsertCompany (cm_store acc) (company job))
    as [[companyId store1] | e] eqn:Hup.
  2: { cbn. split; [assumption | apply grows_refl]. }
  destruct (upsertCompany_keeps _ _ _ _ Hup Hwf) as [Hwf1 Hg1].
  destruct (DatabaseService.insertJobPost store1 (toJobData companyId job))
    as [[[id |] store2] | e] eqn:Hins; cbn [cm_store]; auto;
    destruct (insertJobPost_keeps _ _ _ _ Hins Hwf1) as [Hwf2 Hg2];
    split; try assumption; eapply grows_trans; eassumption.
Qed.

Lemma fold_commitJob_keeps (jobs : list Job) (acc : Commit) :
  wellFormed (cm_store acc) ->
  wellFormed (cm_store (fold_left commitJob jobs acc))
  /\ grows (cm_store acc) (cm_store (fold_left commitJob jobs acc)).
Proof.
  revert acc. induction jobs as [| job rest IH]; intros acc Hwf; cbn [fold_left].
  - split; [assumption | apply grows_refl].
  - destruct (commitJob_keeps acc job Hwf) as [Hwf1 Hg1].
    destruct (IH _ Hwf1) as [Hwf2 Hg2].
    split; [assumption | eapply grows_trans; eassumption].
Qed.

Section WithRuntime.
Context {rt : Runtime}.

Lemma processPlatform_keeps (a : App) (w : World) (size : Z) (key : string) :
  wellFormed (cleanStore w) ->
  let w' := snd (fst (processPlatform a w size key)) in
  wellFormed (cleanStore w') /\ grows (cleanStore w) (cleanStore w').
Proof.
  intros Hwf. cbn zeta. unfold processPlatform.
  destruct (get (processors a) key) as [processor |];
    [| cbn; split; [assumption | apply grows_refl]].
  destruct (get (platforms (globalConfig a)) key) as [entry |];
    [| cbn; split; [assumption | apply grows_refl]].
  destruct (DatabaseService.getUnprocessedJobs _ _ _) as [[| rawJob rawJobs] | e];
    try (cbn; split; [assumption | apply grows_refl]).
  destruct (BaseProcessor.processJobs processor (rawJob :: rawJobs) (globalConfig a))
    as [transformed processor'].
  cbn [fst snd cleanStore]. unfold commitJobs.
  apply (fold_commitJob_keeps transformed); assumption.
Qed.

Lemma step_keeps (s : System) (e : Event) :
  wellFormed (cleanStore (world s)) ->
  wellFormed (cleanStore (world (step s e)))
  /\ grows (cleanStore (world s)) (cleanStore (world (step s e))).
Proof.
  intros Hwf.
  assert (Hinvoke : cleanStore (world (invoke s)) = cleanStore (world s)).
  { unfold invoke. destruct (isProcessing (app s)); reflexivity. }
  destruct e as [| | index]; cbn [step].
  - rewrite Hinvoke. split; [assumption | apply grows_refl].
  - unfold cronTick. destruct (negb _); [rewrite Hinvoke | cbn];
      (split; [assumption | apply grows_refl]).
  - unfold resume. destruct (nth_error (running s) index) as [cycle |];
      [| split; [assumption | apply grows_refl]].
    destruct (remaining cycle) as [| key rest];
      [cbn; split; [assumption | apply grows_refl] |].
    pose proof (processPlatform_keeps (app s) (world s) (batchSize cycle) key Hwf)
      as H. cbn zeta in H.
    destruct (processPlatform (app s) (world s) (batchSize cycle) key)
      as [[a w] [[p ok] ko]]. exact H.
Qed.

(** X21: Whatever calls, cron firings and resumptions occur,
    the clean store stays consistent: URLs of job posts and identifiers stay
    unique, and identifiers in use were drawn before.  The job posts stored
    before are still there, unchanged and in place, and the companies keep
    their identifiers. *)
Theorem cycles_keep_the_clean_store_consistent (s : System) (events : list Event) :
  wellFormed (cleanStore (world s)) ->
  wellFormed (cleanStore (world (run s events)))
  /\ grows (cleanStore (world s)) (cleanStore (world (run s events))).
Proof.
  unfold run. revert s. induction events as [| e rest IH]; intros s Hwf; cbn [fold_left].
  - split; [assumption | apply grows_refl].
  - destruct (step_keeps s e Hwf) as [Hwf1 Hg1].
    destruct (IH _ Hwf1) as [Hwf2 Hg2].
    split; [assumption | eapply grows_trans; eassumption].
Qed.

End WithRuntime.

Lemma cleanRows_wellFormed : wellFormed Samples.cleanRows.
Proof.
  unfold wellFormed. cbn.
  repeat split; try (repeat constructor; cbn; intuition discriminate);
    intros row [<- | []]; cbn; lia.
Qed.

(** One whole cycle over the sample stores. *)
Lemma cycles_keep_the_clean_store_consistent_witness :
  wellFormed
    (DataProcessorApp.cleanStore
       (world (@run Demo.runtime Cases.idle [Invoke; Resume 0; Resume 0]))).
Proof.
  apply (@cycles_keep_the_clean_store_consistent Demo.runtime Cases.idle
           [Invoke; Resume 0; Resume 0]).
  exact cleanRows_wellFormed.
Defined.

End StoreFacts.

(* ================================================================== *)
(** * Further properties: the course of a cycle *)
(* ================================================================== *)

Module ScheduleFacts.
Import DataProcessorApp.
Import Shape.

Section WithRuntime.
Context {rt : Runtime}.

Lemma run_snoc (s : System) (events : list Event) (e : Event) :
  run s (events ++ [e]) = step (run s events) e.
Proof. unfold run. rewrite fold_left_app. reflexivity. Qed.

Lemma resumes_snoc (k : nat) :
  Invoke :: repeat (Resume 0) (S k) = (Invoke :: repeat (Resume 0) k) ++ [Resume 0].
Proof.
  rewrite <- app_comm_cons. f_equal. apply (repeat_cons k (Resume 0)).
Qed.

(** The state of a cycle after its first [k] platforms. *)
Lemma cycle_progress (s : System) (k : nat) :
  isProcessing (app s) = false ->
  running s = [] ->
  k <= List.length (sortedPlatforms (app s)) ->
  let s' := run s (Invoke :: repeat (Resume 0) k) in
  isProcessing (app s') = true
  /\ exists cycle, running s' = [cycle]
                   /\ remaining cycle = skipn k (sortedPlatforms (app s)).
Proof.
  intros Hidle Hnone. induction k as [| k IH]; intros Hk; cbn zeta.
  - cbn [repeat]. unfold run. cbn [fold_left step]. unfold invoke.
    rewrite Hidle, Hnone. cbn. split; [reflexivity |]. eexists. split; reflexivity.
  - rewrite resumes_snoc, run_snoc.
    destruct IH as (Hbusy & cycle & Hrun & Hrem); [lia |].
    set (before := run s (Invoke :: repeat (Resume 0) k)) in *.
    cbn [step]. unfold resume. rewrite Hrun. cbn [nth_error].
    destruct (skipn k (sortedPlatforms (app s))) as [| key rest] eqn:Hskip.
    + exfalso. assert (Hlen := length_skipn k (sortedPlatforms (app s))).
      rewrite Hskip in Hlen. cbn in Hlen. lia.
    + rewrite Hrem.
      pose proof (GuardFacts.processPlatform_flag (app before) (world before)
                    (batchSize cycle) key) as Hflag.
      destruct (processPlatform (app before) (world before) (batchSize cycle) key)
        as [[a w] [[p ok] ko]].
      cbn [fst app running] in *. split; [congruence |].
      eexists. split; [reflexivity |]. cbn [remaining].
      change (S k) with (1 + k). rewrite <- skipn_skipn, Hskip. reflexivity.
Qed.

(** X22: A cycle started while none is running visits the keys
    of the processors once each, in ascending priority (a missing or zero
    priority counts as 999): after [k] resumptions the platforms left are
    the sorted keys without the first [k], the flag being set; and one more
    resumption after the last platform clears the flag and ends the
    cycle. *)
Theorem cycle_visits_each_platform_once_then_ends (s : System) :
  isProcessing (app s) = false ->
  running s = [] ->
  let order := sortedPlatforms (app s) in
  Permutation order (map fst (processors (app s)))
  /\ StronglySorted (byKey (priorityOf (globalConfig (app s)))) order
  /\ (forall k, k <= List.length order ->
        let during := run s (Invoke :: repeat (Resume 0) k) in
        isProcessing (app during) = true
        /\ exists cycle, running during = [cycle]
                         /\ remaining cycle = skipn k order)
  /\ let after := run s (Invoke :: repeat (Resume 0) (S (List.length order))) in
     isProcessing (app after) = false /\ running after = [].
Proof.
  intros Hidle Hnone. cbn zeta.
  split; [apply FetchFacts.sortBy_perm |].
  split; [apply FetchFacts.sortBy_sorted |].
  split; [intros k Hk; apply cycle_progress; assumption |].
  rewrite resumes_snoc, run_snoc.
  destruct (cycle_progress s (List.length (sortedPlatforms (app s))) Hidle Hnone
              (le_n _)) as (Hbusy & cycle & Hrun & Hrem).
  rewrite skipn_all in Hrem.
  cbn [step]. unfold resume. rewrite Hrun. cbn [nth_error]. rewrite Hrem.
  cbn. auto.
Qed.

(** X23: A [BATCH_SIZE] that parses to a negative number is the
    batch size of the cycle, and with it a platform is not processed: the
    query fails, the failure is logged, both stores and the application are
    unchanged and nothing is added to the totals. *)
Theorem negative_batch_size_processes_nothing (a : App) (w : World) (n : Z)
    (key : string) :
  parseInt (env_BATCH_SIZE a) = Some n ->
  (n < 0)%Z ->
  batchSizeOf a = n
  /\ fst (fst (processPlatform a w (batchSizeOf a) key)) = a
  /\ snd (processPlatform a w (batchSizeOf a) key) = (0, 0, 0)
  /\ rawStore (snd (fst (processPlatform a w (batchSizeOf a) key))) = rawStore w
  /\ cleanStore (snd (fst (processPlatform a w (batchSizeOf a) key))) = cleanStore w
  /\ exists e,
       log (snd (fst (processPlatform a w (batchSizeOf a) key)))
       = log w ++ [PlatformFailed key e].
Proof.
  intros Hparse Hneg.
  assert (Hsize : batchSizeOf a = n).
  { unfold batchSizeOf. rewrite Hparse. unfold truthy_int.
    destruct (Z.eqb_spec n 0); [lia | reflexivity]. }
  rewrite Hsize. split; [reflexivity |]. unfold processPlatform.
  destruct (get (processors a) key) as [processor |];
    [| cbn; repeat split; eauto].
  destruct (get (platforms (globalConfig a)) key) as [entry |];
    [| cbn; repeat split; eauto].
  unfold DatabaseService.getUnprocessedJobs.
  destruct (Z.ltb_spec n 0); [| lia]. cbn. repeat split; eauto.
Qed.

End WithRuntime.

(** [BATCH_SIZE=-5]: the CareerViet batch is not fetched. *)
Lemma negative_batch_size_processes_nothing_witness :
  rawStore (snd (fst (@processPlatform Demo.runtime Cases.negativeBatch
                        Samples.worldBefore (batchSizeOf Cases.negativeBatch)
                        "careerviet")))
  = Samples.rawRows.
Proof.
  apply (@negative_batch_size_processes_nothing Demo.runtime Cases.negativeBatch
           Samples.worldBefore (-5)%Z "careerviet"); [reflexivity | reflexivity].
Defined.

(** One processor: the cycle is over after two resumptions. *)
Lemma cycle_visits_each_platform_once_then_ends_witness :
  isProcessing (app (@run Demo.runtime Cases.idle [Invoke; Resume 0; Resume 0]))
  = false
  /\ running (@run Demo.runtime Cases.idle [Invoke; Resume 0; Resume 0]) = [].
Proof.
  exact (proj2 (proj2 (proj2
           (@cycle_visits_each_platform_once_then_ends Demo.runtime Cases.idle
              eq_refl eq_refl)))).
Defined.

End ScheduleFacts.

(* ================================================================== *)
(** * Further properties: the older insert path *)
(* ================================================================== *)

Module LegacyInsertFacts.

Section WithRuntime.
Context {rt : Runtime}.

Lemma insertRow_outcome (db : CleanStore) (jobData : JobData) :
  Database.findJobByUrl db (jd_postUrl jobData) = None ->
  (exists e, Database.insertRow db jobData = Throw e)
  \/ (exists u row,
        jd_postUrl jobData = Some u
        /\ jp_postUrl row = u /\ jp_id row = next_uuid db
        /\ Sql.selectByUrl db u = None
        /\ Database.insertRow db jobData
           = Return (next_uuid db, Sql.addJobPost db row)).
Proof.
  unfold Database.insertRow, Sql.checkJobData, Database.findJobByUrl. intros Hnone.
  destruct (jd_postedDate jobData) as [[day |] |];
    try (left; eexists; reflexivity);
    (destruct (jd_companyId jobData) as [companyId |];
       [| left; eexists; reflexivity];
     destruct (jd_title jobData) as [title |];
       [| left; eexists; reflexivity];
     destruct (jd_platformId jobData) as [platformId |];
       [| left; eexists; reflexivity];
     destruct (jd_postUrl jobData) as [u |];
       [| left; eexists; reflexivity];
     cbn [bind Sql.newJobPost jp_postUrl jp_id];
     destruct (Sql.selectByUrl db u) eqn:Hsel; [discriminate |];
     right; eexists; eexists; repeat split; auto).
Qed.

(** X24: When [createJobPost] returns, a second call with the same data
    returns the same identifier with [created] false and changes nothing;
    a call with [created] false left the store as it was, and one with
    [created] true appended one row, with the next identifier, which is
    found by its URL. *)
Theorem createJobPost_is_idempotent (db db' : CleanStore) (jobData : JobData)
    (created : bool) (id : uuid) :
  Database.createJobPost db jobData = Return (created, id, db') ->
  Database.createJobPost db' jobData = Return (false, id, db')
  /\ (created = false -> db' = db)
  /\ (created = true ->
      id = next_uuid db
      /\ Database.findJobByUrl db (jd_postUrl jobData) = None
      /\ Database.findJobByUrl db' (jd_postUrl jobData) = Some id
      /\ companyTable db' = companyTable db
      /\ exists row, jobPostTable db' = jobPostTable db ++ [row]).
Proof.
  unfold Database.createJobPost.
  destruct (Database.findJobByUrl db (jd_postUrl jobData)) as [byUrl |] eqn:Hurl.
  { intros Hret. injection Hret as Hc Hid Hdb. subst created id db'.
    rewrite Hurl. repeat split; discriminate. }
  destruct (Database.findJobByCompanyTitlePlatform db (jd_companyId jobData)
              (jd_title jobData) (jd_platformId jobData)) as [byTitle |] eqn:Htitle.
  { intros Hret. injection Hret as Hc Hid Hdb. subst created id db'.
    rewrite Hurl, Htitle. repeat split; discriminate. }
  destruct (insertRow_outcome db jobData Hurl)
    as [(e & ->) | (u & row & Hu & Hrow & Hid & Hsel & ->)].
  - destruct e as [| | | message | code]; try discriminate.
    destruct (String.eqb code "23505"); discriminate.
  - intros Hret. injection Hret as Hc Hi Hdb. subst created id db'.
    assert (Hfound : Database.findJobByUrl (Sql.addJobPost db row)
                       (jd_postUrl jobData) = Some (next_uuid db)).
    { rewrite Hu. unfold Database.findJobByUrl, Sql.selectByUrl in *.
      cbn [Sql.addJobPost jobPostTable]. rewrite CompanyFacts.find_app, Hsel.
      cbn [find]. rewrite Hrow, String.eqb_refl. cbn. congruence. }
    rewrite Hfound. repeat split; try discriminate; eauto.
    exists row. reflexivity.
Qed.

End WithRuntime.

(** The original posting, created in the store that holds its company and
    offered again. *)
Lemma createJobPost_is_idempotent_witness :
  @Database.createJobPost Demo.runtime Samples.afterOriginal Samples.original
  = Return (false, 2, Samples.afterOriginal).
Proof.
  apply (@createJobPost_is_idempotent Demo.runtime Samples.oneCompany
           Samples.afterOriginal Samples.original true 2).
  vm_compute. reflexivity.
Defined.

End LegacyInsertFacts.

Module BatchFacts.
Import LegacyProcessor.

Section WithRuntime.
Context {rt : Runtime}.

(** What the loop of [batchProcess] keeps true of its counters. *)
Lemma batchStep_counts (this : Processor) (rawJobs : list RawJob)
    (acc : CleanStore * Results) :
  let out := snd (fold_left (batchStep this) rawJobs acc) in
  let r := snd acc in
  total out = total r
  /\ r_processed out + r_errors out
     = r_processed r + r_errors r + List.length rawJobs
  /\ (r_created r + r_skipped r = r_processed r ->
      r_created out + r_skipped out = r_processed out)
  /\ (List.length (processedJobIds r) = r_processed r ->
      List.length (processedJobIds out) = r_processed out).
Proof.
  revert acc. induction rawJobs as [| rawJob rest IH]; intros [db r]; cbn zeta.
  - cbn. repeat split; auto; lia.
  - cbn [fold_left]. specialize (IH (batchStep this (db, r) rawJob)).
    cbn zeta in IH. cbn [snd List.length].
    destruct (batchStep this (db, r) rawJob) as [db1 r1] eqn:Hstep.
    assert (H1 : total r1 = total r
                 /\ r_processed r1 + r_errors r1 = S (r_processed r + r_errors r)
                 /\ (r_created r + r_skipped r = r_processed r ->
                     r_created r1 + r_skipped r1 = r_processed r1)
                 /\ (List.length (processedJobIds r) = r_processed r ->
                     List.length (processedJobIds r1) = r_processed r1)).
    { unfold batchStep in Hstep.
      destruct (processJob this db rawJob) as [[[cleanJob |] | e] db'];
        try (injection Hstep as <- <-; cbn; repeat split; auto; lia).
      destruct (insertCleanJob this db' cleanJob) as [[[created id] db2] | e];
        injection Hstep as <- <-; cbn; rewrite ?length_app; cbn;
        repeat split; try lia; destruct created; lia. }
    cbn [snd] in IH. destruct IH as (Ht & Hp & Hc & Hl).
    destruct H1 as (Ht1 & Hp1 & Hc1 & Hl1).
    repeat split; auto; lia.
Qed.

(** X25: In the results of [batchProcess], [total] is the size of the
    batch, processed + errors = total, created + skipped = processed, and
    [processedJobIds] has [processed] elements. *)
Theorem batchProcess_counts (this : Processor) (raw : RawStore) (db : CleanStore)
    (rawJobs : list RawJob) :
  let results := snd (batchProcess this raw db rawJobs) in
  total results = List.length rawJobs
  /\ r_processed results + r_errors results = total results
  /\ r_created results + r_skipped results = r_processed results
  /\ List.length (processedJobIds results) = r_processed results.
Proof.
  cbn zeta. unfold batchProcess.
  pose proof (batchStep_counts this rawJobs
                (db, {| total := List.length rawJobs; r_processed := 0;
                        r_created := 0; r_skipped := 0; r_errors := 0;
                        processedJobIds := [] |})) as H.
  cbn zeta in H.
  destruct (fold_left (batchStep this) rawJobs _) as [db' results].
  cbn [snd total r_processed r_created r_skipped r_errors processedJobIds
       List.length] in *.
  destruct H as (Ht & Hp & Hc & Hl).
  repeat split; auto; lia.
Qed.

End WithRuntime.
End BatchFacts.

(* ================================================================== *)
(** * Further properties: the raw store across cycles *)
(* ================================================================== *)

Module RawStoreFacts.
Import DataProcessorApp.
Import DatabaseService.

Lemma markJobsProcessed_none (raw : RawStore) : markJobsProcessed raw [] = raw.
Proof. unfold markJobsProcessed. apply map_id. Qed.

Section WithRuntime.
Context {rt : Runtime}.

Lemma processPlatform_marks (a : App) (w : World) (size : Z) (key : string) :
  exists ids,
    rawStore (snd (fst (processPlatform a w size key)))
    = markJobsProcessed (rawStore w) ids.
Proof.
  unfold processPlatform.
  destruct (get (processors a) key) as [processor |];
    [| exists []; rewrite markJobsProcessed_none; reflexivity].
  destruct (get (platforms (globalConfig a)) key) as [entry |];
    [| exists []; rewrite markJobsProcessed_none; reflexivity].
  destruct (getUnprocessedJobs _ _ _) as [[| rawJob rawJobs] | e];
    try (exists []; rewrite markJobsProcessed_none; reflexivity).
  destruct (BaseProcessor.processJobs processor (rawJob :: rawJobs) (globalConfig a))
    as [transformed processor'].
  cbn [fst snd rawStore].
  destruct (processedJobIds (commitJobs (cleanStore w) transformed)) as [| id ids].
  - exists []. rewrite markJobsProcessed_none. reflexivity.
  - eexists. reflexivity.
Qed.

Lemma step_marks (s : System) (e : Event) :
  exists ids,
    rawStore (world (step s e)) = markJobsProcessed (rawStore (world s)) ids.
Proof.
  assert (Hsame : forall s', rawStore (world s') = rawStore (world s) ->
                             exists ids, rawStore (world s')
                                         = markJobsProcessed (rawStore (world s)) ids).
  { intros s' ->. exists []. rewrite markJobsProcessed_none. reflexivity. }
  assert (Hinvoke : rawStore (world (invoke s)) = rawStore (world s)).
  { unfold invoke. destruct (isProcessing (app s)); reflexivity. }
  destruct e as [| | index]; cbn [step].
  - apply Hsame, Hinvoke.
  - apply Hsame. unfold cronTick. destruct (negb _); [apply Hinvoke | reflexivity].
  - unfold resume. destruct (nth_error (running s) index) as [cycle |];
      [| apply Hsame; reflexivity].
    destruct (remaining cycle) as [| key rest]; [apply Hsame; reflexivity |].
    destruct (processPlatform_marks (app s) (world s) (batchSize cycle) key)
      as [ids Hids].
    destruct (processPlatform (app s) (world s) (batchSize cycle) key)
      as [[a w] [[p ok] ko]].
    exists ids. exact Hids.
Qed.

(** X26: Whatever calls, cron firings and resumptions occur,
    the raw store afterwards is the raw store before with the rows of some
    list of identifiers marked: no row is added, removed, moved or
    rewritten, and a row that was processed stays as it is. *)
Theorem cycles_only_set_processed_flags (s : System) (events : list Event) :
  let before := rawStore (world s) in
  let after := rawStore (world (run s events)) in
  (exists ids, after = markJobsProcessed before ids)
  /\ map job_id after = map job_id before
  /\ (forall row, In row before -> processed row = true -> In row after).
Proof.
  cbn zeta.
  assert (Hmarks : exists ids,
             rawStore (world (run s events))
             = markJobsProcessed (rawStore (world s)) ids).
  { unfold run. revert s. induction events as [| e rest IH]; intros s;
      cbn [fold_left].
    - exists []. rewrite markJobsProcessed_none. reflexivity.
    - destruct (IH (step s e)) as [later Hlater].
      destruct (step_marks s e) as [first Hfirst].
      exists (first ++ later). rewrite Hlater, Hfirst.
      unfold markJobsProcessed. rewrite map_map.
      apply map_ext, MarkFacts.markProcessed_twice. }
  split; [assumption |]. destruct Hmarks as [ids ->].
  unfold markJobsProcessed. split.
  - rewrite map_map. apply map_ext, MarkFacts.markProcessed_id.
  - intros row Hin Hp. apply in_map_iff. exists row. split; [| assumption].
    unfold markProcessed. destruct (existsb _ ids); [| reflexivity].
    destruct row. cbn in Hp. subst. reflexivity.
Qed.

End WithRuntime.
End RawStoreFacts.

(* ================================================================== *)
(** * Further properties: the AI adapter *)
(* ================================================================== *)

Module AdapterFacts.
Import AIProcessor.

Section WithProvider.
Variable request : string -> option string -> string -> completion AiValue.

Lemma process_budget (this : State) (prompt : option string) (text : string) :
  (0 <= dailyCallCount this <= dailyLimit this)%Z ->
  let after := snd (process request this prompt text) in
  (0 <= dailyCallCount after <= dailyLimit after)%Z
  /\ dailyLimit after = dailyLimit this
  /\ enabled after = enabled this
  /\ apiKey after = apiKey this
  /\ provider after = provider this.
Proof.
  intros Hb. cbn zeta. unfold process.
  destruct (negb (enabled this) || negb (truthy (apiKey this)))%bool;
    [cbn; auto |].
  destruct (dailyLimit this <=? dailyCallCount this)%Z eqn:Hl; [cbn; auto |].
  apply Z.leb_gt in Hl. cbn. repeat split; lia.
Qed.

(** X27: After any sequence of [process] and [resetDailyCount] calls
    on a new adapter the call count lies between 0 and 10000; a disabled
    adapter, one without an API key and one that reached the limit answer
    [null] without counting and whatever the provider would say; and one
    call raises the count by at most one. *)
Theorem daily_limit_is_never_exceeded (env : Env) (calls : list Call) :
  let this := fold_left (perform request) calls (create env) in
  (0 <= dailyCallCount this <= 10000)%Z
  /\ (forall prompt text,
        enabled this = false \/ truthy (apiKey this) = false
        \/ dailyCallCount this = 10000%Z ->
        process request this prompt text = (AiNull, this))
  /\ (forall prompt text,
        (dailyCallCount (snd (process request this prompt text))
         <= dailyCallCount this + 1)%Z).
Proof.
  cbn zeta.
  assert (Hinv : forall start,
             (0 <= dailyCallCount start <= 10000)%Z -> dailyLimit start = 10000%Z ->
             let this := fold_left (perform request) calls start in
             (0 <= dailyCallCount this <= 10000)%Z /\ dailyLimit this = 10000%Z).
  { induction calls as [| call rest IH]; intros start Hb Hl; cbn [fold_left]; auto.
    destruct call as [prompt text |]; cbn [perform].
    - destruct (process_budget start prompt text) as (Hb' & Hl' & _);
        [lia |].
      rewrite Hl in Hl'. apply IH; [rewrite <- Hl' | exact Hl']. exact Hb'.
    - apply IH; cbn; [lia | assumption]. }
  destruct (Hinv (create env)) as [Hb Hl]; [cbn; lia | reflexivity |].
  cbn zeta in Hb, Hl. split; [assumption |]. split.
  - intros prompt text Hoff. unfold process. rewrite Hl.
    destruct Hoff as [-> | [-> | ->]]; cbn [negb orb]; try reflexivity.
    + rewrite orb_true_r. reflexivity.
    + destruct (_ || _)%bool; reflexivity.
  - intros prompt text. unfold process.
    destruct (_ || _)%bool; [cbn; lia |].
    destruct (_ <=? _)%Z; cbn; lia.
Qed.

End WithProvider.
End AdapterFacts.

(* ================================================================== *)
(** * Further properties: the processors of the application *)
(* ================================================================== *)

Module StartupFacts.
Import DataProcessorApp.
Import Startup.







End StartupFacts.

(* ================================================================== *)
(** * Further properties: the logged numbers *)
(* ================================================================== *)

Module AccountingFacts.
Import DataProcessorApp.
Import Accounting.

Lemma commitJob_log (acc : Commit) (job : Job) :
  Forall balanced (cm_log acc) -> Forall balanced (cm_log (commitJob acc job)).
Proof.
  intros H. unfold commitJob.
  destruct (DatabaseService.upsertCompany (cm_store acc) (company job))
    as [[companyId store1] | e].
  - destruct (DatabaseService.insertJobPost store1 (toJobData companyId job))
      as [[[id |] store2] | e]; cbn [cm_log]; auto.
    apply Forall_app. split; [assumption | repeat constructor].
  - cbn [cm_log]. apply Forall_app. split; [assumption | repeat constructor].
Qed.

Lemma fold_commitJob_log (jobs : list Job) (acc : Commit) :
  Forall balanced (cm_log acc) ->
  Forall balanced (cm_log (fold_left commitJob jobs acc)).
Proof.
  revert acc. induction jobs as [| job rest IH]; intros acc H; cbn [fold_left].
  - assumption.
  - apply IH, commitJob_log, H.
Qed.

Lemma skipn_In {A} (n : nat) (x : A) (l : list A) : In x (skipn n l) -> In x l.
Proof.
  revert l. induction n as [| n IH]; intros [| y l]; cbn; auto.
Qed.

Lemma replaceNth_Forall {A} (P : A -> Prop) (n : nat) (x : A) (l : list A) :
  Forall P l -> P x -> Forall P (replaceNth n x l).
Proof.
  intros Hl Hx. unfold replaceNth. apply Forall_app. split.
  - apply Forall_forall. intros y Hy. rewrite Forall_forall in Hl.
    apply Hl. eapply CycleFacts.firstn_In. eassumption.
  - constructor; [assumption |].
    apply Forall_forall. intros y Hy. rewrite Forall_forall in Hl.
    apply Hl. eapply skipn_In. eassumption.
Qed.

Lemma removeNth_Forall {A} (P : A -> Prop) (n : nat) (l : list A) :
  Forall P l -> Forall P (removeNth n l).
Proof.
  intros Hl. unfold removeNth. rewrite Forall_forall in Hl.
  apply Forall_app. split; apply Forall_forall; intros y Hy; apply Hl.
  - eapply CycleFacts.firstn_In. eassumption.
  - eapply skipn_In. eassumption.
Qed.

Section WithRuntime.
Context {rt : Runtime}.

(** Started from zero, the statistics of a batch add up. *)
Lemma processJobs_balance (this : BaseProcessor.Processor) (rawJobs : list RawJob)
    (g : GlobalConfig) :
  BaseProcessor.stats this = BaseProcessor.resetStats ->
  let st := BaseProcessor.stats (snd (BaseProcessor.processJobs this rawJobs g)) in
  BaseProcessor.st_processed st
  = BaseProcessor.st_success st + BaseProcessor.st_failed st.
Proof.
  intros Hreset. cbn zeta. unfold BaseProcessor.processJobs.
  pose proof (StatsFacts.processOne_counts this g rawJobs
                ([], BaseProcessor.stats this)) as H.
  cbn zeta in H.
  destruct (fold_left (BaseProcessor.processOne this g) rawJobs
              ([], BaseProcessor.stats this)) as [jobs st].
  rewrite Hreset in H. cbn in *. lia.
Qed.

Lemma processPlatform_accounts (a : App) (w : World) (size : Z) (key : string) :
  Forall fresh (processors a) ->
  Forall balanced (log w) ->
  let '(a', w', (p, ok, ko)) := processPlatform a w size key in
  Forall fresh (processors a') /\ Forall balanced (log w') /\ p = ok + ko.
Proof.
  intros Hfresh Hlog. unfold processPlatform.
  assert (Hadd : forall entry, balanced entry ->
                   Forall balanced (log (addLog w [entry]))).
  { intros entry He. cbn. apply Forall_app. split; [assumption |].
    repeat constructor. assumption. }
  destruct (get (processors a) key) as [processor |] eqn:Hp;
    [| repeat split; [assumption | apply Hadd; exact I]].
  destruct (get (platforms (globalConfig a)) key) as [entry |];
    [| repeat split; [assumption | apply Hadd; exact I]].
  destruct (DatabaseService.getUnprocessedJobs _ _ _) as [[| rawJob rawJobs] | e];
    try (repeat split; [assumption | apply Hadd; exact I]).
  assert (Hreset : BaseProcessor.stats processor = BaseProcessor.resetStats).
  { apply LevelFacts.get_In in Hp. rewrite Forall_forall in Hfresh.
    apply (Hfresh _ Hp). }
  pose proof (processJobs_balance processor (rawJob :: rawJobs) (globalConfig a)
                Hreset) as Hbal. cbn zeta in Hbal.
  destruct (BaseProcessor.processJobs processor (rawJob :: rawJobs) (globalConfig a))
    as [transformed processor'].
  cbn [snd] in Hbal. split; [| split; [| exact Hbal]].
  - unfold setProcessor. cbn [processors]. apply Forall_forall.
    intros kp Hin. apply in_map_iff in Hin as (old & <- & Hold).
    destruct (String.eqb (fst old) key); [reflexivity |].
    rewrite Forall_forall in Hfresh. apply Hfresh, Hold.
  - cbn [log]. repeat (apply Forall_app; split); try assumption.
    + repeat constructor.
    + apply fold_commitJob_log. constructor.
    + destruct (processedJobIds (commitJobs (cleanStore w) transformed)) eqn:Hids;
        [constructor |].
      repeat constructor. cbn [balanced]. rewrite <- Hids.
      apply (RoundTripFacts.fold_commitJob_counts transformed). reflexivity.
    + repeat constructor. exact Hbal.
Qed.

Lemma step_accounts (s : System) (e : Event) :
  Forall fresh (processors (app s)) ->
  Forall totalsAddUp (running s) ->
  Forall balanced (log (world s)) ->
  Forall fresh (processors (app (step s e)))
  /\ Forall totalsAddUp (running (step s e))
  /\ Forall balanced (log (world (step s e))).
Proof.
  intros Hfresh Hrun Hlog.
  assert (Hadd : forall entry, balanced entry ->
                   Forall balanced (log (addLog (world s) [entry]))).
  { intros entry He. cbn. apply Forall_app. split; [assumption |].
    repeat constructor. assumption. }
  assert (Hinvoke : Forall fresh (processors (app (invoke s)))
                    /\ Forall totalsAddUp (running (invoke s))
                    /\ Forall balanced (log (world (invoke s)))).
  { unfold invoke. destruct (isProcessing (app s)); cbn [app running world].
    - repeat split; [assumption | assumption | apply Hadd; exact I].
    - repeat split; [assumption | | apply Hadd; exact I].
      apply Forall_app. split; [assumption |]. repeat constructor. }
  destruct e as [| | index]; cbn [step].
  - exact Hinvoke.
  - unfold cronTick. destruct (negb _); [exact Hinvoke |].
    cbn [app running world]. repeat split; [assumption | assumption |].
    apply Hadd. exact I.
  - unfold resume.
    destruct (nth_error (running s) index) as [cycle |] eqn:Hnth; [| auto].
    assert (Hcycle : totalsAddUp cycle).
    { rewrite Forall_forall in Hrun. apply Hrun.
      eapply nth_error_In. eassumption. }
    destruct (remaining cycle) as [| key rest].
    + cbn [app running world]. repeat split.
      * assumption.
      * apply removeNth_Forall. assumption.
      * apply Hadd. exact Hcycle.
    + pose proof (processPlatform_accounts (app s) (world s) (batchSize cycle) key
                    Hfresh Hlog) as H.
      destruct (processPlatform (app s) (world s) (batchSize cycle) key)
        as [[a w] [[p ok] ko]].
      destruct H as (Hf & Hl & Hsum). cbn [app running world].
      repeat split; try assumption.
      apply replaceNth_Forall; [assumption |].
      unfold totalsAddUp in *. cbn. lia.
Qed.

(** X29: From an application whose processors have zeroed statistics,
    whatever calls, cron firings and resumptions occur: in every logged
    platform statistic and cycle total, processed = success + failed; every
    "inserted, marked" message has two equal numbers; and the processors'
    statistics are zero again between platforms. *)
Theorem logged_numbers_add_up (g : GlobalConfig)
    (ps : dict BaseProcessor.Processor) (env : option string)
    (raw : RawStore) (clean : CleanStore) (events : list Event) :
  Forall fresh ps ->
  let s := run (initial g ps env raw clean) events in
  Forall balanced (log (world s))
  /\ Forall totalsAddUp (running s)
  /\ Forall fresh (processors (app s)).
Proof.
  intros Hfresh. cbn zeta.
  assert (H : forall s,
             Forall fresh (processors (app s)) ->
             Forall totalsAddUp (running s) ->
             Forall balanced (log (world s)) ->
             Forall balanced (log (world (run s events)))
             /\ Forall totalsAddUp (running (run s events))
             /\ Forall fresh (processors (app (run s events)))).
  { unfold run. induction events as [| e rest IH]; intros s Hf Hr Hl;
      cbn [fold_left]; [auto |].
    destruct (step_accounts s e Hf Hr Hl) as (Hf1 & Hr1 & Hl1). auto. }
  apply H; cbn; auto.
Qed.

End WithRuntime.

(** One whole cycle of the sample application. *)
Lemma logged_numbers_add_up_witness :
  Forall balanced
    (log (world (@run Demo.runtime Cases.idle [Invoke; Resume 0; Resume 0]))).
Proof.
  apply (@logged_numbers_add_up Demo.runtime Samples.globalConfig
           [("careerviet", Samples.processor Samples.careerviet)] None
           Samples.rawRows Samples.cleanRows [Invoke; Resume 0; Resume 0]).
  repeat constructor.
Defined.

End AccountingFacts.
